(** * Copier: the execution-context models of [copier/models.py]

    A shallow embedding of the classes [AnswersMap], [Template],
    [Subproject] and [Worker], and the properties their specification
    states about them.

    Conventions of the embedding:
    - Python values are the inductive [PyVal]; a [dict] is an association
      list in insertion order (Python dicts iterate in insertion order).
    - A Python exception is a constructor of [Exn]; code that may raise
      returns [Exc A]; code that also touches the destination, the terminal
      or child processes is a function of the [World] (monad [M]).
    - Collaborators that live outside [models.py] (the templating engine,
      the pattern matcher, the YAML parser, the VCS driver, the helpers
      imported from other modules of the package) are the fields of the
      class [Collaborators]. *)

From Stdlib Require Import ZArith Lia Ascii.
From stdpp Require Import gmap strings list fin_maps.

Local Open Scope string_scope.
#[local] Set Warnings "-register-all".

(** ** Python strings *)

Module Str.

(** [s.startswith(p)] *)
Definition startswith (s p : string) : bool := String.prefix p s.

(** [s.endswith(suf)] *)
Definition endswith (s suf : string) : bool :=
  let n := String.length s in
  let m := String.length suf in
  (m <=? n)%nat && String.eqb (String.substring (n - m) m s) suf.

(** [s[: -m]]: Python reads the bound [-0] as [0], so the slice is empty
    when [m = 0]; a bound below the start is clamped to the start. *)
Definition slice_to_neg (m : nat) (s : string) : string :=
  match m with
  | O => ""
  | S _ => String.substring 0 (String.length s - m) s
  end.

(** [s.split(sep)] for a one-character separator *)
Fixpoint split (sep : Ascii.ascii) (s : string) : list string :=
  match s with
  | EmptyString => [EmptyString]
  | String c s' =>
      if Ascii.eqb c sep then EmptyString :: split sep s'
      else match split sep s' with
           | [] => [String c EmptyString]
           | h :: t => String c h :: t
           end
  end.

(** [sep.join(l)] *)
Fixpoint join (sep : string) (l : list string) : string :=
  match l with
  | [] => ""
  | [x] => x
  | x :: l' => x ++ sep ++ join sep l'
  end.

(** [bool(s)] *)
Definition truthy (s : string) : bool := negb (String.eqb s "").

End Str.

(** ** Exceptions and results *)

Inductive Exn : Type :=
| TypeError (msg : string)
| IndexError (msg : string)
| KeyError (key : string)
| ValueError (msg : string)
| AttributeError (msg : string)
| AssertionError (msg : string)
| FileNotFoundError
| IsADirectoryError
| NotADirectoryError
| FileExistsError
| PermissionError
| UnicodeDecodeError
| ValidationError (msg : string)
| CalledProcessError (code : Z)
| ExternalError (kind msg : string).

(** [isinstance(e, OSError)] *)
Definition is_OSError (e : Exn) : bool :=
  match e with
  | FileNotFoundError | IsADirectoryError | NotADirectoryError
  | FileExistsError | PermissionError => true
  | _ => false
  end.

(** The error the specification calls TemplateNotFound *)
Definition TemplateNotFound : Exn := TypeError "Template not found".

Inductive Exc (A : Type) : Type :=
| Ok (a : A)
| Raise (e : Exn).
Arguments Ok {A} a.
Arguments Raise {A} e.

(** The exception monad, with stdpp's [x ← c; k] notation. *)
#[export] Instance exc_ret : MRet Exc := fun A a => Ok a.
#[export] Instance exc_bind : MBind Exc := fun A B k x =>
  match x with
  | Ok a => k a
  | Raise e => Raise e
  end.

(** [assert cond, msg] *)
Definition py_assert (cond : bool) (msg : string) : Exc unit :=
  if cond then Ok tt else Raise (AssertionError msg).

(** ** Python values *)

Inductive PyVal : Type :=
| VNone
| VBool (b : bool)
| VInt (z : Z)
| VStr (s : string)
| VList (items : list PyVal)
| VDict (items : list (string * PyVal))
| VObj (repr : string).

(** A [dict] keyed by strings ([AnyByStrDict]), in insertion order. *)
Abbreviation PyDict := (list (string * PyVal)).

(** [bool(v)]; an object without [__bool__] or [__len__] is true. *)
Definition truthy (v : PyVal) : bool :=
  match v with
  | VNone => false
  | VBool b => b
  | VInt z => negb (z =? 0)%Z
  | VStr s => Str.truthy s
  | VList l => match l with [] => false | _ => true end
  | VDict d => match d with [] => false | _ => true end
  | VObj _ => true
  end.

Module Dict.

(** [d.get(k)] as an option; the first binding of a key is the binding *)
Fixpoint lookup (k : string) (d : PyDict) : option PyVal :=
  match d with
  | [] => None
  | (k', v) :: d' => if String.eqb k k' then Some v else lookup k d'
  end.

(** [k in d] *)
Definition mem (k : string) (d : PyDict) : bool :=
  match lookup k d with Some _ => true | None => false end.

(** [d[k]] *)
Definition getitem (d : PyDict) (k : string) : Exc PyVal :=
  match lookup k d with
  | Some v => Ok v
  | None => Raise (KeyError k)
  end.

(** [d.get(k)], [None] when absent *)
Definition get (d : PyDict) (k : string) : PyVal :=
  match lookup k d with Some v => v | None => VNone end.

(** [d.get(k, dflt)] *)
Definition get_default (d : PyDict) (k : string) (dflt : PyVal) : PyVal :=
  match lookup k d with Some v => v | None => dflt end.

(** [d[k] = v]: an existing key keeps its position, a new one goes last *)
Fixpoint set (k : string) (v : PyVal) (d : PyDict) : PyDict :=
  match d with
  | [] => [(k, v)]
  | (k', v') :: d' =>
      if String.eqb k k' then (k, v) :: d' else (k', v') :: set k v d'
  end.

(** [d.update(items)] *)
Definition update (d : PyDict) (items : list (string * PyVal)) : PyDict :=
  fold_left (fun acc kv => set (fst kv) (snd kv) acc) items d.

(** [list(d)] *)
Definition keys (d : PyDict) : list string := map fst d.

End Dict.

(** ** [collections.ChainMap] *)

Module ChainMap.

(** The [maps] attribute: the layers, first searched first. *)
Definition t := list PyDict.

(** [cm[k]]: the layers are searched in order; [__missing__] raises. *)
Fixpoint lookup (k : string) (maps : t) : option PyVal :=
  match maps with
  | [] => None
  | m :: rest =>
      match Dict.lookup k m with
      | Some v => Some v
      | None => lookup k rest
      end
  end.

Definition getitem (maps : t) (k : string) : Exc PyVal :=
  match lookup k maps with
  | Some v => Ok v
  | None => Raise (KeyError k)
  end.

(** [k in cm]: [any(k in m for m in self.maps)] *)
Definition mem (k : string) (maps : t) : bool :=
  existsb (Dict.mem k) maps.

(** [iter(cm)]: [d = {}; for m in reversed(maps): d.update(dict.fromkeys(m))] *)
Definition keys (maps : t) : list string :=
  Dict.keys
    (fold_left (fun d m => Dict.update d (map (fun k => (k, VNone)) (Dict.keys m)))
       (rev maps) []).

(** [cm.items()]: each key of [iter(cm)] with [cm[key]] *)
Definition items (maps : t) : list (string * PyVal) :=
  omap (fun k => match lookup k maps with
                 | Some v => Some (k, v)
                 | None => None
                 end) (keys maps).

End ChainMap.

(** ** [class AnswersMap] *)

Module AnswersMap.

Record t : Type := mk {
  init : PyDict;
  user : PyDict;
  last : PyDict;
  default : PyDict;
  _local : PyDict
}.

(** [AnswersMap(init=..., user=..., last=..., default=...)]: an omitted
    layer is [dict()] ([default_factory]); [_local] is always a new empty
    [dict].  On values without identity [deepcopy] is the identity; the
    store of objects is modelled in [Module Store] below. *)
Definition new (init_ user_ last_ default_ : option PyDict) : t :=
  let or_dict (o : option PyDict) := match o with Some d => d | None => [] end in
  {| init := or_dict init_;
     user := or_dict user_;
     last := or_dict last_;
     default := or_dict default_;
     _local := [] |}.

Section Combined.
(** [copier.config.objects.DEFAULT_DATA] *)
Variable DEFAULT_DATA : PyDict.

(** [AnswersMap.combined] *)
Definition combined (self : t) : ChainMap.t :=
  [ _local self; user self; init self; last self; default self; DEFAULT_DATA ].
End Combined.

(** [AnswersMap.old_commit] *)
Definition old_commit (self : t) : PyVal := Dict.get (last self) "_commit".

End AnswersMap.

(** ** [pathlib] paths

    A path is the tuple of its [parts], as [PurePosixPath.parts] gives it:
    an absolute path starts with the part ["/"], the path [Path(".")] has no
    part at all.  (The root [//] of POSIX is not modelled.) *)

Abbreviation Path := (list string).

Module PathLib.

(** [p.is_absolute()] *)
Definition is_absolute (p : Path) : bool :=
  match p with
  | first :: _ => String.eqb first "/"
  | [] => false
  end.

(** The components of one argument string: empty components and [.] go. *)
Definition segments (s : string) : list string :=
  List.filter (fun x => negb (String.eqb x "") && negb (String.eqb x "."))
    (Str.split "/"%char s).

(** [Path(s)] *)
Definition parse (s : string) : Path :=
  if Str.startswith s "/" then "/" :: segments s else segments s.

(** [p / q], [Path(p, q)]: an absolute right operand replaces the left. *)
Definition joinpath (p q : Path) : Path :=
  if is_absolute q then q else p ++ q.

(** [Path] applied to several argument strings, joined left to right *)
Definition of_parts (args : list string) : Path :=
  fold_left (fun p a => joinpath p (parse a)) args [].

(** [p.name] *)
Definition name (p : Path) : string :=
  match p with
  | [first] => if String.eqb first "/" then "" else first
  | _ => List.last p ""
  end.

(** [p.parent] *)
Definition parent (p : Path) : Path :=
  match p with
  | [first] => if String.eqb first "/" then p else []
  | _ => removelast p
  end.

Fixpoint strip_prefix (base p : Path) : option Path :=
  match base, p with
  | [], _ => Some p
  | b :: base', x :: p' =>
      if String.eqb b x then strip_prefix base' p' else None
  | _ :: _, [] => None
  end.

(** [p.relative_to(base)] *)
Definition relative_to (p base : Path) : Exc Path :=
  if Bool.eqb (is_absolute p) (is_absolute base) then
    match strip_prefix base p with
    | Some r => Ok r
    | None => Raise (ValueError "not in the subpath")
    end
  else Raise (ValueError "not in the subpath").

(** [str(p)] *)
Definition to_str (p : Path) : string :=
  match p with
  | [] => "."
  | first :: rest =>
      if String.eqb first "/" then "/" ++ Str.join "/" rest
      else Str.join "/" p
  end.

End PathLib.

(** ** The file system of the destination

    A finite map from paths to nodes.  Paths are looked up as written: no
    symbolic links, no resolution of [..]. *)

Inductive Node : Type :=
| Dir
| File (content : string)
| Unreadable.

Abbreviation FileSystem := (gmap (list string) Node).

Inductive Found : Type :=
| Missing
| NotDir
| Is (n : Node).

Module FS.

(** The working directory and the root always exist. *)
Definition stat (fs : FileSystem) (p : Path) : option Node :=
  match p with
  | [] => Some Dir
  | [first] => if String.eqb first "/" then Some Dir else fs !! p
  | _ => fs !! p
  end.

(** Name resolution, one component at a time. *)
Fixpoint walk (fs : FileSystem) (seen : Path) (rest : list string) : Found :=
  match rest with
  | [] => match stat fs seen with
          | Some n => Is n
          | None => Missing
          end
  | x :: rest' =>
      match stat fs seen with
      | Some Dir => walk fs (seen ++ [x]) rest'
      | Some _ => NotDir
      | None => Missing
      end
  end.

Definition find (fs : FileSystem) (p : Path) : Found := walk fs [] p.

(** [p.exists()] *)
Definition exists_ (fs : FileSystem) (p : Path) : bool :=
  match find fs p with
  | Is _ => true
  | _ => false
  end.

(** [p.read_text()] *)
Definition read_text (fs : FileSystem) (p : Path) : Exc string :=
  match find fs p with
  | Is (File c) => Ok c
  | Is Dir => Raise IsADirectoryError
  | Is Unreadable => Raise PermissionError
  | Missing => Raise FileNotFoundError
  | NotDir => Raise NotADirectoryError
  end.

(** [p.write_text(c)] *)
Definition write_text (fs : FileSystem) (p : Path) (c : string) : Exc FileSystem :=
  match find fs p with
  | Is (File _) => Ok (<[p := File c]> fs)
  | Is Dir => Raise IsADirectoryError
  | Is Unreadable => Raise PermissionError
  | NotDir => Raise NotADirectoryError
  | Missing =>
      match find fs (PathLib.parent p) with
      | Is Dir => Ok (<[p := File c]> fs)
      | Missing => Raise FileNotFoundError
      | _ => Raise NotADirectoryError
      end
  end.

(** [p.mkdir(exist_ok=True)] *)
Definition mkdir_exist_ok (fs : FileSystem) (p : Path) : Exc FileSystem :=
  match find fs p with
  | Is Dir => Ok fs
  | Is _ => Raise FileExistsError
  | NotDir => Raise NotADirectoryError
  | Missing =>
      match find fs (PathLib.parent p) with
      | Is Dir => Ok (<[p := Dir]> fs)
      | Missing => Raise FileNotFoundError
      | _ => Raise NotADirectoryError
      end
  end.

End FS.

(** ** The template tree

    What [iterdir], [is_dir] and [read_text] find under a source folder.
    The template is read only: the destination is not inside it. *)

Inductive Tree : Type :=
| TFile (content : string)
| TDir (children : list (string * Tree)).

(** ** The world the worker acts on *)

Inductive Cmd : Type :=
| Shell (line : string)
| Argv (args : list string).

Inductive Event : Type :=
| Print (text : string)
| Printf (action : string) (path : Path)
| Asked (question : string)
| TaskNotice (index total : nat) (cmd : Cmd)
| Ran (cmd : Cmd) (cwd : Path) (extra_env : PyDict).

Record World : Type := mkWorld {
  fs : FileSystem;
  (** what the user will type at the next prompts *)
  replies : list bool;
  (** what was printed, asked and run, oldest first *)
  trace : list Event
}.

Definition M (A : Type) : Type := World -> Exc A * World.

#[export] Instance M_ret : MRet M := fun A a w => (Ok a, w).
#[export] Instance M_bind : MBind M := fun A B k m w =>
  match m w with
  | (Ok a, w') => k a w'
  | (Raise e, w') => (Raise e, w')
  end.

(** A computation that only may raise *)
Definition lift {A} (x : Exc A) : M A := fun w => (x, w).

Definition emit (e : Event) : M unit :=
  fun w => (Ok tt, mkWorld (fs w) (replies w) (trace w ++ [e])).

(** [copier.tools.printf(action, path, quiet=quiet, file_=sys.stderr)] *)
Definition printf (action : string) (path : Path) (quiet : bool) : M unit :=
  if quiet then mret tt else emit (Printf action path).

(** [plumbum.cli.terminal.ask(question, default=True)]: the default is
    returned when the input is empty or at its end. *)
Definition ask (question : string) : M bool :=
  fun w =>
    let w' := mkWorld (fs w) (tl (replies w)) (trace w ++ [Asked question]) in
    (Ok (hd true (replies w)), w').

Definition read_fs {A} (f : FileSystem -> A) : M A := fun w => (Ok (f (fs w)), w).

Definition update_fs (f : FileSystem -> Exc FileSystem) : M unit :=
  fun w =>
    match f (fs w) with
    | Ok fs' => (Ok tt, mkWorld fs' (replies w) (trace w))
    | Raise e => (Raise e, w)
    end.

(** ** Collaborators

    Everything [models.py] imports and calls: constants and helpers of other
    modules of the package, [jinja2], [pathspec], [yaml], [unicodedata],
    [subprocess], the git command, and the listing of the template folder. *)

Record JinjaEnv : Type := mkJinjaEnv {
  loader_paths : list string;
  options : PyVal
}.

Class Collaborators : Type := {
  (** [copier.config.objects] *)
  DEFAULT_DATA : PyDict;
  DEFAULT_EXCLUDE : list string;
  DEFAULT_TEMPLATES_SUFFIX : string;
  (** [isinstance(v, copier.types.JSONSerializable)] *)
  JSONSerializable : PyVal -> bool;
  (** [copier.config.factory] *)
  filter_config : PyDict -> PyDict * PyDict;
  verify_minimum_version : PyVal -> Exc unit;
  (** [copier.config.user_data.load_config_data] *)
  load_config_data : Path -> Exc PyDict;
  (** [copier.vcs] *)
  get_repo : string -> option string;
  is_git_repo_root : string -> bool;
  clone : string -> option string -> Exc string;
  (** [git("describe", "--tags", "--always").strip()] in a working directory *)
  git_describe : Path -> Exc string;
  (** [git("status", "--porcelain").strip()] in a working directory *)
  git_status : Path -> Exc string;
  (** [yaml.safe_load] *)
  yaml_safe_load : string -> Exc PyVal;
  (** [unicodedata.normalize(form, s)] *)
  normalize : string -> string -> string;
  (** [pathspec.PathSpec.from_lines("gitwildmatch", lines).match_file] *)
  match_file : list string -> Path -> bool;
  (** [copier.tools.create_path_filter] *)
  create_path_filter : list string -> Path -> bool;
  (** [jinja2]: compiled templates, [env.from_string], [env.get_template],
      [tpl.render] *)
  JinjaTemplate : Type;
  from_string : JinjaEnv -> string -> Exc JinjaTemplate;
  get_template : JinjaEnv -> string -> Exc JinjaTemplate;
  render : JinjaTemplate -> PyDict -> Exc string;
  (** [subprocess.run(cmd, shell=..., check=True, env=...)] in a working
      directory, with the variables added to the environment *)
  subprocess_run :
    Cmd -> Path -> PyDict -> FileSystem -> Exc FileSystem;
  (** what is on disk at a source path *)
  src_tree : Path -> option Tree
}.

(** ** Helpers for dynamically typed values *)

(** [v.get(k)] on something that should be a [dict] *)
Definition attr_get (v : PyVal) (k : string) : Exc PyVal :=
  match v with
  | VDict d => Ok (Dict.get d k)
  | _ => Raise (AttributeError "object has no attribute 'get'")
  end.

(** [v.items()] on something that should be a [dict] *)
Definition attr_items (v : PyVal) : Exc PyDict :=
  match v with
  | VDict d => Ok d
  | _ => Raise (AttributeError "object has no attribute 'items'")
  end.

(** The characters of a string, as [iter(s)] yields them *)
Fixpoint chars (s : string) : list string :=
  match s with
  | EmptyString => []
  | String c s' => String c EmptyString :: chars s'
  end.

(** The strings among the elements of [set(v)]; only they can equal a
    [str] key.  Lists and dicts are unhashable. *)
Fixpoint hashable_strs (items : list PyVal) : Exc (list string) :=
  match items with
  | [] => Ok []
  | VStr s :: rest => l ← hashable_strs rest; Ok (s :: l)
  | VList _ :: _ | VDict _ :: _ => Raise (TypeError "unhashable type")
  | _ :: rest => hashable_strs rest
  end.

Definition py_set (v : PyVal) : Exc (list string) :=
  match v with
  | VList l => hashable_strs l
  | VDict d => Ok (Dict.keys d)
  | VStr s => Ok (chars s)
  | _ => Raise (TypeError "object is not iterable")
  end.

(** [tuple(v)] where a sequence of strings ([StrSeq]) is expected *)
Fixpoint all_strs (items : list PyVal) : Exc (list string) :=
  match items with
  | [] => Ok []
  | VStr s :: rest => l ← all_strs rest; Ok (s :: l)
  | _ :: _ => Raise (TypeError "expected str")
  end.

Definition str_tuple (v : PyVal) : Exc (list string) :=
  match v with
  | VList l => all_strs l
  | VDict d => Ok (Dict.keys d)
  | VStr s => Ok (chars s)
  | _ => Raise (TypeError "object is not iterable")
  end.

(** A value used where the code needs a [str] *)
Definition as_str (v : PyVal) : Exc string :=
  match v with
  | VStr s => Ok s
  | _ => Raise (TypeError "expected str")
  end.

(** pydantic validation of a [str] and of an [Optional[str]] field; the
    coercions pydantic applies to numbers and bytes are not modelled. *)
Definition validate_str (v : PyVal) : Exc string :=
  match v with
  | VStr s => Ok s
  | _ => Raise (ValidationError "str type expected")
  end.

Definition validate_optstr (v : PyVal) : Exc (option string) :=
  match v with
  | VNone => Ok None
  | VStr s => Ok (Some s)
  | _ => Raise (ValidationError "str type expected")
  end.

(** [map(f, xs, ys)]: the iterator stops when the shortest iterable is
    exhausted. *)
Fixpoint py_map2 {A B C} (f : A -> B -> C) (xs : list A) (ys : list B) : list C :=
  match xs, ys with
  | x :: xs', y :: ys' => f x y :: py_map2 f xs' ys'
  | _, _ => []
  end.

(** ** [class Template] *)

Module Template.

Record t : Type := mk {
  url : string;
  ref : option string
}.

Section Getters.
Context `{Collaborators}.

(** [Template.vcs] *)
Definition vcs (self : t) : option string :=
  match get_repo (url self) with
  | Some r => if Str.truthy r then Some "git" else None
  | None => None
  end.

Definition vcs_is_git (self : t) : bool :=
  match vcs self with Some _ => true | None => false end.

(** [Template.url_expanded]: [get_repo(self.url) or self.url] *)
Definition url_expanded (self : t) : string :=
  match get_repo (url self) with
  | Some r => if Str.truthy r then r else url self
  | None => url self
  end.

(** [Template.local_path] *)
Definition local_path (self : t) : Exc Path :=
  if vcs_is_git self && negb (is_git_repo_root (url_expanded self)) then
    p ← clone (url_expanded self) (ref self); Ok (PathLib.parse p)
  else Ok (PathLib.parse (url self)).

(** [Template._raw_config]: [suppress(KeyError)] covers the lookup and
    the verification. *)
Definition _raw_config (self : t) : Exc PyDict :=
  lp ← local_path self;
  result ← load_config_data lp;
  match Dict.lookup "_min_copier_version" result with
  | None => Ok result
  | Some v =>
      match verify_minimum_version v with
      | Ok _ => Ok result
      | Raise (KeyError _) => Ok result
      | Raise e => Raise e
      end
  end.

(** [Template.commit] *)
Definition commit (self : t) : Exc (option string) :=
  if vcs_is_git self then
    lp ← local_path self; c ← git_describe lp; Ok (Some c)
  else Ok None.

(** [Template.config_data] *)
Definition config_data (self : t) : Exc PyDict :=
  raw ← _raw_config self; Ok (fst (filter_config raw)).

(** [Template.questions_data] *)
Definition questions_data (self : t) : Exc PyDict :=
  raw ← _raw_config self; Ok (snd (filter_config raw)).

Fixpoint defaults_of (questions : PyDict) (result : PyDict) : Exc PyDict :=
  match questions with
  | [] => Ok result
  | (key, value) :: rest =>
      d ← attr_get value "default";
      defaults_of rest (Dict.set key d result)
  end.

(** [Template.default_answers] *)
Definition default_answers (self : t) : Exc PyDict :=
  q ← questions_data self; defaults_of q [].

Fixpoint secret_keys (questions : PyDict) (result : list string)
  : Exc (list string) :=
  match questions with
  | [] => Ok result
  | (key, value) :: rest =>
      s ← attr_get value "secret";
      secret_keys rest (if truthy s then (result ++ [key])%list else result)
  end.

(** [Template.secret_questions], a set of strings *)
Definition secret_questions (self : t) : Exc (list string) :=
  cfg ← config_data self;
  result ← py_set (Dict.get_default cfg "secret_questions" (VDict []));
  q ← questions_data self;
  secret_keys q result.

(** [Template.tasks] *)
Definition tasks (self : t) : Exc PyVal :=
  cfg ← config_data self; Ok (Dict.get_default cfg "tasks" (VList [])).

(** [Template.templates_suffix] *)
Definition templates_suffix (self : t) : Exc PyVal :=
  cfg ← config_data self;
  Ok (Dict.get_default cfg "templates_suffix" (VStr DEFAULT_TEMPLATES_SUFFIX)).

End Getters.

End Template.

(** ** [class Subproject]

    The getters read the file system as it is when they are first used
    ([cached_property]); that state is the argument [disk]. *)

Module Subproject.

Record t : Type := mk {
  local_path : Path;
  answers_relpath : Path
}.

(** The default [answers_relpath] *)
Definition default_answers_relpath : Path := [".copier-answers.yml"].

Section Getters.
Context `{Collaborators}.
Variable disk : FileSystem.

(** [Subproject.vcs] *)
Definition vcs (self : t) : option string :=
  if is_git_repo_root (PathLib.to_str (local_path self)) then Some "git"
  else None.

(** [Subproject.is_dirty] *)
Definition is_dirty (self : t) : Exc bool :=
  match vcs self with
  | Some _ => s ← git_status (local_path self); Ok (Str.truthy s)
  | None => Ok false
  end.

(** [Subproject._raw_answers]: the [try] covers reading and parsing. *)
Definition _raw_answers (self : t) : Exc PyVal :=
  let attempt :=
    text ← FS.read_text disk
             (PathLib.joinpath (local_path self) (answers_relpath self));
    yaml_safe_load text in
  match attempt with
  | Ok v => Ok v
  | Raise e => if is_OSError e then Ok (VDict []) else Raise e
  end.

(** [Subproject.last_answers] *)
Definition last_answers (self : t) : Exc PyDict :=
  raw ← _raw_answers self;
  items ← attr_items raw;
  Ok (List.filter
        (fun kv =>
           String.eqb (fst kv) "_src_path" || String.eqb (fst kv) "_commit"
           || negb (Str.startswith (fst kv) "_"))
        items).

(** [Subproject.template] *)
Definition template (self : t) : Exc (option Template.t) :=
  raw ← _raw_answers self;
  last_url ← attr_get raw "_src_path";
  last_ref ← attr_get raw "_commit";
  if truthy last_url then
    u ← validate_str last_url;
    r ← validate_optstr last_ref;
    Ok (Some (Template.mk u r))
  else Ok None.

End Getters.

End Subproject.

(** ** [class Worker] *)

Module Worker.

Record t : Type := mk {
  answers_file : Path;
  cleanup_on_error : bool;
  data : PyDict;
  dst_path : Path;
  envops : PyVal;
  exclude : list string;
  extra_paths : list Path;
  force : bool;
  pretend : bool;
  quiet : bool;
  skip_if_exists : list string;
  src_path : option string;
  subdirectory : option string;
  use_prereleases : bool;
  vcs_ref : option string
}.

(** [str(x)] of an [Optional[str]] *)
Definition str_of_opt (o : option string) : string :=
  match o with Some s => s | None => "None" end.

(** [bool(x)] of an [Optional[str]] *)
Definition truthy_opt (o : option string) : bool :=
  match o with Some s => Str.truthy s | None => false end.

Definition val_of_opt (o : option string) : PyVal :=
  match o with Some s => VStr s | None => VNone end.

(** The public configuration, as templates see it in [_copier_conf] *)
Definition as_value (self : t) : PyVal :=
  VDict [
    ("answers_file", VStr (PathLib.to_str (answers_file self)));
    ("cleanup_on_error", VBool (cleanup_on_error self));
    ("data", VDict (data self));
    ("dst_path", VStr (PathLib.to_str (dst_path self)));
    ("envops", envops self);
    ("exclude", VList (map VStr (exclude self)));
    ("extra_paths", VList (map (fun p => VStr (PathLib.to_str p)) (extra_paths self)));
    ("force", VBool (force self));
    ("pretend", VBool (pretend self));
    ("quiet", VBool (quiet self));
    ("skip_if_exists", VList (map VStr (skip_if_exists self)));
    ("src_path", val_of_opt (src_path self));
    ("subdirectory", val_of_opt (subdirectory self));
    ("use_prereleases", VBool (use_prereleases self));
    ("vcs_ref", val_of_opt (vcs_ref self))
  ].

Section Derived.
Context `{Collaborators}.
(** the file system when the cached properties are first computed *)
Variable disk : FileSystem.

(** [Worker.subproject] *)
Definition subproject (self : t) : Subproject.t :=
  Subproject.mk (dst_path self) (answers_file self).

(** [Worker.template] *)
Definition template (self : t) : Exc Template.t :=
  if truthy_opt (src_path self) then
    Ok (Template.mk (str_of_opt (src_path self)) (vcs_ref self))
  else
    last_template ← Subproject.template disk (subproject self);
    match last_template with
    | None => Raise (TypeError "Template not found")
    | Some tpl => Ok tpl
    end.

(** [Worker.answers] *)
Definition answers (self : t) : Exc AnswersMap.t :=
  last ← Subproject.last_answers disk (subproject self);
  tpl ← template self;
  dflt ← Template.default_answers tpl;
  Ok (AnswersMap.new (Some (data self)) None (Some last) (Some dflt)).

(** [Worker.all_exclusions] *)
Definition all_exclusions (self : t) : Exc (list string) :=
  tpl ← template self;
  cfg ← Template.config_data tpl;
  base ← match Dict.lookup "exclude" cfg with
         | Some v => str_tuple v
         | None => Ok DEFAULT_EXCLUDE
         end;
  Ok (base ++ exclude self)%list.

(** [Worker.jinja_env] *)
Definition jinja_env (self : t) : JinjaEnv :=
  mkJinjaEnv
    (str_of_opt (src_path self) :: map PathLib.to_str (extra_paths self))
    (envops self).

(** The generator handed to [answers.update] in [_answers_to_remember];
    [and] evaluates its operands left to right and stops at the first
    false one. *)
Fixpoint remembered (tpl : Template.t) (items : list (string * PyVal))
  : Exc (list (string * PyVal)) :=
  match items with
  | [] => Ok []
  | (k, v) :: rest =>
      keep ← (if Str.startswith k "_" then Ok false
              else
                secrets ← Template.secret_questions tpl;
                Ok (negb (bool_decide (k ∈ secrets))
                    && JSONSerializable (VStr k)
                    && JSONSerializable v));
      r ← remembered tpl rest;
      Ok (if keep : bool then (k, v) :: r else r)
  end.

(** The local variable [answers] of [_answers_to_remember] when the
    body reaches its end *)
Definition answers_assembled (self : t) : Exc PyDict :=
  tpl ← template self;
  commit ← Template.commit tpl;
  let src := Template.url tpl in
  let answers' : PyDict := [] in
  let answers' :=
    match commit with
    | Some c => Dict.set "_commit" (VStr c) answers'
    | None => answers'
    end in
  let answers' := Dict.set "_src_path" (VStr src) answers' in
  am ← answers self;
  others ← remembered tpl
             (ChainMap.items (AnswersMap.combined DEFAULT_DATA am));
  Ok (Dict.update answers' others).

(** [Worker._answers_to_remember]: the body ends without a [return]
    statement, so the call evaluates to [None]. *)
Definition _answers_to_remember (self : t) : Exc (option PyDict) :=
  _ ← answers_assembled self;
  Ok None.

(** [**answers] in a call: the operand must be a mapping *)
Definition unpack_mapping (v : option PyDict) : Exc PyDict :=
  match v with
  | Some d => Ok d
  | None => Raise (TypeError "argument after ** must be a mapping, not NoneType")
  end.

Definition val_of_mapping (v : option PyDict) : PyVal :=
  match v with Some d => VDict d | None => VNone end.

(** [Worker._render_context] *)
Definition _render_context (self : t) : Exc PyDict :=
  answers' ← _answers_to_remember self;
  kwargs ← unpack_mapping answers';
  Ok (Dict.update DEFAULT_DATA
        (kwargs ++ [("_copier_answers", val_of_mapping answers');
                    ("_copier_conf", as_value self)])%list).

(** The function under the decorator of [_path_matcher] *)
Definition path_matcher_uncached (patterns : list string) : Path -> bool :=
  let normalized_patterns := py_map2 normalize ["NFD"] patterns in
  match_file normalized_patterns.

(** [hash(self)]: a pydantic model defines [__eq__], and the [Config] of
    [Worker] sets [allow_mutation = False] but not [frozen], so the class
    has no [__hash__]. *)
Definition hash_self (self : t) : Exc Z :=
  Raise (TypeError "unhashable type: 'Worker'").

(** [Worker._path_matcher], a method under [lru_cache]: the cache builds
    its key from the arguments, [self] first, and hashes it before the
    function under it is called. *)
Definition _path_matcher (self : t) (patterns : list string)
  : Exc (Path -> bool) :=
  _ ← hash_self self;
  Ok (path_matcher_uncached patterns).

End Derived.

(** *** Rendering and running

    The methods below call [self._render_context()]; they are written
    over that method, the argument [render_context], and [Worker.t]
    supplies [_render_context] for it. *)

Section Rendering.
Context `{Collaborators}.
Variable disk : FileSystem.
Variable render_context : t -> Exc PyDict.

(** [Worker.render_string] *)
Definition render_string (self : t) (s : string) : Exc string :=
  tpl ← from_string (jinja_env self) s;
  ctx ← render_context self;
  render tpl ctx.

(** The loop of [render_path] *)
Fixpoint render_parts (self : t) (parts rendered_parts : list string)
  : Exc (option (list string)) :=
  match parts with
  | [] => Ok (Some rendered_parts)
  | part :: rest =>
      part' ← render_string self part;
      if negb (Str.truthy part') then Ok None
      else render_parts self rest (rendered_parts ++ [part'])%list
  end.

(** [l[-1]] *)
Definition getitem_last (l : list string) : Exc string :=
  match l with
  | [] => Raise (IndexError "list index out of range")
  | _ :: _ => Ok (List.last l "")
  end.

(** [l[-1] = x] on a list that has a last element *)
Definition setitem_last (l : list string) (x : string) : list string :=
  (removelast l ++ [x])%list.

(** [Worker.render_path] *)
Definition render_path (self : t) (relpath : Path) : Exc (option Path) :=
  r ← render_parts self relpath [];
  match r with
  | None => Ok None
  | Some rendered_parts =>
      last_part ← getitem_last rendered_parts;
      tpl ← template disk self;
      sv ← Template.templates_suffix tpl;
      suffix ← as_str sv;
      let rendered_parts :=
        if Str.endswith last_part suffix then
          setitem_last rendered_parts
            (Str.slice_to_neg (String.length suffix) last_part)
        else rendered_parts in
      Ok (Some (PathLib.of_parts rendered_parts))
  end.

(** [Worker._solve_render_conflict] *)
Definition _solve_render_conflict (self : t) (dst_relpath : Path) : M bool :=
  _ ← lift (py_assert (negb (PathLib.is_absolute dst_relpath)) "");
  _ ← printf "conflict" dst_relpath (quiet self);
  if force self then mret true
  else ask (" Overwrite " +:+ PathLib.to_str dst_relpath +:+ "?").

(** [Worker._render_allowed] *)
Definition _render_allowed (self : t) (dst_relpath : Path) (is_dir : bool)
    (expected_contents : string) : M bool :=
  _ ← lift (py_assert (negb (PathLib.is_absolute dst_relpath)) "");
  _ ← lift (py_assert (negb (Str.truthy expected_contents) || negb is_dir)
              "Dirs cannot have expected content");
  exclusions ← lift (all_exclusions disk self);
  must_exclude ← lift (_path_matcher self exclusions);
  if must_exclude dst_relpath : bool then mret false
  else
    let dst_abspath :=
      PathLib.joinpath (Subproject.local_path (subproject self)) dst_relpath in
    let must_skip := create_path_filter (skip_if_exists self) in
    there ← read_fs (fun fs => FS.exists_ fs dst_abspath);
    if must_skip dst_relpath && there then mret false
    else
      previous ← read_fs (fun fs => FS.read_text fs dst_abspath);
      match previous with
      | Raise FileNotFoundError =>
          _ ← printf "create" dst_relpath (quiet self);
          mret true
      | Raise IsADirectoryError =>
          if is_dir then
            _ ← printf "identical" dst_relpath (quiet self);
            mret true
          else _solve_render_conflict self dst_relpath
      | Raise e => lift (Raise e)
      | Ok previous_content =>
          if String.eqb previous_content expected_contents then
            _ ← printf "identical" dst_relpath (quiet self);
            mret true
          else _solve_render_conflict self dst_relpath
      end.

(** [Worker.render_file]; [content] is what [src_abspath.read_text()]
    returns. *)
Definition render_file (self : t) (src_abspath : Path) (content : string)
  : M unit :=
  _ ← lift (py_assert (PathLib.is_absolute src_abspath) "");
  tpl ← lift (template disk self);
  root ← lift (Template.local_path tpl);
  src_relpath ← lift (PathLib.relative_to src_abspath root);
  dst_relpath ← lift (render_path self src_relpath);
  match dst_relpath with
  | None => mret tt
  | Some dst_relpath =>
      sv ← lift (Template.templates_suffix tpl);
      suffix ← lift (as_str sv);
      new_content ←
        lift (if Str.endswith (PathLib.name src_abspath) suffix then
                jtpl ← get_template (jinja_env self) (PathLib.to_str src_relpath);
                ctx ← render_context self;
                render jtpl ctx
              else Ok content);
      allowed ← _render_allowed self dst_relpath false new_content;
      if allowed : bool then
        let dst_abspath :=
          PathLib.joinpath (Subproject.local_path (subproject self)) dst_relpath in
        update_fs (fun fs => FS.write_text fs dst_abspath new_content)
      else mret tt
  end.

(** [Worker.render_folder] up to its loop; [children] is the loop over
    [src_abspath.iterdir()]. *)
Definition render_folder_body (self : t) (src_abspath : Path)
    (children : M unit) : M unit :=
  _ ← lift (py_assert (PathLib.is_absolute src_abspath) "");
  tpl ← lift (template disk self);
  root ← lift (Template.local_path tpl);
  src_relpath ← lift (PathLib.relative_to src_abspath root);
  dst_relpath ← lift (render_path self src_relpath);
  match dst_relpath with
  | None => mret tt
  | Some dst_relpath =>
      allowed ← _render_allowed self dst_relpath true "";
      if negb allowed then mret tt
      else
        let dst_abspath :=
          PathLib.joinpath (Subproject.local_path (subproject self)) dst_relpath in
        _ ← (if negb (pretend self) then
               update_fs (fun fs => FS.mkdir_exist_ok fs dst_abspath)
             else mret tt);
        children
  end.

(** One step of the loop: [render_folder(file)] if [file.is_dir()],
    else [render_file(file)]. *)
Fixpoint render_node (self : t) (src_abspath : Path) (node : Tree) : M unit :=
  match node with
  | TFile content => render_file self src_abspath content
  | TDir entries =>
      render_folder_body self src_abspath
        ((fix each (entries : list (string * Tree)) : M unit :=
            match entries with
            | [] => mret tt
            | (name, child) :: rest =>
                _ ← render_node self (src_abspath ++ [name])%list child;
                each rest
            end) entries)
  end.

(** [Worker.render_folder] *)
Definition render_folder (self : t) (src_abspath : Path) : M unit :=
  match src_tree src_abspath with
  | Some (TDir entries) => render_node self src_abspath (TDir entries)
  | Some (TFile _) =>
      render_folder_body self src_abspath (lift (Raise NotADirectoryError))
  | None =>
      render_folder_body self src_abspath (lift (Raise FileNotFoundError))
  end.

(** [iter(v)] of a task list or of a command given as a sequence *)
Definition py_iter (v : PyVal) : Exc (list PyVal) :=
  match v with
  | VList l => Ok l
  | VDict d => Ok (map VStr (Dict.keys d))
  | VStr s => Ok (map VStr (chars s))
  | _ => Raise (TypeError "object is not iterable")
  end.

Fixpoint render_argv (self : t) (parts : list PyVal) : Exc (list string) :=
  match parts with
  | [] => Ok []
  | part :: rest =>
      s ← as_str part;
      s' ← render_string self s;
      r ← render_argv self rest;
      Ok (s' :: r)
  end.

(** [local.cwd(path)] *)
Definition chdir (path : Path) : M unit :=
  found ← read_fs (fun fs => FS.find fs path);
  match found with
  | Is Dir => mret tt
  | Missing => lift (Raise FileNotFoundError)
  | _ => lift (Raise NotADirectoryError)
  end.

(** The command of a task: a string is rendered and goes to the shell,
    a sequence is rendered part by part. *)
Definition task_command (self : t) (task_cmd : PyVal) : Exc Cmd :=
  match task_cmd with
  | VStr s => line ← render_string self s; Ok (Shell line)
  | _ =>
      parts ← py_iter task_cmd;
      args ← render_argv self parts;
      Ok (Argv args)
  end.

(** The body of the loop of [_execute_tasks] *)
Definition execute_task (self : t) (i total : nat) (task : PyDict) : M unit :=
  task_cmd ← lift (Dict.getitem task "task");
  cmd ← lift (task_command self task_cmd);
  _ ← (if quiet self then mret tt else emit (TaskNotice (i + 1) total cmd));
  _ ← chdir (dst_path self);
  extra_env ← lift (attr_items (Dict.get_default task "extra_env" (VDict [])));
  _ ← update_fs (subprocess_run cmd (dst_path self) extra_env);
  emit (Ran cmd (dst_path self) extra_env).

Fixpoint execute_from (self : t) (i total : nat) (tasks : list PyDict) : M unit :=
  match tasks with
  | [] => mret tt
  | task :: rest =>
      _ ← execute_task self i total task;
      execute_from self (S i) total rest
  end.

(** [Worker._execute_tasks] *)
Definition _execute_tasks (self : t) (tasks : list PyDict) : M unit :=
  execute_from self 0 (length tasks) tasks.

(** [print("")] unless [quiet] *)
Definition padding (self : t) : M unit :=
  if quiet self then mret tt else emit (Print "").

(** [Worker.run_copy] *)
Definition run_copy (self : t) : M unit :=
  _ ← padding self;
  tpl ← lift (template disk self);
  src_abspath ← lift (Template.local_path tpl);
  let src_abspath :=
    match subdirectory self with
    | Some sub => PathLib.joinpath src_abspath (PathLib.parse sub)
    | None => src_abspath
    end in
  _ ← render_folder self src_abspath;
  _ ← padding self;
  tv ← lift (Template.tasks tpl);
  ts ← lift (py_iter tv);
  _ ← _execute_tasks self
        (map (fun t => [("task", t); ("extra_env", VDict [("STAGE", VStr "task")])]) ts);
  padding self.

(** [Worker.run_update]: the body starts with
    [vcs.is_git_repo_root(conf.dst_path)], and the module binds neither
    [vcs] nor [conf] (it imports three functions from [.vcs], not the
    module): evaluating the name [vcs] raises [NameError] before anything
    else happens. *)
Definition run_update (self : t) : M unit :=
  lift (Raise (ExternalError "NameError" "name 'vcs' is not defined")).

(** [Worker.run_auto] *)
Definition run_auto (self : t) : M unit :=
  if truthy_opt (src_path self) then run_copy self else run_update self.

End Rendering.

End Worker.

(** ** Objects with identity: the store

    Dicts and lists are mutable objects.  To state what [deepcopy] buys,
    values are atoms or references into a store of objects; an object
    created later gets the next free location. *)

Module Store.

Inductive atom : Type :=
| ANone
| ABool (b : bool)
| AInt (z : Z)
| AStr (s : string)
| AObj (repr : string).

Inductive val : Type :=
| Atom (a : atom)
| Ref (l : nat).

Inductive obj : Type :=
| ODict (items : list (string * val))
| OList (items : list val).

(** The store: the object at location [l] is the [l]-th element. *)
Abbreviation heap := (list obj).

(** The values an object holds *)
Definition fields (o : obj) : list val :=
  match o with
  | ODict items => map snd items
  | OList items => items
  end.

(** The elements of an object, copied one after the other by [copy_one] *)
Fixpoint copy_all
    (copy_one : val -> gmap nat nat -> heap -> option (val * gmap nat nat * heap))
    (items : list val) (memo : gmap nat nat) (h : heap)
  : option (list val * gmap nat nat * heap) :=
  match items with
  | [] => Some ([], memo, h)
  | x :: rest =>
      match copy_one x memo h with
      | None => None
      | Some (x', memo1, h1) =>
          match copy_all copy_one rest memo1 h1 with
          | None => None
          | Some (rest', memo2, h2) => Some (x' :: rest', memo2, h2)
          end
      end
  end.

(** [copy.deepcopy(v, memo)]: atoms are returned as they are; an object
    already in [memo] is answered from it; otherwise the copy is created,
    entered in [memo], and filled with the copies of the elements.
    [fuel] bounds the nesting of calls. *)
Fixpoint deepcopy (fuel : nat) (v : val) (memo : gmap nat nat) (h : heap)
  : option (val * gmap nat nat * heap) :=
  match v with
  | Atom a => Some (Atom a, memo, h)
  | Ref l =>
      match memo !! l with
      | Some l' => Some (Ref l', memo, h)
      | None =>
          match fuel with
          | O => None
          | S fuel' =>
              let l' := length h in
              match h !! l with
              | None => None
              | Some (OList items) =>
                  match copy_all (deepcopy fuel') items
                          (<[l := l']> memo) (h ++ [OList []])%list with
                  | None => None
                  | Some (items', memo', h') =>
                      Some (Ref l', memo', <[l' := OList items']> h')
                  end
              | Some (ODict items) =>
                  match copy_all (deepcopy fuel') (map snd items)
                          (<[l := l']> memo) (h ++ [ODict []])%list with
                  | None => None
                  | Some (values', memo', h') =>
                      Some (Ref l', memo',
                            <[l' := ODict (zip (map fst items) values')]> h')
                  end
              end
          end
      end
  end.

(** The validator [_deep_copy_answers] on each item of a layer
    ([each_item=True]): every value is copied by a call of its own. *)
Fixpoint copy_values (fuel : nat) (items : list (string * val)) (h : heap)
  : option (list (string * val) * heap) :=
  match items with
  | [] => Some ([], h)
  | (k, v) :: rest =>
      match deepcopy fuel v ∅ h with
      | None => None
      | Some (v', _, h1) =>
          match copy_values fuel rest h1 with
          | None => None
          | Some (rest', h2) => Some ((k, v') :: rest', h2)
          end
      end
  end.

(** One field of [AnswersMap(...)]: pydantic builds a new dict from the
    validated items of the argument; an omitted field is [dict()].
    [None] stands for a rejected argument or exhausted fuel. *)
Definition new_layer (fuel : nat) (arg : option val) (h : heap)
  : option (nat * heap) :=
  match arg with
  | None => Some (length h, (h ++ [ODict []])%list)
  | Some (Atom _) => None
  | Some (Ref l) =>
      match h !! l with
      | Some (ODict items) =>
          match copy_values fuel items h with
          | None => None
          | Some (items', h') => Some (length h', (h' ++ [ODict items'])%list)
          end
      | _ => None
      end
  end.

(** An [AnswersMap] instance: the locations of its five dicts *)
Record answers_map : Type := mkAnswersMap {
  init : nat;
  user : nat;
  last : nat;
  default : nat;
  _local : nat
}.

(** [AnswersMap(init=..., user=..., last=..., default=...)] *)
Definition new (fuel : nat) (init_ user_ last_ default_ : option val) (h : heap)
  : option (answers_map * heap) :=
  match new_layer fuel init_ h with
  | None => None
  | Some (i, h1) =>
      match new_layer fuel user_ h1 with
      | None => None
      | Some (u, h2) =>
          match new_layer fuel last_ h2 with
          | None => None
          | Some (la, h3) =>
              match new_layer fuel default_ h3 with
              | None => None
              | Some (d, h4) =>
                  Some (mkAnswersMap i u la d (length h4), (h4 ++ [ODict []])%list)
              end
          end
      end
  end.

(** [AnswersMap.combined]: the maps of the [ChainMap], in search order;
    [DEFAULT_DATA] comes last and is a constant of atoms. *)
Definition combined (self : answers_map) : list nat :=
  [ _local self; user self; init self; last self; default self ].

Fixpoint assoc (k : string) (items : list (string * val)) : option val :=
  match items with
  | [] => None
  | (k', v) :: rest => if String.eqb k k' then Some v else assoc k rest
  end.

(** [m[k]] for the dict at a location *)
Definition dict_lookup (h : heap) (l : nat) (k : string) : option val :=
  match h !! l with
  | Some (ODict items) => assoc k items
  | _ => None
  end.

(** [cm[k]] for a [ChainMap] over dicts in the store *)
Fixpoint chain_lookup (h : heap) (maps : list nat) (k : string) : option val :=
  match maps with
  | [] => None
  | l :: rest =>
      match dict_lookup h l k with
      | Some v => Some v
      | None => chain_lookup h rest k
      end
  end.

Section Reading.
(** [DEFAULT_DATA]; its values are functions, which have no state *)
Variable DEFAULT_DATA : list (string * atom).

(** [self.combined[k]] *)
Definition combined_lookup (h : heap) (self : answers_map) (k : string)
  : option val :=
  match chain_lookup h (combined self) k with
  | Some v => Some v
  | None =>
      match List.find (fun kv => String.eqb k (fst kv)) DEFAULT_DATA with
      | Some (_, a) => Some (Atom a)
      | None => None
      end
  end.
End Reading.

Definition atom_value (a : atom) : PyVal :=
  match a with
  | ANone => VNone
  | ABool b => VBool b
  | AInt z => VInt z
  | AStr s => VStr s
  | AObj r => VObj r
  end.

(** What one sees when reading a value, down to [depth] nested objects;
    [None] deeper than that or at a dangling reference. *)
Fixpoint snapshot (depth : nat) (h : heap) (v : val) : option PyVal :=
  match v with
  | Atom a => Some (atom_value a)
  | Ref l =>
      match depth with
      | O => None
      | S d =>
          match h !! l with
          | Some (OList items) =>
              VList <$> mapM (snapshot d h) items
          | Some (ODict items) =>
              VDict <$> mapM (fun kv => pair (fst kv) <$> snapshot d h (snd kv)) items
          | None => None
          end
      end
  end.

(** [d[k] = v] on the dict at [l], and [lst.append(v)]: mutation in place *)
Fixpoint assoc_set (k : string) (v : val) (items : list (string * val))
  : list (string * val) :=
  match items with
  | [] => [(k, v)]
  | (k', v') :: rest =>
      if String.eqb k k' then (k, v) :: rest else (k', v') :: assoc_set k v rest
  end.

Definition setitem (h : heap) (l : nat) (k : string) (v : val) : heap :=
  match h !! l with
  | Some (ODict items) => <[l := ODict (assoc_set k v items)]> h
  | _ => h
  end.

Definition append (h : heap) (l : nat) (v : val) : heap :=
  match h !! l with
  | Some (OList items) => <[l := OList (items ++ [v])%list]> h
  | _ => h
  end.

Fixpoint assoc_del (k : string) (items : list (string * val))
  : list (string * val) :=
  match items with
  | [] => []
  | (k', v') :: rest =>
      if String.eqb k k' then rest else (k', v') :: assoc_del k rest
  end.

(** [del d[k]] on the dict at [l] *)
Definition delitem (h : heap) (l : nat) (k : string) : heap :=
  match h !! l with
  | Some (ODict items) => <[l := ODict (assoc_del k items)]> h
  | _ => h
  end.

(** What a caller can do to an object it holds: the statements above, and
    [d.clear()] / [lst.clear()]. *)
Inductive mutation : Type :=
| SetItem (l : nat) (k : string) (v : val)
| DelItem (l : nat) (k : string)
| Append (l : nat) (v : val)
| Clear (l : nat).

Definition target (m : mutation) : nat :=
  match m with
  | SetItem l _ _ | DelItem l _ | Append l _ | Clear l => l
  end.

Definition mutate (h : heap) (m : mutation) : heap :=
  match m with
  | SetItem l k v => setitem h l k v
  | DelItem l k => delitem h l k
  | Append l v => append h l v
  | Clear l =>
      match h !! l with
      | Some (ODict _) => <[l := ODict []]> h
      | Some (OList _) => <[l := OList []]> h
      | None => h
      end
  end.

Definition mutate_all (h : heap) (ms : list mutation) : heap :=
  fold_left mutate ms h.

(** A value that refers, if at all, to an object older than location
    [n0]; a value that refers, if at all, to an object made since. *)
Definition old_val (n0 : nat) (v : val) : Prop :=
  match v with
  | Atom _ => True
  | Ref l => l < n0
  end.

Definition fresh_val (n0 n : nat) (v : val) : Prop :=
  match v with
  | Atom _ => True
  | Ref l => n0 <= l < n
  end.

(** Every reference held by an object of the store points into it. *)
Definition closed (h : heap) : Prop :=
  forall l o, h !! l = Some o -> Forall (old_val (length h)) (fields o).

(** An argument pydantic accepts for a layer: omitted, or a dict *)
Definition valid_arg (h : heap) (arg : option val) : Prop :=
  match arg with
  | None => True
  | Some (Ref l) => exists items, h !! l = Some (ODict items)
  | Some (Atom _) => False
  end.

(** [h'] is [h] except for the objects that existed before location [n0]
    (which may have changed in any way) and for objects created later. *)
Definition same_from (n0 : nat) (h h' : heap) : Prop :=
  forall l, n0 <= l < length h -> h' !! l = h !! l.

(** The store [h] extends [h0]: the objects of [h0] are as they were, and
    the objects made since refer to objects made since only. *)
Definition extends (h0 h : heap) : Prop :=
  length h0 <= length h
  /\ (forall l, l < length h0 -> h !! l = h0 !! l)
  /\ (forall l o, length h0 <= l -> h !! l = Some o ->
        Forall (fresh_val (length h0) (length h)) (fields o)).

(** [memo] sends objects of [h0] to objects made since. *)
Definition memo_ok (h0 h : heap) (memo : gmap nat nat) : Prop :=
  forall l l', memo !! l = Some l' -> l < length h0 /\ length h0 <= l' < length h.

(** What [self.combined[k]] shows, [depth] objects deep; the outer
    [None] is an absent key. *)
Definition read (DEFAULT_DATA : list (string * atom)) (depth : nat) (h : heap)
    (self : answers_map) (k : string) : option (option PyVal) :=
  snapshot depth h <$> combined_lookup DEFAULT_DATA h self k.

End Store.

(** ** A small installation

    Collaborators simple enough to run the model on concrete inputs: a local
    template (no VCS) whose folder is [tree], a configuration [raw_config],
    literal patterns, a templating engine for text without markup, tasks
    without effect on the files. *)

Module Sample.

(** The entry of a folder with a given name *)
Fixpoint entry (name : string) (entries : list (string * Tree)) : option Tree :=
  match entries with
  | [] => None
  | (n, t) :: rest => if String.eqb n name then Some t else entry name rest
  end.

Fixpoint tree_at (t : Tree) (p : list string) : option Tree :=
  match p with
  | [] => Some t
  | x :: p' =>
      match t with
      | TDir entries =>
          match entry x entries with
          | Some c => tree_at c p'
          | None => None
          end
      | TFile _ => None
      end
  end.

(** Keys with a leading underscore are configuration (the underscore is
    dropped), the others are questions. *)
Definition split_config (raw : PyDict) : PyDict * PyDict :=
  (omap (fun kv => match fst kv with
                   | String "_" k => Some (k, snd kv)
                   | _ => None
                   end) raw,
   List.filter (fun kv => negb (Str.startswith (fst kv) "_")) raw).

(** A literal pattern matches the path it spells. *)
Definition literal_match (patterns : list string) (p : Path) : bool :=
  existsb (String.eqb (PathLib.to_str p)) patterns.

Definition collaborators (root : Path) (tree : Tree) (raw_config : PyDict)
    (yaml : string -> Exc PyVal) : Collaborators :=
  {| DEFAULT_DATA := [("now", VObj "datetime.utcnow"); ("make_secret", VObj "lambda")];
     DEFAULT_EXCLUDE := ["copier.yaml"; "copier.yml"; "~*"; "*.py[co]";
                         "__pycache__"; ".git"; ".DS_Store"; ".svn"];
     DEFAULT_TEMPLATES_SUFFIX := ".jinja";
     JSONSerializable := fun v => match v with VObj _ => false | _ => true end;
     filter_config := split_config;
     verify_minimum_version := fun _ => Ok tt;
     load_config_data := fun _ => Ok raw_config;
     get_repo := fun _ => None;
     is_git_repo_root := fun _ => false;
     clone := fun _ _ => Raise (ExternalError "CloneFailed" "");
     git_describe := fun _ => Raise (ExternalError "ProcessExecutionError" "");
     git_status := fun _ => Raise (ExternalError "ProcessExecutionError" "");
     yaml_safe_load := yaml;
     normalize := fun _ s => s;
     match_file := literal_match;
     create_path_filter := literal_match;
     JinjaTemplate := string;
     from_string := fun _ s => Ok s;
     get_template := fun _ name =>
       match tree_at tree (PathLib.parse name) with
       | Some (TFile content) => Ok content
       | _ => Raise (ExternalError "TemplateNotFound" name)
       end;
     render := fun tpl _ => Ok tpl;
     subprocess_run := fun _ _ _ fs => Ok fs;
     src_tree := fun p =>
       match PathLib.strip_prefix root p with
       | Some rel => tree_at tree rel
       | None => None
       end |}.

(** The same installation with a templating engine and a command runner
    of one's choice: [engine] renders a template source, [run] is the
    effect of a command on the files. *)
Definition collaborators_with (root : Path) (tree : Tree) (raw_config : PyDict)
    (yaml : string -> Exc PyVal) (engine : string -> Exc string)
    (run : Cmd -> FileSystem -> Exc FileSystem) : Collaborators :=
  {| DEFAULT_DATA := [("now", VObj "datetime.utcnow"); ("make_secret", VObj "lambda")];
     DEFAULT_EXCLUDE := ["copier.yaml"; "copier.yml"; "~*"; "*.py[co]";
                         "__pycache__"; ".git"; ".DS_Store"; ".svn"];
     DEFAULT_TEMPLATES_SUFFIX := ".jinja";
     JSONSerializable := fun v => match v with VObj _ => false | _ => true end;
     filter_config := split_config;
     verify_minimum_version := fun _ => Ok tt;
     load_config_data := fun _ => Ok raw_config;
     get_repo := fun _ => None;
     is_git_repo_root := fun _ => false;
     clone := fun _ _ => Raise (ExternalError "CloneFailed" "");
     git_describe := fun _ => Raise (ExternalError "ProcessExecutionError" "");
     git_status := fun _ => Raise (ExternalError "ProcessExecutionError" "");
     yaml_safe_load := yaml;
     normalize := fun _ s => s;
     match_file := literal_match;
     create_path_filter := literal_match;
     JinjaTemplate := string;
     from_string := fun _ s => Ok s;
     get_template := fun _ name =>
       match tree_at tree (PathLib.parse name) with
       | Some (TFile content) => Ok content
       | _ => Raise (ExternalError "TemplateNotFound" name)
       end;
     render := fun tpl _ => engine tpl;
     subprocess_run := fun cmd _ _ fs => run cmd fs;
     src_tree := fun p =>
       match PathLib.strip_prefix root p with
       | Some rel => tree_at tree rel
       | None => None
       end |}.

(** A worker with the defaults of the class for every optional field *)
Definition worker (src : option string) (dst : Path) : Worker.t :=
  {| Worker.answers_file := [".copier-answers.yml"];
     Worker.cleanup_on_error := true;
     Worker.data := [];
     Worker.dst_path := dst;
     Worker.envops := VObj "EnvOps";
     Worker.exclude := [];
     Worker.extra_paths := [];
     Worker.force := false;
     Worker.pretend := false;
     Worker.quiet := false;
     Worker.skip_if_exists := [];
     Worker.src_path := src;
     Worker.subdirectory := None;
     Worker.use_prereleases := false;
     Worker.vcs_ref := None |}.

Definition with_pretend (b : bool) (w : Worker.t) : Worker.t :=
  Worker.mk (Worker.answers_file w) (Worker.cleanup_on_error w) (Worker.data w)
    (Worker.dst_path w) (Worker.envops w) (Worker.exclude w)
    (Worker.extra_paths w) (Worker.force w) b (Worker.quiet w)
    (Worker.skip_if_exists w) (Worker.src_path w) (Worker.subdirectory w)
    (Worker.use_prereleases w) (Worker.vcs_ref w).

Definition with_subdirectory (sub : option string) (w : Worker.t) : Worker.t :=
  Worker.mk (Worker.answers_file w) (Worker.cleanup_on_error w) (Worker.data w)
    (Worker.dst_path w) (Worker.envops w) (Worker.exclude w)
    (Worker.extra_paths w) (Worker.force w) (Worker.pretend w) (Worker.quiet w)
    (Worker.skip_if_exists w) (Worker.src_path w) sub
    (Worker.use_prereleases w) (Worker.vcs_ref w).

Definition with_data (d : PyDict) (w : Worker.t) : Worker.t :=
  Worker.mk (Worker.answers_file w) (Worker.cleanup_on_error w) d
    (Worker.dst_path w) (Worker.envops w) (Worker.exclude w)
    (Worker.extra_paths w) (Worker.force w) (Worker.pretend w) (Worker.quiet w)
    (Worker.skip_if_exists w) (Worker.src_path w) (Worker.subdirectory w)
    (Worker.use_prereleases w) (Worker.vcs_ref w).

(** A rendering context that is built without error *)
Definition context_ok (_ : Worker.t) : Exc PyDict := Ok [].

(** The template [/tpl]: a file [a.txt] and a folder [sub] with [b.txt] *)
Definition tpl_root : Path := ["/"; "tpl"].
Definition tpl_tree : Tree :=
  TDir [("a.txt", TFile "hi"); ("sub", TDir [("b.txt", TFile "ho")])].

(** A destination [/dst] that exists and is empty *)
Definition dst_root : Path := ["/"; "dst"].
Definition empty_dst : FileSystem := {[ dst_root := Dir ]}.

Definition world_of (fs : FileSystem) : World := mkWorld fs [] [].

(** The caller's objects before [AnswersMap(init=data)]: [data] at
    location 0 is [{"name": "Alice", "tags": tags}] and [tags] at location
    1 is [["x"]]. *)
Definition caller_heap : Store.heap :=
  [ Store.ODict [("name", Store.Atom (Store.AStr "Alice")); ("tags", Store.Ref 1)];
    Store.OList [Store.Atom (Store.AStr "x")] ].

(** [data["name"] = "Bob"; tags.append("y"); del data["tags"]] *)
Definition caller_mutations : list Store.mutation :=
  [ Store.SetItem 0 "name" (Store.Atom (Store.AStr "Bob"));
    Store.Append 1 (Store.Atom (Store.AStr "y"));
    Store.DelItem 0 "tags" ].

End Sample.

(** ** Vocabulary of the properties *)

(** [keeps R m]: every run of [m], returning or raising, takes the world to
    a world related to it by [R]. *)
Definition keeps {A} (R : World -> World -> Prop) (m : M A) : Prop :=
  forall w r w', m w = (r, w') -> R w w'.

(** Is the event the run of a task? *)
Definition is_run (e : Event) : bool :=
  match e with Ran _ _ _ => true | _ => false end.

(** The tasks run so far, oldest first *)
Definition runs (w : World) : list Event := List.filter is_run (trace w).

(** The destination is the same. *)
Definition same_fs (w w' : World) : Prop := fs w' = fs w.

(** The same tasks have run. *)
Definition same_runs (w w' : World) : Prop := runs w' = runs w.

(** The effect of a list of commands on the files, each run in [cwd] with
    [extra_env] added to the environment *)
Fixpoint run_all `{Collaborators} (cmds : list Cmd) (cwd : Path) (extra_env : PyDict)
    (fs : FileSystem) : Exc FileSystem :=
  match cmds with
  | [] => Ok fs
  | cmd :: rest =>
      fs' ← subprocess_run cmd cwd extra_env fs;
      run_all rest cwd extra_env fs'
  end.

(** The environment [run_copy] adds for its tasks *)
Definition stage_task : PyDict := [("STAGE", VStr "task")].

(** Two nodes of the same kind: both directories, both files (whatever
    their contents), both unreadable *)
Definition same_kind (n n' : Node) : bool :=
  match n, n' with
  | Dir, Dir | File _, File _ | Unreadable, Unreadable => true
  | _, _ => false
  end.

(** Every path of the destination is still there, and is still of its
    kind. *)
Definition nothing_lost (w w' : World) : Prop :=
  forall p n, fs w !! p = Some n ->
    exists n', fs w' !! p = Some n' /\ same_kind n n' = true.

(** * Properties *)

(** ** Reasoning with the two monads *)

Lemma exc_bind_ok {A B} (x : Exc A) (k : A -> Exc B) (a : A) :
  x = Ok a -> (x ≫= k) = k a.
Proof. intros ->. reflexivity. Qed.

Lemma exc_bind_raise {A B} (x : Exc A) (k : A -> Exc B) (e : Exn) :
  x = Raise e -> (x ≫= k) = Raise e.
Proof. intros ->. reflexivity. Qed.

Lemma M_bind_ok {A B} (m : M A) (k : A -> M B) (w w' : World) (a : A) :
  m w = (Ok a, w') -> (m ≫= k) w = k a w'.
Proof. intros Hm. unfold mbind, M_bind. rewrite Hm. reflexivity. Qed.

Lemma M_bind_raise {A B} (m : M A) (k : A -> M B) (w w' : World) (e : Exn) :
  m w = (Raise e, w') -> (m ≫= k) w = (Raise e, w').
Proof. intros Hm. unfold mbind, M_bind. rewrite Hm. reflexivity. Qed.

Lemma M_bind_lift {A B} (x : Exc A) (k : A -> M B) (w : World) :
  (lift x ≫= k) w = match x with Ok a => k a w | Raise e => (Raise e, w) end.
Proof. unfold mbind, M_bind, lift. destruct x; reflexivity. Qed.

(** ** Dictionaries and chain maps *)

Lemma String_eqb_eq' (a b : string) : String.eqb a b = true <-> a = b.
Proof. apply String.eqb_eq. Qed.

Lemma Dict_lookup_None (k : string) (d : PyDict) :
  Dict.lookup k d = None <-> k ∉ Dict.keys d.
Proof.
  induction d as [|[k' v] d IH]; simpl.
  - split; [intros _; apply not_elem_of_nil | reflexivity].
  - destruct (String.eqb k k') eqn:E.
    + apply String.eqb_eq in E. subst. split; [discriminate|].
      intros Hn. exfalso. apply Hn. left.
    + apply String.eqb_neq in E. rewrite IH. rewrite not_elem_of_cons. tauto.
Qed.

Lemma Dict_mem_keys (k : string) (d : PyDict) :
  Dict.mem k d = true <-> k ∈ Dict.keys d.
Proof.
  unfold Dict.mem. destruct (Dict.lookup k d) eqn:E.
  - split; [|reflexivity]. intros _.
    destruct (decide (k ∈ Dict.keys d)) as [|Hn]; [assumption|].
    apply Dict_lookup_None in Hn. congruence.
  - split; [discriminate|]. intros Hin. apply Dict_lookup_None in E. contradiction.
Qed.

Lemma Dict_keys_set (k k' : string) (v : PyVal) (d : PyDict) :
  k' ∈ Dict.keys (Dict.set k v d) <-> k' = k \/ k' ∈ Dict.keys d.
Proof.
  induction d as [|[k0 v0] d IH]; simpl.
  - rewrite list_elem_of_singleton. split; [tauto|]. intros [?|H]; [assumption|].
    inversion H.
  - destruct (String.eqb k k0) eqn:E; simpl.
    + apply String.eqb_eq in E. subst k0. rewrite !elem_of_cons. tauto.
    + rewrite !elem_of_cons, IH. tauto.
Qed.

Lemma Dict_keys_update (k : string) (items : list (string * PyVal)) (d : PyDict) :
  k ∈ Dict.keys (Dict.update d items) <-> k ∈ Dict.keys d \/ k ∈ map fst items.
Proof.
  unfold Dict.update. revert d.
  induction items as [|[k0 v0] items IH]; intros d; simpl.
  - split; [tauto|]. intros [?|H]; [assumption|]. inversion H.
  - rewrite IH, Dict_keys_set, elem_of_cons. tauto.
Qed.

Lemma ChainMap_lookup_None (k : string) (maps : ChainMap.t) :
  ChainMap.lookup k maps = None <-> Forall (fun m => Dict.lookup k m = None) maps.
Proof.
  induction maps as [|m maps IH]; simpl.
  - split; [constructor | reflexivity].
  - destruct (Dict.lookup k m) eqn:E.
    + split; [discriminate|]. intros H. inversion H; subst. congruence.
    + rewrite IH. split; [intros; constructor; assumption|].
      intros H. inversion H; assumption.
Qed.

Lemma ChainMap_lookup_first (k : string) (above : ChainMap.t) (layer : PyDict)
    (below : ChainMap.t) (v : PyVal) :
  Forall (fun m => Dict.lookup k m = None) above ->
  Dict.lookup k layer = Some v ->
  ChainMap.lookup k (above ++ layer :: below)%list = Some v.
Proof.
  intros Habove Hlayer. induction Habove as [|m above Hm _ IH]; simpl.
  - rewrite Hlayer. reflexivity.
  - rewrite Hm. exact IH.
Qed.

Lemma ChainMap_mem_lookup (k : string) (maps : ChainMap.t) :
  ChainMap.mem k maps = match ChainMap.lookup k maps with
                        | Some _ => true
                        | None => false
                        end.
Proof.
  unfold ChainMap.mem. induction maps as [|m maps IH]; simpl; [reflexivity|].
  unfold Dict.mem at 1. destruct (Dict.lookup k m); simpl; [reflexivity|exact IH].
Qed.

Lemma ChainMap_keys_spec (k : string) (maps : ChainMap.t) :
  k ∈ ChainMap.keys maps <-> exists m, m ∈ maps /\ k ∈ Dict.keys m.
Proof.
  unfold ChainMap.keys.
  assert (G : forall (ms : list PyDict) (d : PyDict),
             k ∈ Dict.keys
                   (fold_left
                      (fun d m => Dict.update d (map (fun k => (k, VNone)) (Dict.keys m)))
                      ms d)
             <-> k ∈ Dict.keys d \/ exists m, m ∈ ms /\ k ∈ Dict.keys m).
  { induction ms as [|m ms IH]; intros d; simpl.
    - split; [tauto|]. intros [?|[m [Hm _]]]; [assumption|inversion Hm].
    - rewrite IH, Dict_keys_update.
      rewrite map_map. simpl. rewrite map_id.
      split.
      + intros [[?|?]|[m' [? ?]]]; [tauto| |].
        * right. exists m. split; [left|assumption].
        * right. exists m'. split; [right; assumption|assumption].
      + intros [?|[m' [Hin ?]]]; [tauto|].
        apply elem_of_cons in Hin as [->|Hin]; [tauto|].
        right. exists m'. tauto. }
  rewrite G. simpl. split.
  - intros [H|[m [Hm Hk]]]; [inversion H|].
    exists m. split; [|assumption].
    apply list_elem_of_In. apply in_rev. apply list_elem_of_In. exact Hm.
  - intros [m [Hm Hk]]. right. exists m. split; [|assumption].
    apply list_elem_of_In. apply in_rev. rewrite rev_involutive.
    apply list_elem_of_In. exact Hm.
Qed.

(** ** The layered answers *)

(** C4. Answer precedence.  [combined] searches the layers in the order
    [_local], [user], [init], [last], [default], [DEFAULT_DATA]: for a key
    defined in some layer, [combined[k]] is the value in the first layer of
    that order that defines it (and the key is in the view, with that value
    among its items); a key that no layer defines is absent: [combined[k]]
    raises [KeyError], [k in combined] is false and iteration does not
    yield it. *)
Theorem C4_answer_precedence (DEFAULT_DATA : PyDict) (am : AnswersMap.t) (k : string) :
  let combined := AnswersMap.combined DEFAULT_DATA am in
  combined = [ AnswersMap._local am; AnswersMap.user am; AnswersMap.init am;
               AnswersMap.last am; AnswersMap.default am; DEFAULT_DATA ]
  /\ (forall above layer below v,
        combined = (above ++ layer :: below)%list ->
        Forall (fun m => Dict.lookup k m = None) above ->
        Dict.lookup k layer = Some v ->
        ChainMap.getitem combined k = Ok v
        /\ ChainMap.mem k combined = true
        /\ (k, v) ∈ ChainMap.items combined)
  /\ (Forall (fun m => Dict.lookup k m = None) combined ->
        ChainMap.getitem combined k = Raise (KeyError k)
        /\ ChainMap.mem k combined = false
        /\ k ∉ ChainMap.keys combined).
Proof.
  intros combined. split; [reflexivity|]. split.
  - intros above layer below v Hsplit Habove Hlayer.
    assert (Hl : ChainMap.lookup k combined = Some v).
    { rewrite Hsplit. apply ChainMap_lookup_first; assumption. }
    split; [unfold ChainMap.getitem; rewrite Hl; reflexivity|].
    split; [rewrite ChainMap_mem_lookup, Hl; reflexivity|].
    unfold ChainMap.items. apply list_elem_of_omap. exists k.
    split; [|rewrite Hl; reflexivity].
    apply ChainMap_keys_spec. exists layer. split.
    + rewrite Hsplit. apply elem_of_app. right. left.
    + destruct (decide (k ∈ Dict.keys layer)) as [|Hn]; [assumption|].
      apply Dict_lookup_None in Hn. congruence.
  - intros Hnone.
    assert (Hl : ChainMap.lookup k combined = None)
      by (apply ChainMap_lookup_None; assumption).
    split; [unfold ChainMap.getitem; rewrite Hl; reflexivity|].
    split; [rewrite ChainMap_mem_lookup, Hl; reflexivity|].
    intros Hin. apply ChainMap_keys_spec in Hin as [m [Hm Hk]].
    rewrite Forall_forall in Hnone. specialize (Hnone m Hm).
    apply Dict_lookup_None in Hnone. contradiction.
Qed.

Lemma C4_answer_precedence_witness :
  let am := AnswersMap.new (Some [("name", VStr "forced")])
              (Some [("name", VStr "typed")])
              (Some [("name", VStr "old"); ("age", VInt 3)]) None in
  let D : PyDict := [("now", VObj "utcnow")] in
  ChainMap.getitem (AnswersMap.combined D am) "name" = Ok (VStr "typed")
  /\ ChainMap.getitem (AnswersMap.combined D am) "age" = Ok (VInt 3)
  /\ ChainMap.getitem (AnswersMap.combined D am) "email" = Raise (KeyError "email").
Proof.
  intros am D. split; [|split].
  - apply (proj1 (proj2 (C4_answer_precedence D am "name")))
      with (above := [ [] ]) (layer := [("name", VStr "typed")])
           (below := [ [("name", VStr "forced")];
                       [("name", VStr "old"); ("age", VInt 3)]; []; D ]).
    + reflexivity.
    + repeat constructor.
    + reflexivity.
  - apply (proj1 (proj2 (C4_answer_precedence D am "age")))
      with (above := [ []; [("name", VStr "typed")]; [("name", VStr "forced")] ])
           (layer := [("name", VStr "old"); ("age", VInt 3)])
           (below := [ []; D ]).
    + reflexivity.
    + repeat constructor.
    + reflexivity.
  - apply (proj2 (proj2 (C4_answer_precedence D am "email"))).
    repeat constructor.
Defined.

(** ** The subproject and the template of a worker *)

Lemma last_answers_of_raw `{Collaborators} (disk : FileSystem) (sp : Subproject.t)
    (d : PyDict) :
  Subproject._raw_answers disk sp = Ok (VDict d) ->
  Subproject.last_answers disk sp =
    Ok (List.filter
          (fun kv =>
             String.eqb (fst kv) "_src_path" || String.eqb (fst kv) "_commit"
             || negb (Str.startswith (fst kv) "_")) d).
Proof. intros Hraw. unfold Subproject.last_answers. rewrite Hraw. reflexivity. Qed.

Lemma subproject_template_none `{Collaborators} (disk : FileSystem)
    (sp : Subproject.t) (d : PyDict) :
  Subproject._raw_answers disk sp = Ok (VDict d) ->
  truthy (Dict.get d "_src_path") = false ->
  Subproject.template disk sp = Ok None.
Proof.
  intros Hraw Hurl. unfold Subproject.template. rewrite Hraw. simpl.
  rewrite Hurl. reflexivity.
Qed.

(** C9. An answers file that cannot be read (reading it raises an
    [OSError]: the file is missing, is a directory, may not be opened, ...)
    is no error: [_raw_answers] is the empty mapping, so [last_answers] is
    empty and [Subproject.template] is unset. *)
Theorem C9_unreadable_answers_file `{Collaborators} (disk : FileSystem)
    (sp : Subproject.t) (e : Exn) :
  FS.read_text disk
    (PathLib.joinpath (Subproject.local_path sp) (Subproject.answers_relpath sp))
    = Raise e ->
  is_OSError e = true ->
  Subproject._raw_answers disk sp = Ok (VDict [])
  /\ Subproject.last_answers disk sp = Ok []
  /\ Subproject.template disk sp = Ok None.
Proof.
  intros Hread Hos.
  assert (Hraw : Subproject._raw_answers disk sp = Ok (VDict [])).
  { unfold Subproject._raw_answers. rewrite Hread. simpl. rewrite Hos. reflexivity. }
  split; [exact Hraw|]. split.
  - rewrite (last_answers_of_raw disk sp [] Hraw). reflexivity.
  - apply (subproject_template_none disk sp [] Hraw). reflexivity.
Qed.

Lemma C9_unreadable_answers_file_witness :
  let E := Sample.collaborators Sample.tpl_root Sample.tpl_tree []
             (fun _ => Raise (ExternalError "YAMLError" "")) in
  let sp := Subproject.mk Sample.dst_root Subproject.default_answers_relpath in
  let locked : FileSystem :=
    <[ ["/"; "dst"; ".copier-answers.yml"] := Unreadable ]> Sample.empty_dst in
  (Subproject._raw_answers Sample.empty_dst sp = Ok (VDict [])
   /\ Subproject.last_answers Sample.empty_dst sp = Ok []
   /\ Subproject.template Sample.empty_dst sp = Ok None)
  /\ (Subproject._raw_answers locked sp = Ok (VDict [])
      /\ Subproject.last_answers locked sp = Ok []
      /\ Subproject.template locked sp = Ok None).
Proof.
  intros E sp locked. split.
  - apply (C9_unreadable_answers_file Sample.empty_dst sp FileNotFoundError);
      vm_compute; reflexivity.
  - apply (C9_unreadable_answers_file locked sp PermissionError);
      vm_compute; reflexivity.
Defined.

(** C8. Without [src_path], and with recorded answers that hold no
    [_src_path], computing [Worker.template] fails with the "Template not
    found" error; with [src_path] set (a non-empty string, which is what
    [if self.src_path] tests) the template is [Template(url=src_path,
    ref=vcs_ref)] and nothing is raised. *)
Theorem C8_template_resolution `{Collaborators} (disk : FileSystem) (w : Worker.t) :
  (forall recorded,
      Worker.src_path w = None ->
      Subproject._raw_answers disk (Worker.subproject w) = Ok (VDict recorded) ->
      Dict.lookup "_src_path" recorded = None ->
      Worker.template disk w = Raise TemplateNotFound)
  /\ (forall src,
        Worker.src_path w = Some src -> src <> "" ->
        Worker.template disk w = Ok (Template.mk src (Worker.vcs_ref w))).
Proof.
  split.
  - intros recorded Hsrc Hraw Hnone. unfold Worker.template.
    rewrite Hsrc. simpl.
    rewrite (subproject_template_none disk _ recorded Hraw).
    + reflexivity.
    + unfold Dict.get. rewrite Hnone. reflexivity.
  - intros src Hsrc Hne. unfold Worker.template. rewrite Hsrc. simpl.
    unfold Str.truthy. apply String.eqb_neq in Hne. rewrite Hne. reflexivity.
Qed.

Lemma C8_template_resolution_witness :
  let E := Sample.collaborators Sample.tpl_root Sample.tpl_tree []
             (fun _ => Ok (VDict [("name", VStr "Alice")])) in
  let recorded : FileSystem :=
    <[ ["/"; "dst"; ".copier-answers.yml"] := File "name: Alice" ]> Sample.empty_dst in
  Worker.template recorded (Sample.worker None Sample.dst_root) = Raise TemplateNotFound
  /\ Worker.template recorded (Sample.worker (Some "/tpl") Sample.dst_root)
     = Ok (Template.mk "/tpl" None).
Proof.
  intros E recorded. split.
  - apply (proj1 (C8_template_resolution recorded (Sample.worker None Sample.dst_root))
             [("name", VStr "Alice")]).
    + reflexivity.
    + vm_compute. reflexivity.
    + reflexivity.
  - apply (proj2 (C8_template_resolution recorded
                    (Sample.worker (Some "/tpl") Sample.dst_root)) "/tpl").
    + reflexivity.
    + discriminate.
Defined.

(** ** What is remembered, and the rendering context *)

(** [_answers_to_remember] assembles the mapping and then falls off the end
    of its body: whenever it returns, it returns [None]. *)
Lemma answers_to_remember_result `{Collaborators} (disk : FileSystem) (w : Worker.t) :
  match Worker.answers_assembled disk w with
  | Ok _ => Worker._answers_to_remember disk w = Ok None
  | Raise e => Worker._answers_to_remember disk w = Raise e
  end.
Proof.
  unfold Worker._answers_to_remember.
  destruct (Worker.answers_assembled disk w); reflexivity.
Qed.

(** Hence the context of [_render_context] is never built: unpacking
    [None] with [**] raises [TypeError]. *)
Lemma render_context_raises `{Collaborators} (disk : FileSystem) (w : Worker.t) :
  exists e, Worker._render_context disk w = Raise e.
Proof.
  unfold Worker._render_context.
  pose proof (answers_to_remember_result disk w) as Hr.
  destruct (Worker.answers_assembled disk w); rewrite Hr; simpl; eauto.
Qed.

(** With the context of the class itself, [render_string] raises on every
    string. *)
Lemma render_string_raises `{Collaborators} (disk : FileSystem) (w : Worker.t)
    (s : string) :
  exists e, Worker.render_string (Worker._render_context disk) w s = Raise e.
Proof.
  unfold Worker.render_string.
  destruct (from_string (Worker.jinja_env w) s); simpl; [|eauto].
  destruct (render_context_raises disk w) as [e He]. rewrite He. simpl. eauto.
Qed.

(** C2. [_answers_to_remember] at work: a template asking [name] (default
    [World]) and the secret [token], a worker forced to [name: Alice] and
    [token: s3cret].  The body assembles [_src_path] first and then the
    answers that are public, not secret and serializable, and the call
    returns [None], not that mapping. *)
Theorem C2_answers_to_remember_returns_none :
  let E := Sample.collaborators Sample.tpl_root Sample.tpl_tree
             [("name", VDict [("default", VStr "World")]);
              ("token", VDict [("secret", VBool true)])]
             (fun _ => Ok (VDict [])) in
  let w := Sample.with_data [("name", VStr "Alice"); ("token", VStr "s3cret")]
             (Sample.worker (Some "/tpl") Sample.dst_root) in
  Worker.answers_assembled Sample.empty_dst w
    = Ok [("_src_path", VStr "/tpl"); ("name", VStr "Alice")]
  /\ Worker._answers_to_remember Sample.empty_dst w = Ok None.
Proof. vm_compute. split; reflexivity. Qed.

(** ** Rendering paths *)

(** C5. [render_path] on the path without segments, [Path(".")]: no
    segment renders to the empty string, yet the result is neither unset nor
    the empty path: [rendered_parts[-1]] raises [IndexError], whatever the
    worker and the templating engine.  This is the path [render_folder]
    computes for the template root, so rendering the root of the sample
    template stops there, before anything is written. *)
Theorem C5_render_path_of_root_raises :
  (forall (E : Collaborators) (disk : FileSystem)
          (render_context : Worker.t -> Exc PyDict) (w : Worker.t),
     Worker.render_path disk render_context w []
     = Raise (IndexError "list index out of range"))
  /\ (let E := Sample.collaborators Sample.tpl_root Sample.tpl_tree []
                 (fun _ => Ok (VDict [])) in
      let w := Sample.worker (Some "/tpl") Sample.dst_root in
      let world := Sample.world_of Sample.empty_dst in
      PathLib.relative_to Sample.tpl_root Sample.tpl_root = Ok []
      /\ Worker.render_folder Sample.empty_dst Sample.context_ok w Sample.tpl_root world
         = (Raise (IndexError "list index out of range"), world)).
Proof.
  split.
  - intros E disk render_context w. reflexivity.
  - vm_compute. split; reflexivity.
Qed.

(** The loop of [render_path], when every segment renders *)
Lemma render_parts_spec `{Collaborators} (render_context : Worker.t -> Exc PyDict)
    (w : Worker.t) (parts rendered acc : list string) :
  Forall2 (fun part r => Worker.render_string render_context w part = Ok r)
    parts rendered ->
  Worker.render_parts render_context w parts acc
    = Ok (if existsb (fun r => String.eqb r "") rendered then None
          else Some (acc ++ rendered)%list).
Proof.
  intros Hall. revert acc.
  induction Hall as [|part r parts rendered Hr _ IH]; intros acc; simpl.
  - rewrite app_nil_r. reflexivity.
  - rewrite Hr. simpl. unfold Str.truthy. destruct (String.eqb r ""); simpl.
    + reflexivity.
    + rewrite IH. rewrite <- app_assoc. reflexivity.
Qed.

(** Where the claim of C5 holds: a path with at least one segment, every
    segment rendering, and a suffix that is not empty. *)
Lemma render_path_spec `{Collaborators} (disk : FileSystem)
    (render_context : Worker.t -> Exc PyDict) (w : Worker.t)
    (relpath rendered : list string) (tpl : Template.t) (suffix : string) :
  relpath <> [] ->
  Forall2 (fun part r => Worker.render_string render_context w part = Ok r)
    relpath rendered ->
  Worker.template disk w = Ok tpl ->
  Template.templates_suffix tpl = Ok (VStr suffix) ->
  suffix <> "" ->
  Worker.render_path disk render_context w relpath
    = Ok (if existsb (fun r => String.eqb r "") rendered then None
          else
            let final := List.last rendered "" in
            Some (PathLib.of_parts
                    (if Str.endswith final suffix then
                       (removelast rendered
                        ++ [String.substring 0
                              (String.length final - String.length suffix) final])%list
                     else rendered))).
Proof.
  intros Hne Hall Htpl Hsuffix Hs. unfold Worker.render_path.
  rewrite (render_parts_spec render_context w relpath rendered [] Hall). simpl.
  destruct (existsb (fun r => String.eqb r "") rendered); [reflexivity|].
  destruct rendered as [|r0 rendered].
  { inversion Hall; subst. contradiction. }
  cbn [Worker.getitem_last mbind exc_bind]. rewrite Htpl. cbn [mbind exc_bind].
  rewrite Hsuffix. cbn [mbind exc_bind as_str].
  unfold Worker.setitem_last, Str.slice_to_neg.
  destruct suffix as [|c suffix]; [contradiction|]. reflexivity.
Qed.

(** With an empty suffix the final segment is cut to nothing. *)
Example render_path_empty_suffix :
  let E := Sample.collaborators Sample.tpl_root Sample.tpl_tree
             [("_templates_suffix", VStr "")] (fun _ => Ok (VDict [])) in
  Worker.render_path Sample.empty_dst Sample.context_ok
    (Sample.worker (Some "/tpl") Sample.dst_root) ["sub"; "b.txt"]
  = Ok (Some ["sub"]).
Proof. vm_compute. reflexivity. Qed.

(** ** What a computation leaves alone *)

Section Frames.
Variable R : World -> World -> Prop.
Hypothesis R_refl : forall w, R w w.
Hypothesis R_trans : forall a b c, R a b -> R b c -> R a c.
(** printing, asking and reading the answers are allowed *)
Hypothesis R_talk : forall w e replies',
  is_run e = false -> R w (mkWorld (fs w) replies' (trace w ++ [e])).

Lemma keeps_ret {A} (a : A) : keeps R (mret a).
Proof. intros w r w' Hm. inversion Hm; subst. apply R_refl. Qed.

Lemma keeps_lift {A} (x : Exc A) : keeps R (lift x).
Proof. intros w r w' Hm. inversion Hm; subst. apply R_refl. Qed.

Lemma keeps_read_fs {A} (f : FileSystem -> A) : keeps R (read_fs f).
Proof. intros w r w' Hm. inversion Hm; subst. apply R_refl. Qed.

Lemma keeps_bind {A B} (m : M A) (k : A -> M B) :
  keeps R m -> (forall a, keeps R (k a)) -> keeps R (m ≫= k).
Proof.
  intros Hm Hk w r w' Hrun. unfold mbind, M_bind in Hrun.
  destruct (m w) as [[a|e] w1] eqn:E.
  - eapply R_trans; [eapply Hm; exact E | eapply Hk; exact Hrun].
  - inversion Hrun; subst. eapply Hm; exact E.
Qed.

Lemma keeps_emit (e : Event) : is_run e = false -> keeps R (emit e).
Proof. intros He w r w' Hm. inversion Hm; subst. apply R_talk. exact He. Qed.

Lemma keeps_printf (action : string) (p : Path) (quiet : bool) :
  keeps R (printf action p quiet).
Proof.
  unfold printf. destruct quiet; [apply keeps_ret|].
  apply keeps_emit. reflexivity.
Qed.

Lemma keeps_ask (question : string) : keeps R (ask question).
Proof. intros w r w' Hm. inversion Hm; subst. apply R_talk. reflexivity. Qed.

Ltac frame :=
  repeat first
    [ apply keeps_ret
    | apply keeps_lift
    | apply keeps_read_fs
    | apply keeps_printf
    | apply keeps_ask
    | apply keeps_bind; [|intros ?]
    | match goal with
      | |- keeps _ (if ?b then _ else _) => destruct b
      | |- keeps _ (match ?x with _ => _ end) => destruct x
      end ].

Context `{Collaborators}.
Variable disk : FileSystem.

Lemma keeps_solve_render_conflict (w : Worker.t) (dst_relpath : Path) :
  keeps R (Worker._solve_render_conflict w dst_relpath).
Proof. unfold Worker._solve_render_conflict. frame. Qed.

(** [_render_allowed] only reads the destination, prints and asks. *)
Lemma keeps_render_allowed (w : Worker.t) (dst_relpath : Path) (is_dir : bool)
    (expected_contents : string) :
  keeps R (Worker._render_allowed disk w dst_relpath is_dir expected_contents).
Proof.
  unfold Worker._render_allowed. cbv zeta. frame;
    apply keeps_solve_render_conflict.
Qed.

End Frames.

Lemma render_allowed_same_fs `{Collaborators} (disk : FileSystem) (w : Worker.t)
    (dst_relpath : Path) (is_dir : bool) (expected_contents : string) :
  keeps same_fs (Worker._render_allowed disk w dst_relpath is_dir expected_contents).
Proof.
  apply keeps_render_allowed; unfold same_fs; try reflexivity.
  intros a b c Hab Hbc. congruence.
Qed.

(** ** Exclusion *)

(** [map(normalize, ("NFD",), patterns)] ends with its shorter argument:
    the function under the cache compiles the matcher from the first
    pattern alone. *)
Lemma path_matcher_uncached_first `{Collaborators} (patterns : list string) :
  Worker.path_matcher_uncached patterns
  = match patterns with
    | [] => match_file []
    | first :: _ => match_file [normalize "NFD" first]
    end.
Proof. destruct patterns; reflexivity. Qed.

(** The cached method is never entered: the key of the cache holds the
    worker, which has no hash. *)
Lemma path_matcher_raises `{Collaborators} (w : Worker.t) (patterns : list string) :
  Worker._path_matcher w patterns = Raise (TypeError "unhashable type: 'Worker'").
Proof. reflexivity. Qed.

(** Past its assertions and [all_exclusions], [_render_allowed] stops at
    the call of [_path_matcher]. *)
Lemma render_allowed_unhashable `{Collaborators} (disk : FileSystem) (w : Worker.t)
    (dst_relpath : Path) (is_dir : bool) (expected_contents : string)
    (exclusions : list string) (world : World) :
  PathLib.is_absolute dst_relpath = false ->
  (is_dir = true -> expected_contents = "") ->
  Worker.all_exclusions disk w = Ok exclusions ->
  Worker._render_allowed disk w dst_relpath is_dir expected_contents world
  = (Raise (TypeError "unhashable type: 'Worker'"), world).
Proof.
  intros Hrel Hdir Hex. unfold Worker._render_allowed.
  rewrite M_bind_lift. rewrite Hrel. simpl.
  rewrite M_bind_lift.
  assert (Ha : negb (Str.truthy expected_contents) || negb is_dir = true).
  { destruct is_dir; [rewrite Hdir by reflexivity; reflexivity|].
    apply orb_true_r. }
  rewrite Ha. simpl. rewrite M_bind_lift. rewrite Hex.
  rewrite M_bind_lift. rewrite path_matcher_raises. reflexivity.
Qed.

(** No call of [_render_allowed] returns: it raises, and the world is as
    it was. *)
Lemma render_allowed_raises `{Collaborators} (disk : FileSystem) (w : Worker.t)
    (dst_relpath : Path) (is_dir : bool) (expected_contents : string)
    (world : World) :
  exists e,
    Worker._render_allowed disk w dst_relpath is_dir expected_contents world
    = (Raise e, world).
Proof.
  unfold Worker._render_allowed.
  rewrite M_bind_lift.
  destruct (py_assert (negb (PathLib.is_absolute dst_relpath)) "") as [[]|e]; [|eauto].
  rewrite M_bind_lift.
  destruct (py_assert (negb (Str.truthy expected_contents) || negb is_dir)
              "Dirs cannot have expected content") as [[]|e]; [|eauto].
  rewrite M_bind_lift.
  destruct (Worker.all_exclusions disk w) as [exclusions|e]; [|eauto].
  rewrite M_bind_lift. rewrite path_matcher_raises. eauto.
Qed.

(** C6. No exclusion denies a path.  Whatever the worker, the path and
    the destination, [_render_allowed] does not return [False] (it does not
    return at all).  With the exclusions [a] and [b] declared by the
    template, the pattern [b] is in [all_exclusions] and matches the path
    [b], and [_render_allowed] on [b] raises the [TypeError] of the cache of
    [_path_matcher]; the function under that cache would not deny [b]
    either, since it keeps the first pattern, [a], only. *)
Theorem C6_matching_exclusion_does_not_deny :
  (forall (E : Collaborators) (disk : FileSystem) (w : Worker.t)
          (dst_relpath : Path) (is_dir : bool) (expected_contents : string)
          (world : World),
     exists e,
       Worker._render_allowed disk w dst_relpath is_dir expected_contents world
       = (Raise e, world))
  /\ (let E := Sample.collaborators Sample.tpl_root Sample.tpl_tree
                 [("_exclude", VList [VStr "a"; VStr "b"])] (fun _ => Ok (VDict [])) in
      let w := Sample.worker (Some "/tpl") Sample.dst_root in
      let world := Sample.world_of Sample.empty_dst in
      Worker.all_exclusions Sample.empty_dst w = Ok ["a"; "b"]
      /\ match_file ["b"] ["b"] = true
      /\ Worker._render_allowed Sample.empty_dst w ["b"] false "x" world
         = (Raise (TypeError "unhashable type: 'Worker'"), world)
      /\ Worker.path_matcher_uncached ["a"; "b"] ["b"] = false
      /\ Worker.path_matcher_uncached ["a"; "b"] ["a"] = true).
Proof.
  split.
  - intros E disk w dst_relpath is_dir expected_contents world.
    apply render_allowed_raises.
  - vm_compute. repeat split; reflexivity.
Qed.

(** ** Folders, and [pretend] *)

(** [render_folder] on a folder that is on disk with these entries *)
Lemma render_folder_on_dir `{Collaborators} (disk : FileSystem)
    (render_context : Worker.t -> Exc PyDict) (w : Worker.t) (src_abspath : Path)
    (entries : list (string * Tree)) :
  src_tree src_abspath = Some (TDir entries) ->
  Worker.render_folder disk render_context w src_abspath
  = Worker.render_node disk render_context w src_abspath (TDir entries).
Proof. intros Hsrc. unfold Worker.render_folder. rewrite Hsrc. reflexivity. Qed.

(** The guard of [render_folder]: when [_render_allowed] does not return
    [True] (it returns [False] or raises), the loop over the entries is not
    entered and the run ends as the check ended. *)
Lemma render_folder_guard `{Collaborators} (disk : FileSystem)
    (render_context : Worker.t -> Exc PyDict) (w : Worker.t)
    (src_abspath : Path) (children : M unit)
    (tpl : Template.t) (root src_relpath dst_relpath : Path)
    (world world' : World) (r : Exc bool) :
  PathLib.is_absolute src_abspath = true ->
  Worker.template disk w = Ok tpl ->
  Template.local_path tpl = Ok root ->
  PathLib.relative_to src_abspath root = Ok src_relpath ->
  Worker.render_path disk render_context w src_relpath = Ok (Some dst_relpath) ->
  Worker._render_allowed disk w dst_relpath true "" world = (r, world') ->
  r <> Ok true ->
  Worker.render_folder_body disk render_context w src_abspath children world
  = (match r with Ok _ => Ok tt | Raise e => Raise e end, world').
Proof.
  intros Habs Htpl Hroot Hrel Hpath Hcheck Hnot.
  unfold Worker.render_folder_body.
  rewrite M_bind_lift, Habs. simpl.
  rewrite M_bind_lift, Htpl.
  rewrite M_bind_lift, Hroot.
  rewrite M_bind_lift, Hrel.
  rewrite M_bind_lift, Hpath.
  destruct r as [[]|e].
  - contradiction.
  - rewrite (M_bind_ok _ _ _ _ _ Hcheck). reflexivity.
  - rewrite (M_bind_raise _ _ _ _ _ Hcheck). reflexivity.
Qed.

(** [render_folder] does not get to its loop: the outcome is the same for
    every loop. *)
Lemma render_folder_body_same `{Collaborators} (disk : FileSystem)
    (render_context : Worker.t -> Exc PyDict) (w : Worker.t)
    (src_abspath : Path) (children children' : M unit) (world : World) :
  Worker.render_folder_body disk render_context w src_abspath children world
  = Worker.render_folder_body disk render_context w src_abspath children' world.
Proof.
  unfold Worker.render_folder_body.
  rewrite ?M_bind_lift.
  destruct (py_assert (PathLib.is_absolute src_abspath) "") as [[]|e];
    [|reflexivity].
  rewrite ?M_bind_lift. destruct (Worker.template disk w) as [tpl|e]; [|reflexivity].
  rewrite ?M_bind_lift. destruct (Template.local_path tpl) as [root|e]; [|reflexivity].
  rewrite ?M_bind_lift.
  destruct (PathLib.relative_to src_abspath root) as [src_relpath|e]; [|reflexivity].
  rewrite ?M_bind_lift.
  destruct (Worker.render_path disk render_context w src_relpath)
    as [[dst_relpath|]|e]; [|reflexivity|reflexivity].
  destruct (render_allowed_raises disk w dst_relpath true "" world) as [e He].
  rewrite !(M_bind_raise _ _ _ _ _ He). reflexivity.
Qed.

(** Up to its loop [render_folder] leaves the world as it is. *)
Lemma render_folder_body_world `{Collaborators} (disk : FileSystem)
    (render_context : Worker.t -> Exc PyDict) (w : Worker.t)
    (src_abspath : Path) (children : M unit) (world : World) :
  exists r,
    Worker.render_folder_body disk render_context w src_abspath children world
    = (r, world).
Proof.
  unfold Worker.render_folder_body.
  rewrite ?M_bind_lift.
  destruct (py_assert (PathLib.is_absolute src_abspath) "") as [[]|e]; [|eauto].
  rewrite ?M_bind_lift. destruct (Worker.template disk w) as [tpl|e]; [|eauto].
  rewrite ?M_bind_lift. destruct (Template.local_path tpl) as [root|e]; [|eauto].
  rewrite ?M_bind_lift.
  destruct (PathLib.relative_to src_abspath root) as [src_relpath|e]; [|eauto].
  rewrite ?M_bind_lift.
  destruct (Worker.render_path disk render_context w src_relpath)
    as [[dst_relpath|]|e]; [|eexists; reflexivity|eauto].
  destruct (render_allowed_raises disk w dst_relpath true "" world) as [e He].
  rewrite (M_bind_raise _ _ _ _ _ He). eauto.
Qed.

Lemma render_folder_body_stops `{Collaborators} (disk : FileSystem)
    (render_context : Worker.t -> Exc PyDict) (w : Worker.t)
    (src_abspath : Path) (world : World) :
  exists r, forall children,
    Worker.render_folder_body disk render_context w src_abspath children world
    = (r, world).
Proof.
  destruct (render_folder_body_world disk render_context w src_abspath
              (mret tt) world) as [r Hr].
  exists r. intros children.
  rewrite (render_folder_body_same disk render_context w src_abspath
             children (mret tt) world).
  exact Hr.
Qed.


(** The decision of [_render_allowed] does not read [pretend]. *)
Lemma render_allowed_ignores_pretend `{Collaborators} (disk : FileSystem)
    (w : Worker.t) (b : bool) (dst_relpath : Path) (is_dir : bool)
    (expected_contents : string) :
  Worker._render_allowed disk (Sample.with_pretend b w) dst_relpath is_dir
    expected_contents
  = Worker._render_allowed disk w dst_relpath is_dir expected_contents.
Proof. destruct w. reflexivity. Qed.

(** With [pretend], [render_folder] creates no directory: up to its loop
    the destination stays as it is. *)
Lemma render_folder_body_pretend `{Collaborators} (disk : FileSystem)
    (render_context : Worker.t -> Exc PyDict) (w : Worker.t) (src_abspath : Path)
    (children : M unit) :
  Worker.pretend w = true ->
  keeps same_fs children ->
  keeps same_fs (Worker.render_folder_body disk render_context w src_abspath children).
Proof.
  intros Hpretend Hchildren.
  assert (Hrefl : forall x, same_fs x x) by reflexivity.
  assert (Htrans : forall a b c, same_fs a b -> same_fs b c -> same_fs a c)
    by (unfold same_fs; congruence).
  unfold Worker.render_folder_body. rewrite Hpretend. simpl.
  repeat first
    [ apply keeps_ret; assumption
    | apply keeps_lift; assumption
    | apply render_allowed_same_fs
    | assumption
    | apply keeps_bind; [assumption| |intros ?]
    | match goal with
      | |- keeps _ (if ?b then _ else _) => destruct b
      | |- keeps _ (match ?x with _ => _ end) => destruct x
      end ].
Qed.

(** [render_file] does not get to its [write_text]: the call before it,
    [_render_allowed], does not return. *)
Lemma render_file_stops `{Collaborators} (disk : FileSystem)
    (render_context : Worker.t -> Exc PyDict) (w : Worker.t)
    (src_abspath : Path) (content : string) (world : World) :
  exists r,
    Worker.render_file disk render_context w src_abspath content world = (r, world).
Proof.
  unfold Worker.render_file.
  rewrite ?M_bind_lift.
  destruct (py_assert (PathLib.is_absolute src_abspath) "") as [[]|e]; [|eauto].
  rewrite ?M_bind_lift. destruct (Worker.template disk w) as [tpl|e]; [|eauto].
  rewrite ?M_bind_lift. destruct (Template.local_path tpl) as [root|e]; [|eauto].
  rewrite ?M_bind_lift.
  destruct (PathLib.relative_to src_abspath root) as [src_relpath|e]; [|eauto].
  rewrite ?M_bind_lift.
  destruct (Worker.render_path disk render_context w src_relpath)
    as [[dst_relpath|]|e]; [|eexists; reflexivity|eauto].
  rewrite ?M_bind_lift.
  destruct (Template.templates_suffix tpl) as [sv|e]; [|eauto].
  rewrite ?M_bind_lift. destruct (as_str sv) as [suffix|e]; [|eauto].
  rewrite ?M_bind_lift.
  match goal with
  | |- context [match ?x with Ok _ => _ | Raise _ => _ end] =>
      destruct x as [new_content|e]; [|eauto]
  end.
  destruct (render_allowed_raises disk w dst_relpath false new_content world)
    as [e He].
  rewrite (M_bind_raise _ _ _ _ _ He). eauto.
Qed.

(** C3. [pretend] has no part in the decision of [_render_allowed], and
    with [pretend] set nothing of the destination is written or changed:
    [render_file] writes no file and [render_folder] creates no directory,
    for every file and folder, whatever the rendering context and however
    the call ends.  ([render_folder] tests [pretend] before its [mkdir];
    [render_file] has no such test, and never gets to its [write_text].) *)
Theorem C3_pretend_writes_nothing `{Collaborators} (disk : FileSystem)
    (render_context : Worker.t -> Exc PyDict) (w : Worker.t) :
  Worker.pretend w = true ->
  (forall b dst_relpath is_dir expected_contents,
     Worker._render_allowed disk (Sample.with_pretend b w) dst_relpath is_dir
       expected_contents
     = Worker._render_allowed disk w dst_relpath is_dir expected_contents)
  /\ (forall src_abspath content world r world',
        Worker.render_file disk render_context w src_abspath content world
        = (r, world') ->
        fs world' = fs world)
  /\ (forall src_abspath world r world',
        Worker.render_folder disk render_context w src_abspath world = (r, world') ->
        fs world' = fs world).
Proof.
  intros Hpretend. split; [|split].
  - intros b dst_relpath is_dir expected_contents.
    apply render_allowed_ignores_pretend.
  - intros src_abspath content world r world' Hrun.
    destruct (render_file_stops disk render_context w src_abspath content world)
      as [r0 Hr0].
    rewrite Hr0 in Hrun. inversion Hrun. reflexivity.
  - intros src_abspath world r world' Hrun.
    unfold Worker.render_folder in Hrun.
    destruct (render_folder_body_stops disk render_context w src_abspath world)
      as [r0 Hr0].
    destruct (src_tree src_abspath) as [[content|entries]|]; simpl in Hrun;
      rewrite Hr0 in Hrun; inversion Hrun; reflexivity.
Qed.

Lemma C3_pretend_writes_nothing_witness :
  let E := Sample.collaborators Sample.tpl_root Sample.tpl_tree []
             (fun _ => Ok (VDict [])) in
  let w := Sample.with_pretend true (Sample.worker (Some "/tpl") Sample.dst_root) in
  let world := Sample.world_of Sample.empty_dst in
  Worker.pretend w = true
  /\ (let '(r, world') :=
        Worker.render_file Sample.empty_dst (Worker._render_context Sample.empty_dst)
          w ["/"; "tpl"; "a.txt"] "hi" world in
      r = Raise (TypeError "argument after ** must be a mapping, not NoneType")
      /\ fs world' = fs world)
  /\ (let '(r, world') :=
        Worker.render_folder Sample.empty_dst (Worker._render_context Sample.empty_dst)
          w ["/"; "tpl"; "sub"] world in
      r = Raise (TypeError "argument after ** must be a mapping, not NoneType")
      /\ fs world' = fs world).
Proof.
  intros E w world.
  pose proof (@C3_pretend_writes_nothing E Sample.empty_dst
                (Worker._render_context Sample.empty_dst) w eq_refl)
    as (_ & Hfile & Hfolder).
  split; [reflexivity|]. split.
  - destruct (Worker.render_file Sample.empty_dst
                (Worker._render_context Sample.empty_dst) w
                ["/"; "tpl"; "a.txt"] "hi" world) as [r world'] eqn:Hrun.
    split.
    + revert Hrun. vm_compute. intros Hrun. inversion Hrun. reflexivity.
    + exact (Hfile ["/"; "tpl"; "a.txt"] "hi" world r world' Hrun).
  - destruct (Worker.render_folder Sample.empty_dst
                (Worker._render_context Sample.empty_dst) w
                ["/"; "tpl"; "sub"] world) as [r world'] eqn:Hrun.
    split.
    + revert Hrun. vm_compute. intros Hrun. inversion Hrun. reflexivity.
    + exact (Hfolder ["/"; "tpl"; "sub"] world r world' Hrun).
Defined.

(** ** The copy pipeline *)

Lemma Tree_induction (P : Tree -> Prop) :
  (forall content, P (TFile content)) ->
  (forall entries, Forall (fun e => P (snd e)) entries -> P (TDir entries)) ->
  forall t, P t.
Proof.
  intros Hfile Hdir. fix IH 1. intros [content|entries].
  - apply Hfile.
  - apply Hdir. induction entries as [|[name child] entries IHentries].
    + constructor.
    + constructor; [apply IH | exact IHentries].
Qed.

Section WritingFrames.
Variable R : World -> World -> Prop.
Hypothesis R_refl : forall w, R w w.
Hypothesis R_trans : forall a b c, R a b -> R b c -> R a c.
Hypothesis R_talk : forall w e replies',
  is_run e = false -> R w (mkWorld (fs w) replies' (trace w ++ [e])).
(** the files may change *)
Hypothesis R_write : forall w fs', R w (mkWorld fs' (replies w) (trace w)).

Context `{Collaborators}.
Variable disk : FileSystem.
Variable render_context : Worker.t -> Exc PyDict.

Lemma keeps_update_fs (f : FileSystem -> Exc FileSystem) : keeps R (update_fs f).
Proof.
  intros w r w' Hm. unfold update_fs in Hm.
  destruct (f (fs w)); inversion Hm; subst; [apply R_write | apply R_refl].
Qed.

Ltac frame :=
  repeat first
    [ solve [apply keeps_ret; assumption]
    | solve [apply keeps_lift; assumption]
    | solve [apply keeps_read_fs; assumption]
    | solve [apply keeps_printf; assumption]
    | solve [apply keeps_render_allowed; assumption]
    | apply keeps_update_fs
    | assumption
    | apply keeps_bind; [assumption| |intros ?]
    | match goal with
      | |- keeps _ (if ?b then _ else _) => destruct b
      | |- keeps _ (match ?x with _ => _ end) => destruct x
      end ].

Lemma keeps_render_file (w : Worker.t) (src_abspath : Path) (content : string) :
  keeps R (Worker.render_file disk render_context w src_abspath content).
Proof. unfold Worker.render_file. cbv zeta. frame. Qed.

Lemma keeps_render_folder_body (w : Worker.t) (src_abspath : Path)
    (children : M unit) :
  keeps R children ->
  keeps R (Worker.render_folder_body disk render_context w src_abspath children).
Proof. intros Hchildren. unfold Worker.render_folder_body. cbv zeta. frame. Qed.

Lemma keeps_render_node (w : Worker.t) (node : Tree) :
  forall src_abspath,
    keeps R (Worker.render_node disk render_context w src_abspath node).
Proof.
  induction node as [content|entries IH] using Tree_induction; intros src_abspath.
  - simpl. apply keeps_render_file.
  - simpl. apply keeps_render_folder_body.
    induction IH as [|[name child] entries Hchild _ IHentries].
    + apply keeps_ret; assumption.
    + apply keeps_bind; [assumption| |intros ?].
      * apply Hchild.
      * apply IHentries.
Qed.

(** Rendering prints, asks and writes files, nothing else. *)
Lemma keeps_render_folder (w : Worker.t) (src_abspath : Path) :
  keeps R (Worker.render_folder disk render_context w src_abspath).
Proof.
  unfold Worker.render_folder.
  destruct (src_tree src_abspath) as [[content|entries]|].
  - apply keeps_render_folder_body. apply keeps_lift; assumption.
  - apply keeps_render_node.
  - apply keeps_render_folder_body. apply keeps_lift; assumption.
Qed.

Lemma keeps_padding (w : Worker.t) : keeps R (Worker.padding w).
Proof.
  unfold Worker.padding. destruct (Worker.quiet w);
    [apply keeps_ret; assumption | apply keeps_emit; [assumption|reflexivity]].
Qed.

End WritingFrames.

Lemma runs_app (w : World) (fs' : FileSystem) (replies' : list bool) (e : Event) :
  runs (mkWorld fs' replies' (trace w ++ [e]))
  = (runs w ++ (if is_run e then [e] else []))%list.
Proof.
  unfold runs. simpl. rewrite List.filter_app. simpl.
  destruct (is_run e); reflexivity.
Qed.

Lemma same_runs_refl (w : World) : same_runs w w.
Proof. reflexivity. Qed.

Lemma same_runs_trans (a b c : World) : same_runs a b -> same_runs b c -> same_runs a c.
Proof. unfold same_runs. congruence. Qed.

Lemma same_runs_talk (w : World) (e : Event) (replies' : list bool) :
  is_run e = false -> same_runs w (mkWorld (fs w) replies' (trace w ++ [e])).
Proof.
  intros He. unfold same_runs. rewrite runs_app, He. apply app_nil_r.
Qed.

Lemma same_runs_write (w : World) (fs' : FileSystem) :
  same_runs w (mkWorld fs' (replies w) (trace w)).
Proof. reflexivity. Qed.

Lemma same_fs_refl (w : World) : same_fs w w.
Proof. reflexivity. Qed.

Lemma same_fs_trans (a b c : World) : same_fs a b -> same_fs b c -> same_fs a c.
Proof. unfold same_fs. congruence. Qed.

Lemma same_fs_talk (w : World) (e : Event) (replies' : list bool) :
  is_run e = false -> same_fs w (mkWorld (fs w) replies' (trace w ++ [e])).
Proof. reflexivity. Qed.

Lemma M_bind_inv {A B} (m : M A) (k : A -> M B) (w w' : World) (b : B) :
  (m ≫= k) w = (Ok b, w') ->
  exists a w1, m w = (Ok a, w1) /\ k a w1 = (Ok b, w').
Proof.
  unfold mbind, M_bind. destruct (m w) as [[a|e] w1]; [eauto|discriminate].
Qed.

Lemma M_bind_lift_inv {A B} (x : Exc A) (k : A -> M B) (w w' : World) (b : B) :
  (lift x ≫= k) w = (Ok b, w') ->
  exists a, x = Ok a /\ k a w = (Ok b, w').
Proof. rewrite M_bind_lift. destruct x; [eauto|discriminate]. Qed.

Section Tasks.
Context `{Collaborators}.
Variable render_context : Worker.t -> Exc PyDict.

(** A task of [run_copy], as handed to [_execute_tasks] *)
Let copy_task (t : PyVal) : PyDict := [("task", t); ("extra_env", VDict stage_task)].

Lemma execute_task_ok (w : Worker.t) (i total : nat) (t : PyVal) (world world' : World) :
  Worker.execute_task render_context w i total (copy_task t) world = (Ok tt, world') ->
  exists cmd,
    Worker.task_command render_context w t = Ok cmd
    /\ subprocess_run cmd (Worker.dst_path w) stage_task (fs world) = Ok (fs world')
    /\ runs world' = (runs world ++ [Ran cmd (Worker.dst_path w) stage_task])%list.
Proof.
  unfold Worker.execute_task, copy_task. intros Hrun.
  apply M_bind_lift_inv in Hrun as [task_cmd [Hget Hrun]].
  simpl in Hget. inversion Hget; subst task_cmd. clear Hget.
  apply M_bind_lift_inv in Hrun as [cmd [Hcmd Hrun]].
  exists cmd. split; [exact Hcmd|].
  apply M_bind_inv in Hrun as [[] [w1 [Hnotice Hrun]]].
  apply M_bind_inv in Hrun as [[] [w2 [Hcd Hrun]]].
  apply M_bind_lift_inv in Hrun as [extra_env [Henv Hrun]].
  simpl in Henv. inversion Henv; subst extra_env. clear Henv.
  apply M_bind_inv in Hrun as [[] [w3 [Hsub Hrun]]].
  assert (H1 : fs w1 = fs world /\ runs w1 = runs world).
  { destruct (Worker.quiet w); inversion Hnotice; subst.
    - split; reflexivity.
    - split; [reflexivity|]. rewrite runs_app. simpl. apply app_nil_r. }
  assert (H2 : w2 = w1).
  { unfold Worker.chdir in Hcd.
    apply M_bind_inv in Hcd as [found [w1' [Hfound Hcd]]].
    inversion Hfound; subst w1'.
    destruct found as [| |[]]; inversion Hcd; reflexivity. }
  subst w2.
  unfold update_fs in Hsub.
  destruct (subprocess_run cmd (Worker.dst_path w) stage_task (fs w1)) as [fs'|e] eqn:Ep;
    [|discriminate].
  inversion Hsub; subst w3. clear Hsub.
  inversion Hrun; subst world'. clear Hrun.
  destruct H1 as [Hfs Hruns]. split.
  - simpl. rewrite <- Hfs. exact Ep.
  - rewrite runs_app. simpl. unfold runs in *. simpl. rewrite Hruns. reflexivity.
Qed.

Lemma execute_from_ok (w : Worker.t) (total : nat) (tasks : list PyVal) :
  forall (i : nat) (world world' : World),
    Worker.execute_from render_context w i total (map copy_task tasks) world
    = (Ok tt, world') ->
    exists cmds,
      Forall2 (fun t c => Worker.task_command render_context w t = Ok c) tasks cmds
      /\ run_all cmds (Worker.dst_path w) stage_task (fs world) = Ok (fs world')
      /\ runs world'
         = (runs world ++ map (fun c => Ran c (Worker.dst_path w) stage_task) cmds)%list.
Proof.
  induction tasks as [|t tasks IH]; intros i world world' Hrun; simpl in Hrun.
  - inversion Hrun; subst. exists []. split; [constructor|]. split; [reflexivity|].
    simpl. rewrite app_nil_r. reflexivity.
  - apply M_bind_inv in Hrun as [[] [w1 [Hfirst Hrest]]].
    apply execute_task_ok in Hfirst as [cmd [Hcmd [Hfs Hruns]]].
    apply IH in Hrest as [cmds [Hcmds [Hfs' Hruns']]].
    exists (cmd :: cmds). split; [constructor; assumption|]. split.
    + simpl. rewrite Hfs. exact Hfs'.
    + rewrite Hruns', Hruns. simpl. rewrite <- app_assoc. reflexivity.
Qed.

End Tasks.

(** With the rendering context of the class itself, no path renders: the
    empty path fails at [rendered_parts[-1]], any other at its first
    segment. *)
Lemma render_path_raises `{Collaborators} (disk : FileSystem) (w : Worker.t)
    (relpath : Path) :
  exists e, Worker.render_path disk (Worker._render_context disk) w relpath = Raise e.
Proof.
  unfold Worker.render_path. destruct relpath as [|part rest]; simpl.
  - eauto.
  - destruct (render_string_raises disk w part) as [e He]. rewrite He. simpl. eauto.
Qed.

Lemma render_folder_body_raises `{Collaborators} (disk : FileSystem) (w : Worker.t)
    (src_abspath : Path) (children : M unit) (world : World) :
  exists e,
    Worker.render_folder_body disk (Worker._render_context disk) w src_abspath
      children world
    = (Raise e, world).
Proof.
  unfold Worker.render_folder_body.
  rewrite M_bind_lift.
  destruct (py_assert (PathLib.is_absolute src_abspath) "") as [[]|e]; [|eauto].
  rewrite M_bind_lift. destruct (Worker.template disk w) as [tpl|e]; [|eauto].
  rewrite M_bind_lift. destruct (Template.local_path tpl) as [root|e]; [|eauto].
  rewrite M_bind_lift.
  destruct (PathLib.relative_to src_abspath root) as [src_relpath|e]; [|eauto].
  rewrite M_bind_lift.
  destruct (render_path_raises disk w src_relpath) as [e He]. rewrite He. eauto.
Qed.

Lemma render_folder_raises `{Collaborators} (disk : FileSystem) (w : Worker.t)
    (src_abspath : Path) (world : World) :
  exists e,
    Worker.render_folder disk (Worker._render_context disk) w src_abspath world
    = (Raise e, world).
Proof.
  unfold Worker.render_folder.
  destruct (src_tree src_abspath) as [[content|entries]|]; simpl;
    apply render_folder_body_raises.
Qed.

(** With the rendering context of the class itself [run_copy] stops in
    [render_folder]: nothing is written and no task is run. *)
Lemma run_copy_raises `{Collaborators} (disk : FileSystem) (w : Worker.t)
    (world : World) :
  exists e world',
    Worker.run_copy disk (Worker._render_context disk) w world = (Raise e, world')
    /\ fs world' = fs world /\ runs world' = runs world.
Proof.
  unfold Worker.run_copy.
  destruct (Worker.padding w world) as [r1 w1] eqn:Hpad.
  assert (H1 : r1 = Ok tt /\ fs w1 = fs world /\ runs w1 = runs world).
  { unfold Worker.padding in Hpad. destruct (Worker.quiet w); inversion Hpad; subst.
    - repeat split.
    - split; [reflexivity|]. split; [reflexivity|].
      rewrite runs_app. simpl. apply app_nil_r. }
  destruct H1 as (-> & Hfs & Hruns).
  rewrite (M_bind_ok _ _ _ _ _ Hpad).
  rewrite M_bind_lift. destruct (Worker.template disk w) as [tpl|e]; [|eauto].
  rewrite M_bind_lift. destruct (Template.local_path tpl) as [root|e]; [|eauto].
  cbv zeta.
  match goal with
  | |- context [Worker.render_folder _ _ _ ?src] =>
      destruct (render_folder_raises disk w src w1) as [e He]
  end.
  rewrite (M_bind_raise _ _ _ _ _ He). eauto.
Qed.

(** C1.  [run_copy] does not produce the copy the claim describes: on
    every worker and every destination the call raises, with the files of
    the destination as they were and no task run, so it leaves no answers
    file and has executed nothing.  For a template with the folder [sub]
    and two tasks, copied from [sub] into an empty destination, the error
    is the [TypeError] of [_render_context] at the first segment to render;
    the destination has no answers file afterwards, and neither task has
    run. *)
Theorem C1_run_copy_raises_before_any_write :
  (forall (E : Collaborators) (disk : FileSystem) (w : Worker.t) (world : World),
     exists e world',
       Worker.run_copy disk (Worker._render_context disk) w world
       = (Raise e, world')
       /\ fs world' = fs world /\ runs world' = runs world)
  /\ (let E := Sample.collaborators Sample.tpl_root Sample.tpl_tree
                 [("_tasks", VList [VStr "git init"; VList [VStr "make"; VStr "all"]])]
                 (fun _ => Ok (VDict [])) in
      let w := Sample.with_subdirectory (Some "sub")
                 (Sample.worker (Some "/tpl") Sample.dst_root) in
      let world := Sample.world_of Sample.empty_dst in
      let answers_file :=
        PathLib.joinpath (Worker.dst_path w) (Worker.answers_file w) in
      let '(result, world') :=
        Worker.run_copy Sample.empty_dst (Worker._render_context Sample.empty_dst)
          w world in
      result = Raise (TypeError "argument after ** must be a mapping, not NoneType")
      /\ fs world' = fs world
      /\ FS.exists_ (fs world') answers_file = false
      /\ runs world' = []
      /\ (tpl ← Worker.template Sample.empty_dst w; Template.tasks tpl)
         = Ok (VList [VStr "git init"; VList [VStr "make"; VStr "all"]])).
Proof.
  split.
  - intros E disk w world. apply run_copy_raises.
  - vm_compute. repeat split; reflexivity.
Qed.

(** ** Deep copies and isolation *)

Lemma fresh_val_mono (n0 n n' : nat) (v : Store.val) :
  n <= n' -> Store.fresh_val n0 n v -> Store.fresh_val n0 n' v.
Proof. intros Hle. destruct v; simpl; [trivial|lia]. Qed.

Lemma Forall_fresh_mono (n0 n n' : nat) (vs : list Store.val) :
  n <= n' -> Forall (Store.fresh_val n0 n) vs -> Forall (Store.fresh_val n0 n') vs.
Proof.
  intros Hle Hvs. eapply Forall_impl; [exact Hvs|].
  intros v. apply fresh_val_mono. exact Hle.
Qed.

Lemma memo_size_bound (memo : gmap nat nat) (n : nat) :
  (forall l x, memo !! l = Some x -> l < n) -> size memo <= n.
Proof.
  intros Hk. rewrite <- size_dom.
  rewrite <- (size_set_seq (C := gset nat) 0 n).
  apply subseteq_size. intros l Hl. apply elem_of_dom in Hl as [x Hx].
  apply elem_of_set_seq. split; [lia|]. simpl. eapply Hk; eauto.
Qed.

Lemma extends_refl (h0 : Store.heap) : Store.extends h0 h0.
Proof.
  split; [lia|]. split; [reflexivity|].
  intros l o Hl Hlook. apply lookup_lt_Some in Hlook. lia.
Qed.

Lemma extends_alloc (h0 h : Store.heap) (o : Store.obj) :
  Store.extends h0 h ->
  Forall (Store.fresh_val (length h0) (S (length h))) (Store.fields o) ->
  Store.extends h0 (h ++ [o]).
Proof.
  intros (Hlen & Hold & Hnew) Ho. unfold Store.extends. rewrite length_app. simpl.
  split; [lia|]. split.
  - intros l Hl. rewrite lookup_app_l; [apply Hold; exact Hl | lia].
  - intros l o' Hl Hlook. replace (length h + 1) with (S (length h)) by lia.
    destruct (decide (l < length h)) as [Hlt|Hge].
    + rewrite lookup_app_l in Hlook by exact Hlt.
      eapply Forall_fresh_mono; [|eapply Hnew; eauto]. lia.
    + rewrite lookup_app_r in Hlook by lia.
      destruct (l - length h) eqn:E; simpl in Hlook; [|discriminate].
      inversion Hlook; subst. exact Ho.
Qed.

Lemma extends_update (h0 h : Store.heap) (l : nat) (o : Store.obj) :
  Store.extends h0 h ->
  length h0 <= l ->
  Forall (Store.fresh_val (length h0) (length h)) (Store.fields o) ->
  Store.extends h0 (<[l := o]> h).
Proof.
  intros (Hlen & Hold & Hnew) Hl Ho. unfold Store.extends. rewrite length_insert.
  split; [lia|]. split.
  - intros l' Hl'. rewrite list_lookup_insert_ne; [apply Hold; exact Hl' | lia].
  - intros l' o' Hl' Hlook.
    destruct (decide (l = l')) as [->|Hne].
    + destruct (decide (l' < length h)) as [Hlt|Hge].
      * rewrite list_lookup_insert_eq in Hlook by exact Hlt.
        inversion Hlook; subst. exact Ho.
      * rewrite list_insert_ge in Hlook by lia. eapply Hnew; eauto.
    + rewrite list_lookup_insert_ne in Hlook by exact Hne. eapply Hnew; eauto.
Qed.

Lemma memo_ok_mono (h0 h h' : Store.heap) (memo : gmap nat nat) :
  length h <= length h' -> Store.memo_ok h0 h memo -> Store.memo_ok h0 h' memo.
Proof. intros Hle Hm l l' Hl. specialize (Hm l l' Hl). lia. Qed.

Section CopyAll.
Variable h0 : Store.heap.
Variable budget : gmap nat nat -> Prop.
Variable copy_one :
  Store.val -> gmap nat nat -> Store.heap ->
  option (Store.val * gmap nat nat * Store.heap).
Hypothesis budget_mono : forall m m', m ⊆ m' -> budget m -> budget m'.
Hypothesis copy_one_ok : forall v memo h,
  Store.extends h0 h -> Store.memo_ok h0 h memo ->
  Store.old_val (length h0) v -> budget memo ->
  exists v' memo' h',
    copy_one v memo h = Some (v', memo', h')
    /\ Store.extends h0 h' /\ Store.memo_ok h0 h' memo'
    /\ memo ⊆ memo' /\ length h <= length h'
    /\ Store.fresh_val (length h0) (length h') v'.

Lemma copy_all_ok (items : list Store.val) :
  forall memo h,
    Store.extends h0 h -> Store.memo_ok h0 h memo ->
    Forall (Store.old_val (length h0)) items -> budget memo ->
    exists items' memo' h',
      Store.copy_all copy_one items memo h = Some (items', memo', h')
      /\ Store.extends h0 h' /\ Store.memo_ok h0 h' memo'
      /\ memo ⊆ memo' /\ length h <= length h'
      /\ Forall (Store.fresh_val (length h0) (length h')) items'
      /\ length items' = length items.
Proof.
  induction items as [|x items IH]; intros memo h Hext Hmemo Hold Hb; simpl.
  - exists [], memo, h.
    split; [reflexivity|]. split; [exact Hext|]. split; [exact Hmemo|].
    split; [reflexivity|]. split; [lia|]. split; [constructor|reflexivity].
  - inversion Hold as [|? ? Hx Hrest]; subst.
    destruct (copy_one_ok x memo h Hext Hmemo Hx Hb)
      as (x' & memo1 & h1 & -> & Hext1 & Hmemo1 & Hsub1 & Hlen1 & Hfresh1).
    destruct (IH memo1 h1 Hext1 Hmemo1 Hrest (budget_mono _ _ Hsub1 Hb))
      as (items' & memo2 & h2 & -> & Hext2 & Hmemo2 & Hsub2 & Hlen2 & Hfresh2 & Hlen).
    exists (x' :: items'), memo2, h2.
    split; [reflexivity|]. split; [exact Hext2|]. split; [exact Hmemo2|].
    split; [etrans; eauto|]. split; [lia|]. split; [|simpl; lia].
    constructor; [|exact Hfresh2]. eapply fresh_val_mono; [|exact Hfresh1]. lia.
Qed.
End CopyAll.

Lemma memo_ok_insert (h0 h : Store.heap) (memo : gmap nat nat) (l : nat) (o : Store.obj) :
  Store.extends h0 h -> l < length h0 -> Store.memo_ok h0 h memo ->
  Store.memo_ok h0 (h ++ [o]) (<[l := length h]> memo).
Proof.
  intros (Hlen & _) Hl Hm k k' Hk. rewrite length_app. simpl.
  destruct (decide (l = k)) as [->|Hne].
  - rewrite lookup_insert_eq in Hk. inversion Hk; subst. lia.
  - rewrite lookup_insert_ne in Hk by exact Hne. specialize (Hm k k' Hk). lia.
Qed.

Lemma deepcopy_ok (h0 : Store.heap) (Hclosed : Store.closed h0) (fuel : nat) :
  forall v memo h,
    Store.extends h0 h -> Store.memo_ok h0 h memo ->
    Store.old_val (length h0) v -> length h0 < fuel + size memo ->
    exists v' memo' h',
      Store.deepcopy fuel v memo h = Some (v', memo', h')
      /\ Store.extends h0 h' /\ Store.memo_ok h0 h' memo'
      /\ memo ⊆ memo' /\ length h <= length h'
      /\ Store.fresh_val (length h0) (length h') v'.
Proof.
  induction fuel as [|fuel IH]; intros v memo h Hext Hmemo Hv Hfuel.
  - assert (size memo <= length h0).
    { apply memo_size_bound. intros l x Hl. apply (Hmemo l x Hl). }
    simpl in Hfuel. lia.
  - destruct v as [a|l].
    { exists (Store.Atom a), memo, h. simpl.
      split; [reflexivity|]. split; [exact Hext|]. split; [exact Hmemo|].
      split; [reflexivity|]. split; [lia|exact I]. }
    simpl in Hv. simpl. destruct (memo !! l) as [l'|] eqn:Hl.
    { exists (Store.Ref l'), memo, h.
      split; [reflexivity|]. split; [exact Hext|]. split; [exact Hmemo|].
      split; [reflexivity|]. split; [lia|]. simpl. apply (Hmemo l l' Hl). }
    pose proof Hext as (Hlen & Holdh & _).
    rewrite (Holdh l Hv).
    destruct (lookup_lt_is_Some_2 h0 l Hv) as [o Ho]. rewrite Ho.
    pose proof (Hclosed l o Ho) as Hfields.
    assert (Hbudget : forall m m' : gmap nat nat,
               m ⊆ m' -> length h0 < fuel + size m -> length h0 < fuel + size m').
    { intros m m' Hsub Hm. pose proof (map_subseteq_size _ _ Hsub). lia. }
    assert (Hfuel' : length h0 < fuel + size (<[l := length h]> memo)).
    { rewrite map_size_insert_None by exact Hl. lia. }
    assert (Hsub0 : memo ⊆ <[l := length h]> memo).
    { apply insert_subseteq. exact Hl. }
    destruct o as [items|items]; simpl in Hfields.
    + destruct (copy_all_ok h0 (fun m => length h0 < fuel + size m)
                  (Store.deepcopy fuel) Hbudget IH (map snd items)
                  (<[l := length h]> memo) (h ++ [Store.ODict []]))
        as (items' & memo' & h' & -> & Hext' & Hmemo' & Hsub' & Hlen' & Hfresh' & Hn).
      * apply extends_alloc; [exact Hext | constructor].
      * apply memo_ok_insert; assumption.
      * exact Hfields.
      * exact Hfuel'.
      * rewrite length_app in Hlen'. simpl in Hlen'.
        exists (Store.Ref (length h)), memo',
          (<[length h := Store.ODict (zip (map fst items) items')]> h').
        split; [reflexivity|]. split.
        { apply extends_update; [exact Hext' | lia |].
          simpl. rewrite snd_zip; [exact Hfresh'|].
          rewrite Hn. rewrite !length_map. lia. }
        split. { eapply memo_ok_mono; [|exact Hmemo']. rewrite length_insert. lia. }
        split. { etrans; eauto. }
        rewrite length_insert. split; [lia|]. simpl. lia.
    + destruct (copy_all_ok h0 (fun m => length h0 < fuel + size m)
                  (Store.deepcopy fuel) Hbudget IH items
                  (<[l := length h]> memo) (h ++ [Store.OList []]))
        as (items' & memo' & h' & -> & Hext' & Hmemo' & Hsub' & Hlen' & Hfresh' & Hn).
      * apply extends_alloc; [exact Hext | constructor].
      * apply memo_ok_insert; assumption.
      * exact Hfields.
      * exact Hfuel'.
      * rewrite length_app in Hlen'. simpl in Hlen'.
        exists (Store.Ref (length h)), memo', (<[length h := Store.OList items']> h').
        split; [reflexivity|]. split.
        { apply extends_update; [exact Hext' | lia | exact Hfresh']. }
        split. { eapply memo_ok_mono; [|exact Hmemo']. rewrite length_insert. lia. }
        split. { etrans; eauto. }
        rewrite length_insert. split; [lia|]. simpl. lia.
Qed.

Lemma copy_values_ok (h0 : Store.heap) (Hclosed : Store.closed h0)
    (items : list (string * Store.val)) :
  forall h,
    Store.extends h0 h ->
    Forall (Store.old_val (length h0)) (map snd items) ->
    exists items' h',
      Store.copy_values (S (length h0)) items h = Some (items', h')
      /\ Store.extends h0 h' /\ length h <= length h'
      /\ Forall (Store.fresh_val (length h0) (length h')) (map snd items').
Proof.
  induction items as [|[k v] items IH]; intros h Hext Hold;
    cbn [Store.copy_values].
  - exists [], h. split; [reflexivity|]. split; [exact Hext|].
    split; [lia|constructor].
  - simpl in Hold. inversion Hold as [|? ? Hv Hrest]; subst.
    destruct (deepcopy_ok h0 Hclosed (S (length h0)) v ∅ h)
      as (v' & memo' & h1 & Hcopy & Hext1 & _ & _ & Hlen1 & Hfresh1).
    + exact Hext.
    + intros l l' Hl. rewrite lookup_empty in Hl. discriminate.
    + exact Hv.
    + lia.
    + rewrite Hcopy.
      destruct (IH h1 Hext1 Hrest) as (items' & h2 & -> & Hext2 & Hlen2 & Hfresh2).
      exists ((k, v') :: items'), h2.
      split; [reflexivity|]. split; [exact Hext2|]. split; [lia|].
      simpl. constructor; [|exact Hfresh2].
      eapply fresh_val_mono; [|exact Hfresh1]. lia.
Qed.

Lemma new_layer_ok (h0 : Store.heap) (Hclosed : Store.closed h0)
    (arg : option Store.val) (h : Store.heap) :
  Store.extends h0 h -> Store.valid_arg h0 arg ->
  exists l h',
    Store.new_layer (S (length h0)) arg h = Some (l, h')
    /\ Store.extends h0 h' /\ length h0 <= l < length h'
    /\ length h <= length h'.
Proof.
  intros Hext Harg. pose proof Hext as (Hlen & Holdh & _).
  destruct arg as [[a|l]|]; simpl in *.
  - contradiction.
  - destruct Harg as [items Hitems].
    assert (Hl : l < length h0) by (eapply lookup_lt_Some; eauto).
    rewrite (Holdh l Hl). rewrite Hitems.
    destruct (copy_values_ok h0 Hclosed items h Hext (Hclosed l _ Hitems))
      as (items' & h' & -> & Hext' & Hlen' & Hfresh').
    exists (length h'), (h' ++ [Store.ODict items'])%list.
    split; [reflexivity|]. split.
    { apply extends_alloc; [exact Hext'|]. simpl.
      eapply Forall_fresh_mono; [|exact Hfresh']. lia. }
    rewrite length_app. simpl. lia.
  - exists (length h), (h ++ [Store.ODict []])%list.
    split; [reflexivity|]. split.
    { apply extends_alloc; [exact Hext | constructor]. }
    rewrite length_app. simpl. lia.
Qed.

Lemma new_ok (h0 : Store.heap) (Hclosed : Store.closed h0)
    (init_ user_ last_ default_ : option Store.val) :
  Store.valid_arg h0 init_ -> Store.valid_arg h0 user_ ->
  Store.valid_arg h0 last_ -> Store.valid_arg h0 default_ ->
  exists am h1,
    Store.new (S (length h0)) init_ user_ last_ default_ h0 = Some (am, h1)
    /\ Store.extends h0 h1
    /\ Forall (fun l => length h0 <= l < length h1) (Store.combined am).
Proof.
  intros Hi Hu Hl Hd. unfold Store.new.
  destruct (new_layer_ok h0 Hclosed init_ h0 (extends_refl h0) Hi)
    as (i & h1 & -> & Hext1 & Hi1 & Hlen1).
  destruct (new_layer_ok h0 Hclosed user_ h1 Hext1 Hu)
    as (u & h2 & -> & Hext2 & Hu2 & Hlen2).
  destruct (new_layer_ok h0 Hclosed last_ h2 Hext2 Hl)
    as (la & h3 & -> & Hext3 & Hl3 & Hlen3).
  destruct (new_layer_ok h0 Hclosed default_ h3 Hext3 Hd)
    as (d & h4 & -> & Hext4 & Hd4 & Hlen4).
  eexists _, _. split; [reflexivity|]. split.
  { apply extends_alloc; [exact Hext4 | constructor]. }
  pose proof Hext4 as (Hlen & _).
  unfold Store.combined. simpl. rewrite length_app. simpl.
  repeat constructor; lia.
Qed.

Lemma assoc_elem_of (k : string) (items : list (string * Store.val)) (v : Store.val) :
  Store.assoc k items = Some v -> v ∈ map snd items.
Proof.
  induction items as [|[k' v'] items IH]; simpl; [discriminate|].
  destruct (String.eqb k k').
  - intros [= ->]. apply list_elem_of_here.
  - intros Hv. apply list_elem_of_further. apply IH. exact Hv.
Qed.

Section Isolation.
Variables h0 h1 h' : Store.heap.
Hypothesis Hext : Store.extends h0 h1.
Hypothesis Hsame : Store.same_from (length h0) h1 h'.

Lemma snapshot_same (depth : nat) :
  forall v, Store.fresh_val (length h0) (length h1) v ->
    Store.snapshot depth h' v = Store.snapshot depth h1 v.
Proof.
  induction depth as [|depth IH]; intros [a|l] Hv; simpl; try reflexivity.
  simpl in Hv. rewrite (Hsame l Hv).
  destruct (h1 !! l) as [o|] eqn:Ho; [|reflexivity].
  destruct Hext as (_ & _ & Hnew).
  pose proof (Hnew l o (proj1 Hv) Ho) as Hfields.
  destruct o as [items|items]; simpl in Hfields; f_equal.
  - apply Forall_mapM_ext. rewrite Forall_map in Hfields.
    eapply Forall_impl; [exact Hfields|].
    intros [k v] Hkv. simpl in *. rewrite (IH v Hkv). reflexivity.
  - apply Forall_mapM_ext. eapply Forall_impl; [exact Hfields|].
    intros v Hf. apply IH. exact Hf.
Qed.

Lemma dict_lookup_same (l : nat) (k : string) :
  length h0 <= l < length h1 ->
  Store.dict_lookup h' l k = Store.dict_lookup h1 l k
  /\ forall v, Store.dict_lookup h1 l k = Some v ->
       Store.fresh_val (length h0) (length h1) v.
Proof.
  intros Hl. unfold Store.dict_lookup. rewrite (Hsame l Hl).
  split; [reflexivity|]. intros v.
  destruct (h1 !! l) as [[items|items]|] eqn:Ho; try discriminate.
  intros Hv. apply assoc_elem_of in Hv.
  destruct Hext as (_ & _ & Hnew).
  pose proof (Hnew l _ (proj1 Hl) Ho) as Hfields. simpl in Hfields.
  rewrite Forall_forall in Hfields. apply Hfields. exact Hv.
Qed.

Lemma chain_lookup_same (maps : list nat) (k : string) :
  Forall (fun l => length h0 <= l < length h1) maps ->
  Store.chain_lookup h' maps k = Store.chain_lookup h1 maps k
  /\ forall v, Store.chain_lookup h1 maps k = Some v ->
       Store.fresh_val (length h0) (length h1) v.
Proof.
  induction 1 as [|l maps Hl _ IH]; simpl.
  - split; [reflexivity | discriminate].
  - destruct (dict_lookup_same l k Hl) as [-> Hfresh].
    destruct (Store.dict_lookup h1 l k) as [v|].
    + split; [reflexivity|]. intros v' [= <-]. apply Hfresh. reflexivity.
    + exact IH.
Qed.

Lemma read_same (DEFAULT_DATA : list (string * Store.atom)) (depth : nat)
    (am : Store.answers_map) (k : string) :
  Forall (fun l => length h0 <= l < length h1) (Store.combined am) ->
  Store.read DEFAULT_DATA depth h' am k = Store.read DEFAULT_DATA depth h1 am k.
Proof.
  intros Hmaps. unfold Store.read, Store.combined_lookup.
  destruct (chain_lookup_same (Store.combined am) k Hmaps) as [-> Hfresh].
  destruct (Store.chain_lookup h1 (Store.combined am) k) as [v|]; simpl.
  - f_equal. apply snapshot_same. apply Hfresh. reflexivity.
  - destruct (List.find _ DEFAULT_DATA) as [[k' a]|]; simpl; [|reflexivity].
    f_equal. destruct depth; reflexivity.
Qed.
End Isolation.

(** Mutating an object that existed before [n0] leaves the later ones alone. *)
Lemma same_from_refl (n0 : nat) (h : Store.heap) : Store.same_from n0 h h.
Proof. intros l _. reflexivity. Qed.

Lemma same_from_insert (n0 : nat) (h h' : Store.heap) (l : nat) (o : Store.obj) :
  l < n0 -> Store.same_from n0 h h' -> Store.same_from n0 h (<[l := o]> h').
Proof.
  intros Hl Hsame l' Hl'. rewrite list_lookup_insert_ne by lia.
  apply Hsame. exact Hl'.
Qed.

Lemma same_from_setitem (n0 : nat) (h h' : Store.heap) (l : nat) (k : string)
    (v : Store.val) :
  l < n0 -> Store.same_from n0 h h' -> Store.same_from n0 h (Store.setitem h' l k v).
Proof.
  intros Hl Hsame. unfold Store.setitem.
  destruct (h' !! l) as [[items|items]|]; try exact Hsame.
  apply same_from_insert; assumption.
Qed.

Lemma same_from_append (n0 : nat) (h h' : Store.heap) (l : nat) (v : Store.val) :
  l < n0 -> Store.same_from n0 h h' -> Store.same_from n0 h (Store.append h' l v).
Proof.
  intros Hl Hsame. unfold Store.append.
  destruct (h' !! l) as [[items|items]|]; try exact Hsame.
  apply same_from_insert; assumption.
Qed.

Lemma same_from_mutate (n0 : nat) (h h' : Store.heap) (m : Store.mutation) :
  Store.target m < n0 -> Store.same_from n0 h h' ->
  Store.same_from n0 h (Store.mutate h' m).
Proof.
  intros Hl Hsame. destruct m as [l k v|l k|l v|l]; simpl in *.
  - apply same_from_setitem; assumption.
  - unfold Store.delitem. destruct (h' !! l) as [[items|items]|]; try exact Hsame.
    apply same_from_insert; assumption.
  - apply same_from_append; assumption.
  - destruct (h' !! l) as [[items|items]|]; try exact Hsame;
      apply same_from_insert; assumption.
Qed.

Lemma same_from_mutate_all (n0 : nat) (h : Store.heap) (ms : list Store.mutation) :
  Forall (fun m => Store.target m < n0) ms ->
  forall h', Store.same_from n0 h h' ->
    Store.same_from n0 h (Store.mutate_all h' ms).
Proof.
  induction 1 as [|m ms Hm _ IH]; intros h' Hsame; simpl.
  - exact Hsame.
  - apply IH. apply same_from_mutate; assumption.
Qed.



(** The sample at work: after the caller's mutations its own dict shows
    them, and the instance reads as at construction. *)
Example answers_map_after_mutations :
  match Store.new 3 (Some (Store.Ref 0)) None None None Sample.caller_heap with
  | Some (am, h1) =>
      let h' := Store.mutate_all h1 Sample.caller_mutations in
      Store.snapshot 2 h' (Store.Ref 0) = Some (VDict [("name", VStr "Bob")])
      /\ Store.read [] 2 h' am "name" = Some (Some (VStr "Alice"))
      /\ Store.read [] 2 h' am "tags" = Some (Some (VList [VStr "x"]))
  | None => False
  end.
Proof. vm_compute. repeat split; reflexivity. Qed.

(** * Further properties of the code *)

(** ** Recorded answers *)

Lemma Dict_lookup_filter (p : string -> bool) (d : PyDict) (k : string) :
  Dict.lookup k (List.filter (fun kv => p (fst kv)) d)
  = if p k then Dict.lookup k d else None.
Proof.
  induction d as [|[k' v] d IH]; simpl.
  - destruct (p k); reflexivity.
  - destruct (String.eqb k k') eqn:E.
    + apply String.eqb_eq in E. subst k'.
      destruct (p k) eqn:Hp; simpl.
      * rewrite String.eqb_refl. reflexivity.
      * exact IH.
    + destruct (p k'); simpl; [rewrite E|]; exact IH.
Qed.

Lemma Dict_keys_filter (p : string -> bool) (d : PyDict) (k : string) :
  k ∈ Dict.keys (List.filter (fun kv => p (fst kv)) d) ->
  p k = true /\ k ∈ Dict.keys d.
Proof.
  induction d as [|[k' v] d IH]; simpl.
  - intros Hin. inversion Hin.
  - destruct (p k') eqn:Hp; simpl.
    + rewrite !elem_of_cons. intros [->|Hin]; [tauto|].
      destruct (IH Hin). tauto.
    + intros Hin. destruct (IH Hin). rewrite elem_of_cons. tauto.
Qed.

(** X1. Of the recorded answers, [last_answers] keeps [_src_path],
    [_commit] and every key that does not start with an underscore, each
    with its recorded value; every other key is dropped. *)
Theorem X1_last_answers_drops_private_keys `{Collaborators} (disk : FileSystem)
    (sp : Subproject.t) (d : PyDict) :
  Subproject._raw_answers disk sp = Ok (VDict d) ->
  exists la,
    Subproject.last_answers disk sp = Ok la
    /\ (forall k,
          Dict.lookup k la
          = if String.eqb k "_src_path" || String.eqb k "_commit"
               || negb (Str.startswith k "_")
            then Dict.lookup k d else None)
    /\ (forall k, k ∈ Dict.keys la ->
          (k = "_src_path" \/ k = "_commit" \/ Str.startswith k "_" = false)
          /\ k ∈ Dict.keys d).
Proof.
  intros Hraw. eexists. split; [apply (last_answers_of_raw disk sp d Hraw)|].
  split.
  - intros k.
    apply (Dict_lookup_filter
             (fun k => String.eqb k "_src_path" || String.eqb k "_commit"
                       || negb (Str.startswith k "_"))).
  - intros k Hin.
    apply (Dict_keys_filter
             (fun k => String.eqb k "_src_path" || String.eqb k "_commit"
                       || negb (Str.startswith k "_"))) in Hin as [Hp Hin].
    split; [|exact Hin].
    apply orb_true_iff in Hp as [Hp|Hp];
      [apply orb_true_iff in Hp as [Hp|Hp]; apply String.eqb_eq in Hp; tauto|].
    apply negb_true_iff in Hp. tauto.
Qed.

Lemma X1_last_answers_drops_private_keys_witness :
  let recorded := [("_src_path", VStr "/tpl"); ("_commit", VStr "v1");
                   ("_exclude", VList []); ("name", VStr "Alice")] in
  let E := Sample.collaborators Sample.tpl_root Sample.tpl_tree []
             (fun _ => Ok (VDict recorded)) in
  let disk : FileSystem :=
    <[ ["/"; "dst"; ".copier-answers.yml"] := File "..." ]> Sample.empty_dst in
  let sp := Subproject.mk Sample.dst_root Subproject.default_answers_relpath in
  exists la,
    Subproject.last_answers disk sp = Ok la
    /\ (forall k,
          Dict.lookup k la
          = if String.eqb k "_src_path" || String.eqb k "_commit"
               || negb (Str.startswith k "_")
            then Dict.lookup k recorded else None)
    /\ (forall k, k ∈ Dict.keys la ->
          (k = "_src_path" \/ k = "_commit" \/ Str.startswith k "_" = false)
          /\ k ∈ Dict.keys recorded).
Proof.
  intros recorded E disk sp.
  apply (X1_last_answers_drops_private_keys disk sp recorded).
  vm_compute. reflexivity.
Defined.

(** X2. An answers file that is read but does not hold a mapping is an
    error, unlike one that cannot be read: an error of the parser that is
    no [OSError] goes through [_raw_answers], and a document that is not a
    mapping (an empty file is [None]) makes [last_answers] and [template]
    raise [AttributeError]. *)
Theorem X2_answers_file_without_mapping `{Collaborators} (disk : FileSystem)
    (sp : Subproject.t) (text : string) :
  FS.read_text disk
    (PathLib.joinpath (Subproject.local_path sp) (Subproject.answers_relpath sp))
    = Ok text ->
  (forall e, yaml_safe_load text = Raise e -> is_OSError e = false ->
     Subproject._raw_answers disk sp = Raise e
     /\ Subproject.last_answers disk sp = Raise e
     /\ Subproject.template disk sp = Raise e)
  /\ (forall v, yaml_safe_load text = Ok v -> (forall d, v <> VDict d) ->
        Subproject._raw_answers disk sp = Ok v
        /\ (exists msg, Subproject.last_answers disk sp = Raise (AttributeError msg))
        /\ (exists msg, Subproject.template disk sp = Raise (AttributeError msg))).
Proof.
  intros Hread. split.
  - intros e Hyaml Hos.
    assert (Hraw : Subproject._raw_answers disk sp = Raise e).
    { unfold Subproject._raw_answers. rewrite Hread. simpl. rewrite Hyaml, Hos.
      reflexivity. }
    unfold Subproject.last_answers, Subproject.template. rewrite Hraw.
    repeat split; reflexivity.
  - intros v Hyaml Hv.
    assert (Hraw : Subproject._raw_answers disk sp = Ok v).
    { unfold Subproject._raw_answers. rewrite Hread. simpl. rewrite Hyaml.
      reflexivity. }
    split; [exact Hraw|].
    unfold Subproject.last_answers, Subproject.template. rewrite Hraw.
    destruct v; simpl; eauto. exfalso. eapply Hv. reflexivity.
Qed.

Lemma X2_answers_file_without_mapping_witness :
  let E := Sample.collaborators Sample.tpl_root Sample.tpl_tree []
             (fun text => if String.eqb text "" then Ok VNone
                          else Raise (ExternalError "YAMLError" text)) in
  let sp := Subproject.mk Sample.dst_root Subproject.default_answers_relpath in
  let empty_file : FileSystem :=
    <[ ["/"; "dst"; ".copier-answers.yml"] := File "" ]> Sample.empty_dst in
  let broken_file : FileSystem :=
    <[ ["/"; "dst"; ".copier-answers.yml"] := File "a: [" ]> Sample.empty_dst in
  (Subproject._raw_answers empty_file sp = Ok VNone
   /\ (exists msg, Subproject.last_answers empty_file sp = Raise (AttributeError msg))
   /\ (exists msg, Subproject.template empty_file sp = Raise (AttributeError msg)))
  /\ (Subproject._raw_answers broken_file sp = Raise (ExternalError "YAMLError" "a: [")
      /\ Subproject.last_answers broken_file sp = Raise (ExternalError "YAMLError" "a: [")
      /\ Subproject.template broken_file sp = Raise (ExternalError "YAMLError" "a: [")).
Proof.
  intros E sp empty_file broken_file. split.
  - apply (proj2 (X2_answers_file_without_mapping empty_file sp ""
                    ltac:(vm_compute; reflexivity)) VNone).
    + reflexivity.
    + intros d. discriminate.
  - apply (proj1 (X2_answers_file_without_mapping broken_file sp "a: ["
                    ltac:(vm_compute; reflexivity))).
    + reflexivity.
    + reflexivity.
Defined.

(** X3. A recorded [_src_path] that is not empty gives the subproject
    its template, with the recorded [_commit] as [ref]; a worker without
    [src_path] ([None] or the empty string) works with that template, and
    its own [vcs_ref] is not used. *)
Theorem X3_recorded_template_is_used `{Collaborators} (disk : FileSystem)
    (w : Worker.t) (d : PyDict) (url : string) (ref : option string) :
  Subproject._raw_answers disk (Worker.subproject w) = Ok (VDict d) ->
  Dict.lookup "_src_path" d = Some (VStr url) ->
  url <> "" ->
  Dict.get d "_commit" = Worker.val_of_opt ref ->
  Subproject.template disk (Worker.subproject w) = Ok (Some (Template.mk url ref))
  /\ (Worker.src_path w = None \/ Worker.src_path w = Some "" ->
      Worker.template disk w = Ok (Template.mk url ref)).
Proof.
  intros Hraw Hurl Hne Hcommit.
  assert (Htpl : Subproject.template disk (Worker.subproject w)
                 = Ok (Some (Template.mk url ref))).
  { unfold Subproject.template. rewrite Hraw. simpl.
    unfold Dict.get at 1. rewrite Hurl. simpl.
    unfold Str.truthy. apply String.eqb_neq in Hne. rewrite Hne. simpl.
    unfold Dict.get. rewrite Hurl. simpl.
    fold (Dict.get d "_commit"). rewrite Hcommit.
    destruct ref; reflexivity. }
  split; [exact Htpl|].
  intros Hsrc. unfold Worker.template.
  assert (Hfalse : Worker.truthy_opt (Worker.src_path w) = false)
    by (destruct Hsrc as [-> | ->]; reflexivity).
  rewrite Hfalse, Htpl. reflexivity.
Qed.

Lemma X3_recorded_template_is_used_witness :
  let recorded := [("_src_path", VStr "/tpl"); ("_commit", VStr "v1");
                   ("name", VStr "Alice")] in
  let E := Sample.collaborators Sample.tpl_root Sample.tpl_tree []
             (fun _ => Ok (VDict recorded)) in
  let disk : FileSystem :=
    <[ ["/"; "dst"; ".copier-answers.yml"] := File "..." ]> Sample.empty_dst in
  let w := Worker.mk [".copier-answers.yml"] true [] Sample.dst_root (VObj "EnvOps")
             [] [] false false false [] None None false (Some "v2") in
  Subproject.template disk (Worker.subproject w)
    = Ok (Some (Template.mk "/tpl" (Some "v1")))
  /\ (Worker.src_path w = None \/ Worker.src_path w = Some "" ->
      Worker.template disk w = Ok (Template.mk "/tpl" (Some "v1"))).
Proof.
  intros recorded E disk w.
  apply (X3_recorded_template_is_used disk w recorded "/tpl" (Some "v1")).
  - vm_compute. reflexivity.
  - reflexivity.
  - discriminate.
  - reflexivity.
Defined.

(** ** The configuration of a template *)

(** X4. [_raw_config] returns the configuration exactly as
    [load_config_data] gave it, and it returns in these cases only: there
    is no [_min_copier_version], or the version check passes, or the
    version check raises a [KeyError], which [suppress(KeyError)]
    swallows. *)
Theorem X4_raw_config_is_the_loaded_config `{Collaborators} (self : Template.t)
    (result : PyDict) :
  Template._raw_config self = Ok result
  <-> exists lp,
        Template.local_path self = Ok lp
        /\ load_config_data lp = Ok result
        /\ (Dict.lookup "_min_copier_version" result = None
            \/ exists v,
                 Dict.lookup "_min_copier_version" result = Some v
                 /\ (verify_minimum_version v = Ok tt
                     \/ exists k, verify_minimum_version v = Raise (KeyError k))).
Proof.
  unfold Template._raw_config. split.
  - destruct (Template.local_path self) as [lp|e]; simpl; [|discriminate].
    destruct (load_config_data lp) as [cfg|e] eqn:Hload; simpl; [|discriminate].
    destruct (Dict.lookup "_min_copier_version" cfg) as [v|] eqn:Hv.
    + destruct (verify_minimum_version v) as [[]|e] eqn:Hcheck.
      * intros [= <-]. exists lp. split; [reflexivity|]. split; [exact Hload|].
        right. exists v. split; [exact Hv|]. left. exact Hcheck.
      * destruct e; try discriminate.
        intros [= <-]. exists lp. split; [reflexivity|]. split; [exact Hload|].
        right. exists v. split; [exact Hv|]. right. eauto.
    + intros [= <-]. exists lp. split; [reflexivity|]. split; [exact Hload|].
      left. exact Hv.
  - intros (lp & -> & Hload & Hcheck). simpl. rewrite Hload. simpl.
    destruct Hcheck as [->|(v & -> & [->|[k ->]])]; reflexivity.
Qed.

(** The other errors of the version check are not swallowed. *)
Lemma raw_config_version_error `{Collaborators} (self : Template.t) (lp : Path)
    (cfg : PyDict) (v : PyVal) (e : Exn) :
  Template.local_path self = Ok lp ->
  load_config_data lp = Ok cfg ->
  Dict.lookup "_min_copier_version" cfg = Some v ->
  verify_minimum_version v = Raise e ->
  (forall k, e <> KeyError k) ->
  Template._raw_config self = Raise e.
Proof.
  intros Hlp Hload Hv Hcheck He. unfold Template._raw_config.
  rewrite Hlp. simpl. rewrite Hload. simpl. rewrite Hv, Hcheck.
  destruct e; try reflexivity. exfalso. eapply He. reflexivity.
Qed.

Lemma Dict_set_fresh (k : string) (v : PyVal) (d : PyDict) :
  k ∉ Dict.keys d -> Dict.set k v d = (d ++ [(k, v)])%list.
Proof.
  induction d as [|[k' v'] d IH]; simpl; intros Hk; [reflexivity|].
  apply not_elem_of_cons in Hk as [Hne Hk].
  apply String.eqb_neq in Hne. rewrite Hne. rewrite IH by exact Hk. reflexivity.
Qed.

Lemma defaults_of_spec (q acc : PyDict) :
  NoDup (Dict.keys acc ++ Dict.keys q) ->
  Forall (fun kv => exists d, snd kv = VDict d) q ->
  Template.defaults_of q acc
  = Ok (acc ++ map (fun kv => (fst kv, match snd kv with
                                       | VDict d => Dict.get d "default"
                                       | _ => VNone
                                       end)) q)%list.
Proof.
  revert acc. induction q as [|[k v] q IH]; intros acc Hnd Hall; simpl.
  - rewrite app_nil_r. reflexivity.
  - inversion Hall as [|? ? [d Hd] Hrest]; subst. simpl in Hd. subst v. simpl.
    assert (Hk : k ∉ Dict.keys acc).
    { apply NoDup_app in Hnd as (_ & Hdisj & _). intros Hin.
      apply (Hdisj k Hin). left. }
    rewrite (Dict_set_fresh _ _ _ Hk). rewrite IH.
    + rewrite <- app_assoc. reflexivity.
    + unfold Dict.keys in *. rewrite map_app. simpl. rewrite <- app_assoc. exact Hnd.
    + exact Hrest.
Qed.

Lemma defaults_of_not_a_mapping (q : PyDict) :
  ~ Forall (fun kv => exists d, snd kv = VDict d) q ->
  forall acc, exists msg, Template.defaults_of q acc = Raise (AttributeError msg).
Proof.
  induction q as [|[k v] q IH]; intros Hnot acc; simpl.
  - exfalso. apply Hnot. constructor.
  - destruct v; simpl; eauto.
    apply IH. intros Hall. apply Hnot. constructor; [simpl; eauto | exact Hall].
Qed.

(** X5. [default_answers] has one entry per question, in the order of the
    questions: the [default] of its details, [None] when the details give
    none.  Details that are not a mapping make it raise
    [AttributeError]. *)
Theorem X5_default_answers_per_question `{Collaborators} (self : Template.t)
    (q : PyDict) :
  Template.questions_data self = Ok q ->
  NoDup (Dict.keys q) ->
  (Forall (fun kv => exists d, snd kv = VDict d) q ->
   Template.default_answers self
   = Ok (map (fun kv => (fst kv, match snd kv with
                                 | VDict d => Dict.get d "default"
                                 | _ => VNone
                                 end)) q))
  /\ (~ Forall (fun kv => exists d, snd kv = VDict d) q ->
      exists msg, Template.default_answers self = Raise (AttributeError msg)).
Proof.
  intros Hq Hnd. unfold Template.default_answers. rewrite Hq. simpl. split.
  - intros Hall. rewrite defaults_of_spec; [reflexivity | exact Hnd | exact Hall].
  - intros Hnot. apply defaults_of_not_a_mapping. exact Hnot.
Qed.

Lemma X5_default_answers_per_question_witness :
  let E := Sample.collaborators Sample.tpl_root Sample.tpl_tree
             [("name", VDict [("default", VStr "World")]);
              ("token", VDict [("secret", VBool true)])]
             (fun _ => Ok (VDict [])) in
  let q := [("name", VDict [("default", VStr "World")]);
            ("token", VDict [("secret", VBool true)])] in
  Template.default_answers (Template.mk "/tpl" None)
  = Ok [("name", VStr "World"); ("token", VNone)].
Proof.
  intros E q.
  refine (proj1 (@X5_default_answers_per_question E (Template.mk "/tpl" None) q _ _) _).
  - vm_compute. reflexivity.
  - apply NoDup_cons. split; [|apply NoDup_singleton].
    rewrite list_elem_of_singleton. discriminate.
  - repeat constructor; simpl; eauto.
Defined.

Lemma X4_raw_config_is_the_loaded_config_witness :
  let cfg := [("_exclude", VList [VStr "a"]); ("name", VDict [])] in
  let E := Sample.collaborators Sample.tpl_root Sample.tpl_tree cfg
             (fun _ => Ok (VDict [])) in
  Template._raw_config (Template.mk "/tpl" None) = Ok cfg.
Proof.
  intros cfg E.
  apply (proj2 (@X4_raw_config_is_the_loaded_config E (Template.mk "/tpl" None) cfg)).
  exists ["/"; "tpl"]. split; [vm_compute; reflexivity|].
  split; [reflexivity|]. left. reflexivity.
Defined.

Lemma secret_keys_spec (q : PyDict) (acc : list string) :
  Forall (fun kv => exists d, snd kv = VDict d) q ->
  Template.secret_keys q acc
  = Ok (acc ++ map fst
          (List.filter (fun kv => match snd kv with
                                  | VDict d => truthy (Dict.get d "secret")
                                  | _ => false
                                  end) q))%list.
Proof.
  intros Hall. revert acc.
  induction Hall as [|[k v] q [d Hd] _ IH]; intros acc; simpl.
  - rewrite app_nil_r. reflexivity.
  - simpl in Hd. subst v. simpl. rewrite IH.
    destruct (truthy (Dict.get d "secret")); simpl; [|reflexivity].
    rewrite <- app_assoc. reflexivity.
Qed.

(** X6. The secret questions are the members of the [secret_questions]
    of the configuration together with every question whose details have a
    true [secret]; nothing else is secret. *)
Theorem X6_secret_questions_membership `{Collaborators} (self : Template.t)
    (cfg q : PyDict) (declared : list string) :
  Template.config_data self = Ok cfg ->
  Template.questions_data self = Ok q ->
  py_set (Dict.get_default cfg "secret_questions" (VDict [])) = Ok declared ->
  Forall (fun kv => exists d, snd kv = VDict d) q ->
  exists secrets,
    Template.secret_questions self = Ok secrets
    /\ forall k,
         k ∈ secrets
         <-> k ∈ declared
             \/ exists d, (k, VDict d) ∈ q /\ truthy (Dict.get d "secret") = true.
Proof.
  intros Hcfg Hq Hset Hall. unfold Template.secret_questions.
  rewrite Hcfg. simpl. rewrite Hset. simpl. rewrite Hq. simpl.
  rewrite (secret_keys_spec q declared Hall).
  eexists. split; [reflexivity|]. intros k.
  rewrite elem_of_app. apply or_iff_compat_l.
  rewrite list_elem_of_fmap. split.
  - intros [[k' v] [-> Hin]]. apply list_elem_of_In in Hin.
    apply List.filter_In in Hin as [Hin Hsecret]. simpl in *.
    destruct v; try discriminate. exists items.
    split; [apply list_elem_of_In; exact Hin | exact Hsecret].
  - intros [d [Hin Hsecret]]. exists (k, VDict d). split; [reflexivity|].
    apply list_elem_of_In. apply List.filter_In.
    split; [apply list_elem_of_In; exact Hin | exact Hsecret].
Qed.

Lemma X6_secret_questions_membership_witness :
  let raw := [("_secret_questions", VList [VStr "password"]);
              ("name", VDict [("default", VStr "World")]);
              ("token", VDict [("secret", VBool true)])] in
  let E := Sample.collaborators Sample.tpl_root Sample.tpl_tree raw
             (fun _ => Ok (VDict [])) in
  exists secrets,
    Template.secret_questions (Template.mk "/tpl" None) = Ok secrets
    /\ forall k,
         k ∈ secrets
         <-> k ∈ ["password"]
             \/ exists d,
                  (k, VDict d) ∈ [("name", VDict [("default", VStr "World")]);
                                  ("token", VDict [("secret", VBool true)])]
                  /\ truthy (Dict.get d "secret") = true.
Proof.
  intros raw E.
  refine (@X6_secret_questions_membership E (Template.mk "/tpl" None)
            [("secret_questions", VList [VStr "password"])] _ ["password"] _ _ _ _).
  - vm_compute. reflexivity.
  - vm_compute. reflexivity.
  - reflexivity.
  - repeat constructor; simpl; eauto.
Defined.

(** X7. Where a template is found.  A [url] that [get_repo] does not
    recognise is used in place: no VCS, no clone, no commit.  A [url] that
    is recognised and is the root of a local repository is used in place
    too; any other recognised [url] is cloned at [ref], and the errors of
    the clone are the errors of [local_path]. *)
Theorem X7_template_location `{Collaborators} (self : Template.t) :
  (get_repo (Template.url self) = None \/ get_repo (Template.url self) = Some "" ->
   Template.vcs self = None
   /\ Template.url_expanded self = Template.url self
   /\ Template.local_path self = Ok (PathLib.parse (Template.url self))
   /\ Template.commit self = Ok None)
  /\ (forall repo,
        get_repo (Template.url self) = Some repo -> repo <> "" ->
        Template.vcs self = Some "git"
        /\ Template.url_expanded self = repo
        /\ (is_git_repo_root repo = true ->
            Template.local_path self = Ok (PathLib.parse (Template.url self)))
        /\ (is_git_repo_root repo = false ->
            Template.local_path self
            = match clone repo (Template.ref self) with
              | Ok p => Ok (PathLib.parse p)
              | Raise e => Raise e
              end)).
Proof.
  split.
  - intros Hrepo.
    unfold Template.commit, Template.local_path, Template.vcs_is_git,
      Template.url_expanded, Template.vcs.
    destruct Hrepo as [-> | ->]; simpl; repeat split; reflexivity.
  - intros repo Hrepo Hne. apply String.eqb_neq in Hne.
    unfold Template.local_path, Template.vcs_is_git, Template.url_expanded,
      Template.vcs.
    rewrite Hrepo. unfold Str.truthy. rewrite Hne. simpl.
    split; [reflexivity|]. split; [reflexivity|]. split.
    + intros ->. reflexivity.
    + intros ->. simpl. destruct (clone repo (Template.ref self)); reflexivity.
Qed.

Lemma X7_template_location_witness :
  let E := Sample.collaborators Sample.tpl_root Sample.tpl_tree []
             (fun _ => Ok (VDict [])) in
  let self := Template.mk "/tpl" (Some "v1") in
  Template.vcs self = None
  /\ Template.url_expanded self = "/tpl"
  /\ Template.local_path self = Ok ["/"; "tpl"]
  /\ Template.commit self = Ok None.
Proof.
  intros E self.
  apply (proj1 (@X7_template_location E self)). left. reflexivity.
Defined.

(** ** The answers of a worker *)

(** X8. The answers a worker combines: what the caller passed in [data]
    wins over the recorded answers, they win over the defaults of the
    template, and [DEFAULT_DATA] comes last. *)
Theorem X8_worker_answers_precedence `{Collaborators} (disk : FileSystem)
    (w : Worker.t) (recorded defaults : PyDict) (tpl : Template.t) :
  Subproject.last_answers disk (Worker.subproject w) = Ok recorded ->
  Worker.template disk w = Ok tpl ->
  Template.default_answers tpl = Ok defaults ->
  exists am,
    Worker.answers disk w = Ok am
    /\ forall k,
         ChainMap.lookup k (AnswersMap.combined DEFAULT_DATA am)
         = match Dict.lookup k (Worker.data w) with
           | Some v => Some v
           | None =>
               match Dict.lookup k recorded with
               | Some v => Some v
               | None =>
                   match Dict.lookup k defaults with
                   | Some v => Some v
                   | None => Dict.lookup k DEFAULT_DATA
                   end
               end
           end.
Proof.
  intros Hlast Htpl Hdflt. unfold Worker.answers.
  rewrite Hlast. simpl. rewrite Htpl. simpl. rewrite Hdflt. simpl.
  eexists. split; [reflexivity|]. intros k. simpl.
  destruct (Dict.lookup k (Worker.data w)); [reflexivity|].
  destruct (Dict.lookup k recorded); [reflexivity|].
  destruct (Dict.lookup k defaults); [reflexivity|].
  destruct (Dict.lookup k DEFAULT_DATA); reflexivity.
Qed.

Lemma X8_worker_answers_precedence_witness :
  let E := Sample.collaborators Sample.tpl_root Sample.tpl_tree
             [("name", VDict [("default", VStr "World")]);
              ("age", VDict [("default", VInt 1)]);
              ("city", VDict [("default", VStr "Oslo")])]
             (fun _ => Ok (VDict [("name", VStr "Bob"); ("age", VInt 30)])) in
  let disk : FileSystem :=
    <[ ["/"; "dst"; ".copier-answers.yml"] := File "..." ]> Sample.empty_dst in
  let w := Sample.with_data [("name", VStr "Alice")]
             (Sample.worker (Some "/tpl") Sample.dst_root) in
  exists am,
    Worker.answers disk w = Ok am
    /\ ChainMap.lookup "name" (AnswersMap.combined DEFAULT_DATA am) = Some (VStr "Alice")
    /\ ChainMap.lookup "age" (AnswersMap.combined DEFAULT_DATA am) = Some (VInt 30)
    /\ ChainMap.lookup "city" (AnswersMap.combined DEFAULT_DATA am) = Some (VStr "Oslo")
    /\ ChainMap.lookup "email" (AnswersMap.combined DEFAULT_DATA am) = None.
Proof.
  intros E disk w.
  destruct (@X8_worker_answers_precedence E disk w
              [("name", VStr "Bob"); ("age", VInt 30)]
              [("name", VStr "World"); ("age", VInt 1); ("city", VStr "Oslo")]
              (Template.mk "/tpl" None)) as [am [Ham Hlookup]].
  - vm_compute. reflexivity.
  - reflexivity.
  - vm_compute. reflexivity.
  - exists am. split; [exact Ham|].
    rewrite !Hlookup. repeat split; reflexivity.
Defined.

(** ** Conflicts at the destination *)

Lemma M_bind_cases {A B} (m : M A) (k : A -> M B) (w w' : World) (r : Exc B) :
  (m ≫= k) w = (r, w') ->
  (exists a w1, m w = (Ok a, w1) /\ k a w1 = (r, w'))
  \/ (exists e, m w = (Raise e, w') /\ r = Raise e).
Proof.
  unfold mbind, M_bind. destruct (m w) as [[a|e] w1]; intros Hrun.
  - left. eauto.
  - right. inversion Hrun; subst. eauto.
Qed.

Lemma printf_world (action : string) (p : Path) (quiet : bool) (world : World) :
  snd (printf action p quiet world)
  = mkWorld (fs world) (replies world)
      (trace world ++ if quiet then [] else [Printf action p]).
Proof.
  unfold printf. destruct quiet, world; simpl; [rewrite app_nil_r|]; reflexivity.
Qed.

(** X11. [_solve_render_conflict] on a relative path: "conflict" is
    reported (unless [quiet]); with [force] the path is allowed and nothing
    is asked; without it the user is asked once and the reply decides, an
    empty or missing reply counting as yes.  The files of the destination
    are not touched. *)
Theorem X11_conflicts_are_forced_or_asked (w : Worker.t) (dst_relpath : Path)
    (world : World) :
  PathLib.is_absolute dst_relpath = false ->
  let reported :=
    (trace world
     ++ if Worker.quiet w then [] else [Printf "conflict" dst_relpath])%list in
  Worker._solve_render_conflict w dst_relpath world
  = if Worker.force w then
      (Ok true, mkWorld (fs world) (replies world) reported)
    else
      (Ok (hd true (replies world)),
       mkWorld (fs world) (tl (replies world))
         (reported
          ++ [Asked (" Overwrite " +:+ PathLib.to_str dst_relpath +:+ "?")])).
Proof.
  intros Hrel reported. unfold Worker._solve_render_conflict.
  rewrite M_bind_lift. rewrite Hrel. simpl.
  unfold mbind, M_bind.
  destruct (printf "conflict" dst_relpath (Worker.quiet w) world)
    as [r told] eqn:Hsay.
  assert (Hr : r = Ok tt)
    by (unfold printf in Hsay; destruct (Worker.quiet w); inversion Hsay; reflexivity).
  assert (Htold : told = snd (printf "conflict" dst_relpath (Worker.quiet w) world))
    by (rewrite Hsay; reflexivity).
  subst r. rewrite printf_world in Htold. subst told.
  destruct (Worker.force w); reflexivity.
Qed.

Lemma X11_conflicts_are_forced_or_asked_witness :
  let w := Sample.worker (Some "/tpl") Sample.dst_root in
  let disk : FileSystem := <[ ["/"; "dst"; "a.txt"] := File "old" ]> Sample.empty_dst in
  Worker._solve_render_conflict w ["a.txt"] (mkWorld disk [false] [])
  = (Ok false,
     mkWorld disk [] [Printf "conflict" ["a.txt"]; Asked " Overwrite a.txt?"]).
Proof.
  intros w disk.
  exact (X11_conflicts_are_forced_or_asked w ["a.txt"] (mkWorld disk [false] [])
           eq_refl).
Defined.

(** ** What rendering does to the destination *)

Lemma walk_snoc (fs : FileSystem) (rest : list string) (x : string) :
  forall seen,
    FS.walk fs seen (rest ++ [x])
    = match FS.walk fs seen rest with
      | Is Dir =>
          match FS.stat fs (seen ++ rest ++ [x]) with
          | Some n => Is n
          | None => Missing
          end
      | Is _ => NotDir
      | Missing => Missing
      | NotDir => NotDir
      end.
Proof.
  induction rest as [|y rest IH]; intros seen; simpl.
  - destruct (FS.stat fs seen) as [[]|]; reflexivity.
  - destruct (FS.stat fs seen) as [[]|]; try reflexivity.
    rewrite IH. rewrite <- app_assoc. reflexivity.
Qed.

Lemma find_is (fs : FileSystem) (p : Path) (n : Node) :
  FS.find fs p = Is n -> FS.stat fs p = Some n.
Proof.
  unfold FS.find. destruct p as [|x p _] using rev_ind; simpl.
  - intros [= <-]. reflexivity.
  - rewrite walk_snoc. simpl.
    destruct (FS.walk fs [] p) as [| |[]]; try discriminate.
    destruct (FS.stat fs (p ++ [x])); [|discriminate]. congruence.
Qed.

Lemma stat_lookup (fs : FileSystem) (p : Path) (n : Node) :
  FS.stat fs p = Some n -> n <> Dir -> fs !! p = Some n.
Proof.
  unfold FS.stat. destruct p as [|first [|second p]]; intros Hstat Hn.
  - congruence.
  - destruct (String.eqb first "/"); [congruence | exact Hstat].
  - exact Hstat.
Qed.

Lemma find_missing_child (fs : FileSystem) (p : Path) :
  FS.find fs p = Missing -> FS.find fs (PathLib.parent p) = Is Dir ->
  fs !! p = None.
Proof.
  unfold FS.find. destruct p as [|x p _] using rev_ind; [simpl; discriminate|].
  assert (Hparent : PathLib.parent (p ++ [x]) = p \/ (p = [] /\ x = "/")).
  { unfold PathLib.parent. destruct p as [|y p]; simpl.
    - destruct (String.eqb x "/") eqn:E; [|left; reflexivity].
      apply String.eqb_eq in E. right. tauto.
    - left. destruct (p ++ [x])%list eqn:E.
      + destruct p; discriminate.
      + rewrite <- E. rewrite removelast_last. reflexivity. }
  rewrite walk_snoc. simpl.
  destruct Hparent as [-> | [-> ->]].
  - intros Hmissing Hdir. rewrite Hdir in Hmissing.
    destruct (FS.stat fs (p ++ [x])) as [n|] eqn:Hstat; [discriminate|].
    unfold FS.stat in Hstat.
    destruct (p ++ [x])%list as [|first [|second rest]] eqn:E.
    + destruct p; discriminate.
    + destruct (String.eqb first "/"); [discriminate | exact Hstat].
    + exact Hstat.
  - simpl. discriminate.
Qed.

(** [write_text] adds a file or replaces the contents of one. *)
Lemma write_text_ok (fs fs' : FileSystem) (p : Path) (c : string) :
  FS.write_text fs p c = Ok fs' ->
  fs' = <[p := File c]> fs
  /\ (fs !! p = None \/ exists c0, fs !! p = Some (File c0)).
Proof.
  unfold FS.write_text.
  destruct (FS.find fs p) as [| |[|c0|]] eqn:Hfind; try discriminate.
  - destruct (FS.find fs (PathLib.parent p)) as [| |[]] eqn:Hparent; try discriminate.
    intros [= <-]. split; [reflexivity|]. left.
    apply find_missing_child; assumption.
  - intros [= <-]. split; [reflexivity|]. right. exists c0.
    apply stat_lookup; [apply find_is; exact Hfind | discriminate].
Qed.

(** [mkdir(exist_ok=True)] adds a directory where there was nothing, or
    finds one. *)
Lemma mkdir_ok (fs fs' : FileSystem) (p : Path) :
  FS.mkdir_exist_ok fs p = Ok fs' ->
  fs' = fs \/ (fs' = <[p := Dir]> fs /\ fs !! p = None).
Proof.
  unfold FS.mkdir_exist_ok.
  destruct (FS.find fs p) as [| |[]] eqn:Hfind; try discriminate.
  - destruct (FS.find fs (PathLib.parent p)) as [| |[]] eqn:Hparent; try discriminate.
    intros [= <-]. right. split; [reflexivity|].
    apply find_missing_child; assumption.
  - intros [= <-]. left. reflexivity.
Qed.

Lemma same_kind_refl (n : Node) : same_kind n n = true.
Proof. destruct n; reflexivity. Qed.

Lemma same_kind_trans (a b c : Node) :
  same_kind a b = true -> same_kind b c = true -> same_kind a c = true.
Proof. destruct a, b, c; simpl; congruence. Qed.

Lemma nothing_lost_refl (w : World) : nothing_lost w w.
Proof. intros p n Hp. exists n. split; [exact Hp | apply same_kind_refl]. Qed.

Lemma nothing_lost_trans (a b c : World) :
  nothing_lost a b -> nothing_lost b c -> nothing_lost a c.
Proof.
  intros Hab Hbc p n Hp.
  destruct (Hab p n Hp) as (n1 & Hp1 & Hk1).
  destruct (Hbc p n1 Hp1) as (n2 & Hp2 & Hk2).
  exists n2. split; [exact Hp2 | eapply same_kind_trans; eauto].
Qed.

Lemma nothing_lost_write_text (w : World) (p : Path) (c : string) (fs' : FileSystem) :
  FS.write_text (fs w) p c = Ok fs' ->
  nothing_lost w (mkWorld fs' (replies w) (trace w)).
Proof.
  intros Hwrite. apply write_text_ok in Hwrite as [-> Hbefore].
  intros q n Hq. simpl. destruct (decide (p = q)) as [<-|Hne].
  - rewrite lookup_insert_eq. exists (File c). split; [reflexivity|].
    destruct Hbefore as [Hnone | [c0 Hfile]]; [congruence|].
    rewrite Hfile in Hq. inversion Hq; subst. reflexivity.
  - rewrite lookup_insert_ne by exact Hne.
    exists n. split; [exact Hq | apply same_kind_refl].
Qed.

Lemma nothing_lost_mkdir (w : World) (p : Path) (fs' : FileSystem) :
  FS.mkdir_exist_ok (fs w) p = Ok fs' ->
  nothing_lost w (mkWorld fs' (replies w) (trace w)).
Proof.
  intros Hmk. apply mkdir_ok in Hmk as [-> | [-> Hnone]]; intros q n Hq; simpl.
  - exists n. split; [exact Hq | apply same_kind_refl].
  - destruct (decide (p = q)) as [<-|Hne]; [congruence|].
    rewrite lookup_insert_ne by exact Hne.
    exists n. split; [exact Hq | apply same_kind_refl].
Qed.

Section Effects.
Variable R : World -> World -> Prop.
Hypothesis R_refl : forall w, R w w.
Hypothesis R_trans : forall a b c, R a b -> R b c -> R a c.
Context `{Collaborators}.
Variable disk : FileSystem.
Variable render_context : Worker.t -> Exc PyDict.
Variable w : Worker.t.
(** reporting an action *)
Hypothesis R_report : forall world action p,
  R world (mkWorld (fs world) (replies world) (trace world ++ [Printf action p])).
(** asking, which happens without [force] only *)
Hypothesis R_ask : Worker.force w = false -> forall world question,
  R world (mkWorld (fs world) (tl (replies world)) (trace world ++ [Asked question])).
(** the two ways the destination is written *)
Hypothesis R_mkdir : forall world p fs',
  FS.mkdir_exist_ok (fs world) p = Ok fs' ->
  R world (mkWorld fs' (replies world) (trace world)).
Hypothesis R_write_text : forall world p c fs',
  FS.write_text (fs world) p c = Ok fs' ->
  R world (mkWorld fs' (replies world) (trace world)).

Lemma effect_printf (action : string) (p : Path) (quiet : bool) :
  keeps R (printf action p quiet).
Proof.
  unfold printf. destruct quiet; [apply keeps_ret; assumption|].
  intros world r world' Hrun. inversion Hrun; subst. apply R_report.
Qed.

Lemma effect_solve_render_conflict (dst_relpath : Path) :
  keeps R (Worker._solve_render_conflict w dst_relpath).
Proof.
  unfold Worker._solve_render_conflict.
  apply keeps_bind; [assumption | apply keeps_lift; assumption | intros _].
  apply keeps_bind; [assumption | apply effect_printf | intros _].
  destruct (Worker.force w) eqn:Hforce; [apply keeps_ret; assumption|].
  intros world r world' Hrun. inversion Hrun; subst. apply R_ask. reflexivity.
Qed.

Ltac effects :=
  repeat first
    [ solve [apply keeps_ret; assumption]
    | solve [apply keeps_lift; assumption]
    | solve [apply keeps_read_fs; assumption]
    | solve [apply effect_printf]
    | solve [apply effect_solve_render_conflict]
    | assumption
    | apply keeps_bind; [assumption| |intros ?]
    | match goal with
      | |- keeps _ (if ?b then _ else _) => destruct b
      | |- keeps _ (match ?x with _ => _ end) => destruct x
      end ].

Lemma effect_render_allowed (dst_relpath : Path) (is_dir : bool)
    (expected_contents : string) :
  keeps R (Worker._render_allowed disk w dst_relpath is_dir expected_contents).
Proof. unfold Worker._render_allowed. cbv zeta. effects. Qed.

Lemma effect_write_text (p : Path) (c : string) :
  keeps R (update_fs (fun fs => FS.write_text fs p c)).
Proof.
  intros world r world' Hrun. unfold update_fs in Hrun.
  destruct (FS.write_text (fs world) p c) eqn:Hwrite; inversion Hrun; subst;
    [eapply R_write_text; exact Hwrite | apply R_refl].
Qed.

Lemma effect_mkdir (p : Path) :
  keeps R (update_fs (fun fs => FS.mkdir_exist_ok fs p)).
Proof.
  intros world r world' Hrun. unfold update_fs in Hrun.
  destruct (FS.mkdir_exist_ok (fs world) p) eqn:Hmk; inversion Hrun; subst;
    [eapply R_mkdir; exact Hmk | apply R_refl].
Qed.

Ltac writes :=
  repeat first
    [ solve [apply keeps_ret; assumption]
    | solve [apply keeps_lift; assumption]
    | solve [apply effect_render_allowed]
    | solve [apply effect_write_text]
    | solve [apply effect_mkdir]
    | assumption
    | apply keeps_bind; [assumption| |intros ?]
    | match goal with
      | |- keeps _ (if ?b then _ else _) => destruct b
      | |- keeps _ (match ?x with _ => _ end) => destruct x
      end ].

Lemma effect_render_file (src_abspath : Path) (content : string) :
  keeps R (Worker.render_file disk render_context w src_abspath content).
Proof. unfold Worker.render_file. cbv zeta. writes. Qed.

Lemma effect_render_folder_body (src_abspath : Path) (children : M unit) :
  keeps R children ->
  keeps R (Worker.render_folder_body disk render_context w src_abspath children).
Proof.
  intros Hchildren. unfold Worker.render_folder_body. cbv zeta. writes.
Qed.

Lemma effect_render_node (node : Tree) :
  forall src_abspath,
    keeps R (Worker.render_node disk render_context w src_abspath node).
Proof.
  induction node as [content|entries IH] using Tree_induction; intros src_abspath.
  - simpl. apply effect_render_file.
  - simpl. apply effect_render_folder_body.
    induction IH as [|[name child] entries Hchild _ IHentries].
    + apply keeps_ret; assumption.
    + apply keeps_bind; [assumption| |intros ?].
      * apply Hchild.
      * apply IHentries.
Qed.

Lemma effect_render_folder (src_abspath : Path) :
  keeps R (Worker.render_folder disk render_context w src_abspath).
Proof.
  unfold Worker.render_folder.
  destruct (src_tree src_abspath) as [[content|entries]|].
  - apply effect_render_folder_body. apply keeps_lift; assumption.
  - apply effect_render_node.
  - apply effect_render_folder_body. apply keeps_lift; assumption.
Qed.

End Effects.

(** X9. [_render_allowed] decides and talks, nothing more: whatever it
    returns or raises, the destination is as it was and no command has been
    run; with [force] it has not asked anything either. *)
Theorem X9_render_allowed_only_reads `{Collaborators} (disk : FileSystem)
    (w : Worker.t) (dst_relpath : Path) (is_dir : bool) (expected_contents : string)
    (world world' : World) (r : Exc bool) :
  Worker._render_allowed disk w dst_relpath is_dir expected_contents world
  = (r, world') ->
  fs world' = fs world
  /\ runs world' = runs world
  /\ (Worker.force w = true -> replies world' = replies world).
Proof.
  intros Hrun. split; [|split].
  - exact (render_allowed_same_fs disk w dst_relpath is_dir expected_contents
             world r world' Hrun).
  - assert (Hkeeps : keeps same_runs
              (Worker._render_allowed disk w dst_relpath is_dir expected_contents)).
    { apply keeps_render_allowed;
        first [ exact same_runs_refl | exact same_runs_trans | exact same_runs_talk ]. }
    exact (Hkeeps world r world' Hrun).
  - intros Hforce.
    assert (Hkeeps : keeps (fun a b => replies b = replies a)
              (Worker._render_allowed disk w dst_relpath is_dir expected_contents)).
    { apply effect_render_allowed; first [ reflexivity | intros; congruence ]. }
    exact (Hkeeps world r world' Hrun).
Qed.

Lemma X9_render_allowed_only_reads_witness :
  let E := Sample.collaborators Sample.tpl_root Sample.tpl_tree []
             (fun _ => Ok (VDict [])) in
  let w := Sample.worker (Some "/tpl") Sample.dst_root in
  let disk : FileSystem := <[ ["/"; "dst"; "a.txt"] := File "old" ]> Sample.empty_dst in
  let world := mkWorld disk [false] [] in
  let '(r, world') := Worker._render_allowed disk w ["a.txt"] false "hi" world in
  r = Raise (TypeError "unhashable type: 'Worker'")
  /\ fs world' = fs world
  /\ runs world' = runs world
  /\ (Worker.force w = true -> replies world' = replies world).
Proof.
  intros E w disk world.
  destruct (Worker._render_allowed disk w ["a.txt"] false "hi" world)
    as [r world'] eqn:Hrun.
  split.
  - revert Hrun. vm_compute. intros Hrun. inversion Hrun. reflexivity.
  - exact (@X9_render_allowed_only_reads E disk w ["a.txt"] false "hi" world world'
             r Hrun).
Defined.

(** X13. Rendering a folder never removes anything from the destination
    and never changes what kind of thing a path is: every path that was
    there is still there, a directory is still a directory and a file is
    still a file (its contents may have changed).  This holds for every
    run, also one that ends in an error. *)
Theorem X13_rendering_loses_nothing `{Collaborators} (disk : FileSystem)
    (render_context : Worker.t -> Exc PyDict) (w : Worker.t) (src_abspath : Path)
    (world world' : World) (r : Exc unit) :
  Worker.render_folder disk render_context w src_abspath world = (r, world') ->
  forall p n, fs world !! p = Some n ->
    exists n', fs world' !! p = Some n' /\ same_kind n n' = true.
Proof.
  intros Hrun.
  assert (Hkeeps : keeps nothing_lost
            (Worker.render_folder disk render_context w src_abspath)).
  { apply effect_render_folder;
      first [ exact nothing_lost_refl
            | exact nothing_lost_trans
            | exact nothing_lost_mkdir
            | exact nothing_lost_write_text
            | intros; intros q n Hq; exists n;
              split; [exact Hq | apply same_kind_refl] ]. }
  exact (Hkeeps world r world' Hrun).
Qed.

(** X14. Rendering a folder runs no command, and with [force] it asks
    nothing: the replies the user has ready are all still there. *)
Theorem X14_rendering_runs_nothing `{Collaborators} (disk : FileSystem)
    (render_context : Worker.t -> Exc PyDict) (w : Worker.t) (src_abspath : Path)
    (world world' : World) (r : Exc unit) :
  Worker.render_folder disk render_context w src_abspath world = (r, world') ->
  runs world' = runs world
  /\ (Worker.force w = true -> replies world' = replies world).
Proof.
  intros Hrun. split.
  - assert (Hkeeps : keeps same_runs
              (Worker.render_folder disk render_context w src_abspath)).
    { apply keeps_render_folder;
        first [ exact same_runs_refl | exact same_runs_trans
              | exact same_runs_talk | exact same_runs_write ]. }
    exact (Hkeeps world r world' Hrun).
  - intros Hforce.
    assert (Hkeeps : keeps (fun a b => replies b = replies a)
              (Worker.render_folder disk render_context w src_abspath)).
    { apply effect_render_folder; first [ reflexivity | intros; congruence ]. }
    exact (Hkeeps world r world' Hrun).
Qed.

Lemma X13_rendering_loses_nothing_witness :
  let E := Sample.collaborators Sample.tpl_root Sample.tpl_tree []
             (fun _ => Ok (VDict [])) in
  let w := Sample.worker (Some "/tpl") Sample.dst_root in
  let disk : FileSystem :=
    <[ ["/"; "dst"; "sub"; "b.txt"] := File "old" ]>
      (<[ ["/"; "dst"; "sub"] := Dir ]> Sample.empty_dst) in
  let world := mkWorld disk [] [] in
  let '(r, world') :=
    Worker.render_folder disk (Worker._render_context disk) w
      ["/"; "tpl"; "sub"] world in
  r = Raise (TypeError "argument after ** must be a mapping, not NoneType")
  /\ fs world' !! ["/"; "dst"; "sub"; "b.txt"] = Some (File "old")
  /\ forall p n, fs world !! p = Some n ->
       exists n', fs world' !! p = Some n' /\ same_kind n n' = true.
Proof.
  intros E w disk world.
  destruct (Worker.render_folder disk (Worker._render_context disk) w
              ["/"; "tpl"; "sub"] world)
    as [r world'] eqn:Hrun.
  split; [|split].
  - revert Hrun. vm_compute. intros Hrun. inversion Hrun. reflexivity.
  - revert Hrun. vm_compute. intros Hrun. inversion Hrun. reflexivity.
  - exact (@X13_rendering_loses_nothing E disk (Worker._render_context disk) w
             ["/"; "tpl"; "sub"] world world' r Hrun).
Defined.

Lemma X14_rendering_runs_nothing_witness :
  let E := Sample.collaborators Sample.tpl_root Sample.tpl_tree []
             (fun _ => Ok (VDict [])) in
  let w := Worker.mk [".copier-answers.yml"] true [] Sample.dst_root (VObj "EnvOps")
             [] [] true false false [] (Some "/tpl") None false None in
  let disk : FileSystem :=
    <[ ["/"; "dst"; "sub"; "b.txt"] := File "old" ]>
      (<[ ["/"; "dst"; "sub"] := Dir ]> Sample.empty_dst) in
  let world := mkWorld disk [false; false] [] in
  let '(r, world') :=
    Worker.render_folder disk (Worker._render_context disk) w
      ["/"; "tpl"; "sub"] world in
  r = Raise (TypeError "argument after ** must be a mapping, not NoneType")
  /\ runs world' = runs world
  /\ (Worker.force w = true -> replies world' = replies world).
Proof.
  intros E w disk world.
  destruct (Worker.render_folder disk (Worker._render_context disk) w
              ["/"; "tpl"; "sub"] world)
    as [r world'] eqn:Hrun.
  split.
  - revert Hrun. vm_compute. intros Hrun. inversion Hrun. reflexivity.
  - exact (@X14_rendering_runs_nothing E disk (Worker._render_context disk) w
             ["/"; "tpl"; "sub"] world world' r Hrun).
Defined.

(** ** One file *)



(** X16. A file or folder with a name of which some segment renders to
    the empty string is skipped: nothing is reported, asked or written, and
    the entries of such a folder are not visited, whatever they are. *)
Theorem X16_empty_name_is_skipped `{Collaborators} (disk : FileSystem)
    (render_context : Worker.t -> Exc PyDict) (w : Worker.t) (src_abspath : Path)
    (tpl : Template.t) (root src_relpath : Path) (world : World) :
  PathLib.is_absolute src_abspath = true ->
  Worker.template disk w = Ok tpl ->
  Template.local_path tpl = Ok root ->
  PathLib.relative_to src_abspath root = Ok src_relpath ->
  Worker.render_path disk render_context w src_relpath = Ok None ->
  (forall content,
     Worker.render_file disk render_context w src_abspath content world
     = (Ok tt, world))
  /\ (forall entries,
        Worker.render_node disk render_context w src_abspath (TDir entries) world
        = (Ok tt, world)).
Proof.
  intros Habs Htpl Hroot Hrel Hpath. split.
  - intros content. unfold Worker.render_file.
    rewrite M_bind_lift, Habs. simpl.
    rewrite M_bind_lift, Htpl.
    rewrite M_bind_lift, Hroot.
    rewrite M_bind_lift, Hrel.
    rewrite M_bind_lift, Hpath. reflexivity.
  - intros entries. simpl. unfold Worker.render_folder_body.
    rewrite M_bind_lift, Habs. simpl.
    rewrite M_bind_lift, Htpl.
    rewrite M_bind_lift, Hroot.
    rewrite M_bind_lift, Hrel.
    rewrite M_bind_lift, Hpath. reflexivity.
Qed.

Lemma X16_empty_name_is_skipped_witness :
  let tree := TDir [("{{ docs }}", TDir [("index.md", TFile "x")])] in
  let E := Sample.collaborators_with Sample.tpl_root tree []
             (fun _ => Ok (VDict []))
             (fun source => if String.eqb source "{{ docs }}" then Ok "" else Ok source)
             (fun _ fs => Ok fs) in
  let w := Sample.worker (Some "/tpl") Sample.dst_root in
  let world := Sample.world_of Sample.empty_dst in
  (forall content,
     Worker.render_file Sample.empty_dst Sample.context_ok w
       ["/"; "tpl"; "{{ docs }}"; "index.md"] content world
     = (Ok tt, world))
  /\ (forall entries,
        Worker.render_node Sample.empty_dst Sample.context_ok w
          ["/"; "tpl"; "{{ docs }}"; "index.md"] (TDir entries) world
        = (Ok tt, world)).
Proof.
  intros tree E w world.
  refine (@X16_empty_name_is_skipped E Sample.empty_dst Sample.context_ok w
            ["/"; "tpl"; "{{ docs }}"; "index.md"] (Template.mk "/tpl" None)
            ["/"; "tpl"] ["{{ docs }}"; "index.md"] world _ _ _ _ _);
    vm_compute; reflexivity.
Defined.

(** ** Tasks *)

(** One task: it runs and is recorded, or it raises and leaves the files
    and the record of runs alone. *)
Lemma execute_task_cases `{Collaborators} (render_context : Worker.t -> Exc PyDict)
    (w : Worker.t) (i total : nat) (task : PyDict) (world world' : World)
    (r : Exc unit) :
  Worker.execute_task render_context w i total task world = (r, world') ->
  (r = Ok tt
   /\ exists task_cmd cmd extra_env,
        Dict.lookup "task" task = Some task_cmd
        /\ Worker.task_command render_context w task_cmd = Ok cmd
        /\ subprocess_run cmd (Worker.dst_path w) extra_env (fs world) = Ok (fs world')
        /\ runs world' = (runs world ++ [Ran cmd (Worker.dst_path w) extra_env])%list)
  \/ ((exists e, r = Raise e) /\ fs world' = fs world /\ runs world' = runs world).
Proof.
  unfold Worker.execute_task. intros Hrun.
  rewrite M_bind_lift in Hrun. unfold Dict.getitem in Hrun.
  destruct (Dict.lookup "task" task) as [task_cmd|] eqn:Htask;
    [|inversion Hrun; right; eauto].
  rewrite M_bind_lift in Hrun.
  destruct (Worker.task_command render_context w task_cmd) as [cmd|e] eqn:Hcmd;
    [|inversion Hrun; right; eauto].
  apply M_bind_cases in Hrun as [([] & w1 & Hnotice & Hrun) | (e & Hnotice & ->)].
  2:{ destruct (Worker.quiet w); inversion Hnotice. }
  assert (H1 : fs w1 = fs world /\ runs w1 = runs world).
  { destruct (Worker.quiet w); inversion Hnotice; subst.
    - split; reflexivity.
    - split; [reflexivity|]. rewrite runs_app. simpl. apply app_nil_r. }
  destruct H1 as [Hfs1 Hruns1].
  apply M_bind_cases in Hrun as [([] & w2 & Hcd & Hrun) | (e & Hcd & ->)].
  2:{ right. unfold Worker.chdir in Hcd.
      unfold mbind, M_bind, read_fs in Hcd.
      destruct (FS.find (fs w1) (Worker.dst_path w)) as [| |[]];
        inversion Hcd; subst; eauto. }
  assert (H2 : w2 = w1).
  { unfold Worker.chdir in Hcd. unfold mbind, M_bind, read_fs in Hcd.
    destruct (FS.find (fs w1) (Worker.dst_path w)) as [| |[]];
      inversion Hcd; reflexivity. }
  subst w2.
  rewrite M_bind_lift in Hrun.
  destruct (attr_items (Dict.get_default task "extra_env" (VDict [])))
    as [extra_env|e]; [|inversion Hrun; subst; right; eauto].
  apply M_bind_cases in Hrun as [([] & w3 & Hsub & Hrun) | (e & Hsub & ->)].
  - unfold update_fs in Hsub.
    destruct (subprocess_run cmd (Worker.dst_path w) extra_env (fs w1))
      as [fs'|e] eqn:Ep; [|discriminate].
    inversion Hsub; subst w3. clear Hsub.
    inversion Hrun; subst. left. split; [reflexivity|].
    exists task_cmd, cmd, extra_env.
    split; [reflexivity|]. split; [exact Hcmd|]. split.
    + simpl. rewrite <- Hfs1. exact Ep.
    + rewrite runs_app. simpl. unfold runs in *. simpl. rewrite Hruns1. reflexivity.
  - right. unfold update_fs in Hsub.
    destruct (subprocess_run cmd (Worker.dst_path w) extra_env (fs w1));
      inversion Hsub; subst. eauto.
Qed.

Lemma execute_from_cases `{Collaborators} (render_context : Worker.t -> Exc PyDict)
    (w : Worker.t) (total : nat) (tasks : list PyDict) :
  forall (i : nat) (world world' : World) (r : Exc unit),
    Worker.execute_from render_context w i total tasks world = (r, world') ->
    exists done ran,
      Forall2 (fun task ev =>
                 exists task_cmd cmd extra_env,
                   Dict.lookup "task" task = Some task_cmd
                   /\ Worker.task_command render_context w task_cmd = Ok cmd
                   /\ ev = Ran cmd (Worker.dst_path w) extra_env) done ran
      /\ runs world' = (runs world ++ ran)%list
      /\ (r = Ok tt -> done = tasks)
      /\ (forall e, r = Raise e -> exists failed rest, tasks = (done ++ failed :: rest)%list).
Proof.
  induction tasks as [|task tasks IH]; intros i world world' r Hrun; simpl in Hrun.
  - inversion Hrun; subst. exists [], []. split; [constructor|].
    split; [rewrite app_nil_r; reflexivity|]. split; [reflexivity|]. discriminate.
  - apply M_bind_cases in Hrun as [([] & w1 & Hfirst & Hrest) | (e & Hfirst & ->)].
    + apply execute_task_cases in Hfirst
        as [(_ & task_cmd & cmd & extra_env & Htask & Hcmd & _ & Hruns)
           | ([e He] & _)]; [|discriminate].
      apply IH in Hrest as (done & ran & Hdone & Hruns' & Hok & Hfail).
      exists (task :: done), (Ran cmd (Worker.dst_path w) extra_env :: ran).
      split; [constructor; [eauto 6 | exact Hdone]|].
      split; [rewrite Hruns', Hruns, <- app_assoc; reflexivity|].
      split.
      * intros Hr. rewrite (Hok Hr). reflexivity.
      * intros e Hr. destruct (Hfail e Hr) as (failed & rest & ->).
        exists failed, rest. reflexivity.
    + apply execute_task_cases in Hfirst
        as [(Hr & _) | (_ & _ & Hruns)]; [discriminate|].
      exists [], []. split; [constructor|].
      split; [rewrite app_nil_r; exact Hruns|]. split; [discriminate|].
      intros _ _. exists task, tasks. reflexivity.
Qed.



(** ** The worker as it stands *)

(** X18. As the class stands, no run succeeds.  [_render_context] raises
    (it unpacks the [None] that [_answers_to_remember] returns), so
    [run_copy] raises before anything is rendered: the destination is
    untouched and no task is run.  [run_auto] does the same when
    [src_path] is set, and otherwise calls [run_update], which raises
    [NameError] at its first expression. *)
Theorem X18_no_run_succeeds `{Collaborators} (disk : FileSystem) (w : Worker.t)
    (world : World) :
  (exists e world',
     Worker.run_copy disk (Worker._render_context disk) w world = (Raise e, world')
     /\ fs world' = fs world /\ runs world' = runs world)
  /\ (exists e world',
        Worker.run_auto disk (Worker._render_context disk) w world = (Raise e, world')
        /\ fs world' = fs world /\ runs world' = runs world).
Proof.
  split; [apply run_copy_raises|].
  unfold Worker.run_auto. destruct (Worker.truthy_opt (Worker.src_path w)).
  - apply run_copy_raises.
  - unfold Worker.run_update, lift. eauto.
Qed.

(** ** The errors of [_render_allowed] *)

(** X19. How [_render_allowed] ends.  An absolute path, or expected
    contents for a folder, fail its assertions.  Past the assertions, and
    with the exclusions at hand, the call of [_path_matcher] raises
    [TypeError]: the worker, part of the key of the cache, cannot be
    hashed.  In each case nothing has been read, reported or asked. *)
Theorem X19_render_allowed_errors `{Collaborators} (disk : FileSystem)
    (w : Worker.t) (dst_relpath : Path) (is_dir : bool) (expected_contents : string)
    (world : World) :
  (PathLib.is_absolute dst_relpath = true ->
   Worker._render_allowed disk w dst_relpath is_dir expected_contents world
   = (Raise (AssertionError ""), world))
  /\ (PathLib.is_absolute dst_relpath = false ->
      is_dir = true -> expected_contents <> "" ->
      Worker._render_allowed disk w dst_relpath is_dir expected_contents world
      = (Raise (AssertionError "Dirs cannot have expected content"), world))
  /\ (forall exclusions,
        PathLib.is_absolute dst_relpath = false ->
        (is_dir = true -> expected_contents = "") ->
        Worker.all_exclusions disk w = Ok exclusions ->
        Worker._render_allowed disk w dst_relpath is_dir expected_contents world
        = (Raise (TypeError "unhashable type: 'Worker'"), world)).
Proof.
  split; [|split].
  - intros Habs. unfold Worker._render_allowed.
    rewrite M_bind_lift, Habs. reflexivity.
  - intros Hrel -> Hne. unfold Worker._render_allowed.
    rewrite M_bind_lift, Hrel. simpl. rewrite M_bind_lift.
    unfold Str.truthy. apply String.eqb_neq in Hne. rewrite Hne. reflexivity.
  - intros exclusions Hrel Hdir Hex.
    exact (render_allowed_unhashable disk w dst_relpath is_dir expected_contents
             exclusions world Hrel Hdir Hex).
Qed.

Lemma X19_render_allowed_errors_witness :
  let E := Sample.collaborators Sample.tpl_root Sample.tpl_tree []
             (fun _ => Ok (VDict [])) in
  let w := Sample.worker (Some "/tpl") Sample.dst_root in
  let disk : FileSystem :=
    <[ ["/"; "dst"; "a.txt"] := File "old" ]> Sample.empty_dst in
  let world := Sample.world_of disk in
  Worker._render_allowed disk w ["/"; "etc"; "passwd"] false "x" world
  = (Raise (AssertionError ""), world)
  /\ Worker._render_allowed disk w ["sub"] true "x" world
     = (Raise (AssertionError "Dirs cannot have expected content"), world)
  /\ Worker._render_allowed disk w ["a.txt"] false "hi" world
     = (Raise (TypeError "unhashable type: 'Worker'"), world)
  /\ Worker._render_allowed disk w ["b.txt"] false "ho" world
     = (Raise (TypeError "unhashable type: 'Worker'"), world).
Proof.
  intros E w disk world.
  split; [|split; [|split]].
  - apply (proj1 (@X19_render_allowed_errors E disk w ["/"; "etc"; "passwd"] false "x"
                    world)). reflexivity.
  - apply (proj1 (proj2 (@X19_render_allowed_errors E disk w ["sub"] true "x" world)));
      [reflexivity | reflexivity | discriminate].
  - apply (proj2 (proj2 (@X19_render_allowed_errors E disk w ["a.txt"] false "hi" world))
             DEFAULT_EXCLUDE);
      try (vm_compute; reflexivity); discriminate.
  - apply (proj2 (proj2 (@X19_render_allowed_errors E disk w ["b.txt"] false "ho" world))
             DEFAULT_EXCLUDE);
      try (vm_compute; reflexivity); discriminate.
Defined.

(** ** Building an [AnswersMap] *)

Lemma new_layer_fresh (h0 : Store.heap) (Hclosed : Store.closed h0)
    (arg : option Store.val) (h : Store.heap) :
  Store.extends h0 h -> Store.valid_arg h0 arg ->
  exists l h',
    Store.new_layer (S (length h0)) arg h = Some (l, h')
    /\ Store.extends h0 h' /\ length h <= l < length h'
    /\ exists items, h' !! l = Some (Store.ODict items).
Proof.
  intros Hext Harg. pose proof Hext as (Hlen & Holdh & _).
  destruct arg as [[a|l]|]; simpl in *.
  - contradiction.
  - destruct Harg as [items Hitems].
    assert (Hl : l < length h0) by (eapply lookup_lt_Some; eauto).
    rewrite (Holdh l Hl). rewrite Hitems.
    destruct (copy_values_ok h0 Hclosed items h Hext (Hclosed l _ Hitems))
      as (items' & h' & -> & Hext' & Hlen' & Hfresh').
    exists (length h'), (h' ++ [Store.ODict items'])%list.
    split; [reflexivity|]. split.
    { apply extends_alloc; [exact Hext'|]. simpl.
      eapply Forall_fresh_mono; [|exact Hfresh']. lia. }
    rewrite length_app. simpl. split; [lia|].
    exists items'. rewrite lookup_app_r by lia.
    replace (length h' - length h') with 0 by lia. reflexivity.
  - exists (length h), (h ++ [Store.ODict []])%list.
    split; [reflexivity|]. split.
    { apply extends_alloc; [exact Hext | constructor]. }
    rewrite length_app. simpl. split; [lia|].
    exists []. rewrite lookup_app_r by lia.
    replace (length h - length h) with 0 by lia. reflexivity.
Qed.

(** X20. Building an [AnswersMap] leaves the objects of the caller as
    they are, and its five layers are five new dicts, different from one
    another and from every object that existed before; no value of a layer
    is an object that existed before, even when the same dict is passed for
    several layers. *)
Theorem X20_answers_map_shares_nothing (h0 : Store.heap)
    (init_ user_ last_ default_ : option Store.val) :
  Store.closed h0 ->
  Store.valid_arg h0 init_ -> Store.valid_arg h0 user_ ->
  Store.valid_arg h0 last_ -> Store.valid_arg h0 default_ ->
  exists am h1,
    Store.new (S (length h0)) init_ user_ last_ default_ h0 = Some (am, h1)
    /\ (forall l, l < length h0 -> h1 !! l = h0 !! l)
    /\ NoDup (Store.combined am)
    /\ Forall (fun l => length h0 <= l < length h1) (Store.combined am)
    /\ (forall l k v,
          l ∈ Store.combined am -> Store.dict_lookup h1 l k = Some v ->
          Store.fresh_val (length h0) (length h1) v).
Proof.
  intros Hclosed Hi Hu Hl Hd. unfold Store.new.
  destruct (new_layer_fresh h0 Hclosed init_ h0 (extends_refl h0) Hi)
    as (i & h1 & -> & Hext1 & Hi1 & _).
  destruct (new_layer_fresh h0 Hclosed user_ h1 Hext1 Hu)
    as (u & h2 & -> & Hext2 & Hu2 & _).
  destruct (new_layer_fresh h0 Hclosed last_ h2 Hext2 Hl)
    as (la & h3 & -> & Hext3 & Hl3 & _).
  destruct (new_layer_fresh h0 Hclosed default_ h3 Hext3 Hd)
    as (d & h4 & -> & Hext4 & Hd4 & _).
  eexists _, _. split; [reflexivity|].
  assert (Hext5 : Store.extends h0 (h4 ++ [Store.ODict []])).
  { apply extends_alloc; [exact Hext4 | constructor]. }
  assert (Hbounds : Forall (fun l => length h0 <= l < length (h4 ++ [Store.ODict []]))
                      (Store.combined (Store.mkAnswersMap i u la d (length h4)))).
  { unfold Store.combined. simpl. rewrite length_app. simpl.
    repeat constructor; lia. }
  split; [|split; [|split; [exact Hbounds|]]].
  - apply Hext5.
  - unfold Store.combined. simpl.
    repeat (apply NoDup_cons; split;
            [rewrite ?elem_of_cons, ?elem_of_nil; lia|]).
    apply NoDup_nil_2.
  - intros l k v Hin Hlook.
    rewrite Forall_forall in Hbounds. specialize (Hbounds l Hin).
    unfold Store.dict_lookup in Hlook.
    destruct ((h4 ++ [Store.ODict []])%list !! l) as [[items|items]|] eqn:Ho;
      try discriminate.
    apply assoc_elem_of in Hlook.
    destruct Hext5 as (_ & _ & Hnew).
    pose proof (Hnew l _ (proj1 Hbounds) Ho) as Hfields. simpl in Hfields.
    rewrite Forall_forall in Hfields. apply Hfields. exact Hlook.
Qed.

Lemma X20_answers_map_shares_nothing_witness :
  exists am h1,
    Store.new 3 (Some (Store.Ref 0)) None (Some (Store.Ref 0)) None Sample.caller_heap
      = Some (am, h1)
    /\ (forall l, l < 2 -> h1 !! l = Sample.caller_heap !! l)
    /\ NoDup (Store.combined am)
    /\ Forall (fun l => 2 <= l < length h1) (Store.combined am)
    /\ (forall l k v,
          l ∈ Store.combined am -> Store.dict_lookup h1 l k = Some v ->
          Store.fresh_val 2 (length h1) v).
Proof.
  apply (X20_answers_map_shares_nothing Sample.caller_heap
           (Some (Store.Ref 0)) None (Some (Store.Ref 0)) None).
  - intros l o Hl.
    destruct l as [|[|l]]; simpl in Hl; inversion Hl; subst; simpl;
      repeat constructor; simpl; lia.
  - simpl. eexists. reflexivity.
  - exact I.
  - simpl. eexists. reflexivity.
  - exact I.
Defined.
